(** * Course selection and GPA calculator: the planning core (core.py)

    A shallow embedding of [core.py]: the catalog of course definitions,
    the enrollment plan with its scheduling rules (season match, per-term
    credit cap, no duplicate enrollment), the weighted GPA aggregates and
    the credit-progress report, followed by the properties stated about
    them.

    Python values are modelled as the code has them:
    - [str] is a sequence of Unicode code points ([list N]); comparison is
      lexicographic on code points, as Python compares strings;
    - [float] is IEEE 754 binary64, the kernel's primitive [float], so [+],
      [*], [/], [<], [<=] are the operations Python performs;
    - exceptions are values ([ValueError], [KeyError] or [TypeError]
      carrying the pieces of the f-string message), and a method that
      mutates [self] is a function from the plan to an outcome that carries
      the plan as it is left, also when the method raises;
    - the built-in [round] and the Unicode table of decimal digits are
      parameters of the development: every property holds whatever they
      are. *)

From Stdlib Require Import String Ascii.
From Stdlib Require Import List ZArith NArith Bool Lia.
From Stdlib Require Import Floats Sorted Permutation.
Import ListNotations.

(** ** Python strings *)

Module PyStr.

Definition codepoint := N.
Definition str := list codepoint.

(** Reads the UTF-8 bytes of a literal of this file as code points, so
    that the literals of core.py can be written as they are there. *)
Fixpoint utf8 (bs : list N) : str :=
  match bs with
  | [] => []
  | b :: rest =>
      if (b <? 128)%N then b :: utf8 rest
      else if (b <? 224)%N then
        match rest with
        | b1 :: r => ((b - 192) * 64 + (b1 - 128))%N :: utf8 r
        | _ => []
        end
      else if (b <? 240)%N then
        match rest with
        | b1 :: b2 :: r =>
            ((b - 224) * 4096 + (b1 - 128) * 64 + (b2 - 128))%N :: utf8 r
        | _ => []
        end
      else
        match rest with
        | b1 :: b2 :: b3 :: r =>
            ((b - 240) * 262144 + (b1 - 128) * 4096
             + (b2 - 128) * 64 + (b3 - 128))%N :: utf8 r
        | _ => []
        end
  end.

Definition u (s : string) : str :=
  utf8 (map N_of_ascii (list_ascii_of_string s)).

(** [a == b] on strings. *)
Fixpoint eqb (a b : str) : bool :=
  match a, b with
  | [], [] => true
  | x :: a', y :: b' => (x =? y)%N && eqb a' b'
  | _, _ => false
  end.

(** [a < b] on strings: lexicographic on code points. *)
Fixpoint ltb (a b : str) : bool :=
  match a, b with
  | [], [] => false
  | [], _ :: _ => true
  | _ :: _, [] => false
  | x :: a', y :: b' =>
      if (x <? y)%N then true
      else if (y <? x)%N then false
      else ltb a' b'
  end.

(** [x in l] for a list of strings. *)
Definition mem (x : str) (l : list str) : bool := existsb (eqb x) l.

(** [str.isspace] of one character (Unicode whitespace). *)
Definition isspace (c : codepoint) : bool :=
  ((9 <=? c) && (c <=? 13) || (28 <=? c) && (c <=? 32)
   || (c =? 133) || (c =? 160) || (c =? 5760)
   || (8192 <=? c) && (c <=? 8202)
   || (c =? 8232) || (c =? 8233) || (c =? 8239) || (c =? 8287)
   || (c =? 12288))%N.

Fixpoint lstrip (s : str) : str :=
  match s with
  | c :: s' => if isspace c then lstrip s' else s
  | [] => []
  end.

Definition rstrip (s : str) : str := rev (lstrip (rev s)).

(** [s.strip()] *)
Definition strip (s : str) : str := rstrip (lstrip s).

(** [s.endswith(c)] for a one-character suffix. *)
Definition endswith (s : str) (c : codepoint) : bool :=
  match rev s with
  | x :: _ => (x =? c)%N
  | [] => false
  end.

(** [<] on the tuples [(a1, a2)] and [(b1, b2)] of strings. *)
Definition pair_ltb (a b : str * str) : bool :=
  if ltb (fst a) (fst b) then true
  else if ltb (fst b) (fst a) then false
  else ltb (snd a) (snd b).

End PyStr.

Import PyStr.

(** ** Python floats and the built-ins applied to them *)

Module PyFloat.

Open Scope float_scope.

(** [sum(xs)]: the items are added from left to right to the start value
    [0]; an integer [0] added to a float is the float addition [0.0 + x].
    (CPython 3.12 and later compensate the rounding errors of a float sum;
    the two agree whenever the partial sums are exact. The properties
    below take the term total as [semester_credits] returns it.) *)
Definition py_sum (xs : list float) : float := fold_left PrimFloat.add xs 0.

(** [max(a, b)]: the first argument stays unless the second is greater. *)
Definition py_max (a b : float) : float := if a <? b then b else a.

(** A reference implementation of [round(x, ndigits)] for [ndigits >= 0]:
    the decimal with [ndigits] places nearest to the exact value of [x]
    (ties to the even last digit), converted back to the nearest float.
    Infinities, NaN and zeros round to themselves. The properties are
    stated for an arbitrary [round]; this one evaluates the examples. *)
Definition round_half_even (x : float) (ndigits : Z) : float :=
  match Prim2SF x with
  | S754_finite s m e =>
      let p := (10 ^ ndigits)%Z in
      let q :=
        if (0 <=? e)%Z then (Zpos m * 2 ^ e * p)%Z
        else
          let num := (Zpos m * p)%Z in
          let den := (2 ^ (- e))%Z in
          let fl := (num / den)%Z in
          let r2 := (2 * (num mod den))%Z in
          if (r2 <? den)%Z then fl
          else if (den <? r2)%Z then (fl + 1)%Z
          else if Z.even fl then fl else (fl + 1)%Z in
      match q with
      | Zpos qm =>
          SF2Prim (SFdiv prec emax (S754_finite s qm 0)
                                   (S754_finite false (Z.to_pos p) 0))
      | _ => SF2Prim (S754_zero s)
      end
  | _ => x
  end.

End PyFloat.

Import PyFloat.

(** ** Exceptions, results and sorting *)

(** A piece of an f-string: literal text, or an interpolated value. *)
Inductive frag :=
| Lit (s : string)
| Fstr (s : str)
| Ffloat (x : float)
| Fint (n : Z).

Definition message := list frag.

Inductive exn :=
| ValueError (msg : message)
| KeyError (msg : message)
| TypeError (msg : message).

(** What a call that mutates nothing produces: a value or an exception. *)
Inductive result (A : Type) :=
| Ok (a : A)
| Raise (e : exn).

Arguments Ok {A} a.
Arguments Raise {A} e.

Definition bind {A B : Type} (r : result A) (k : A -> result B) : result B :=
  match r with
  | Ok a => k a
  | Raise e => Raise e
  end.

Notation "x <- r ;; k" := (bind r (fun x => k))
  (at level 61, r at next level, right associativity).

(** The values of a generator, up to the first one that raises. *)
Fixpoint mapM {A B : Type} (f : A -> result B) (l : list A) : result (list B) :=
  match l with
  | [] => Ok []
  | a :: l' => b <- f a ;; bs <- mapM f l' ;; Ok (b :: bs)
  end.

(** [sorted(l, key=...)] on items decorated with their keys: a stable sort
    that compares keys with [<] only. *)
Fixpoint insert_by {K A : Type} (lt : K -> K -> bool) (x : K * A)
    (l : list (K * A)) : list (K * A) :=
  match l with
  | [] => [x]
  | y :: l' => if lt (fst y) (fst x) then y :: insert_by lt x l' else x :: l
  end.

Definition py_sorted {K A : Type} (lt : K -> K -> bool) (l : list (K * A))
  : list (K * A) :=
  fold_right (insert_by lt) [] l.

(** [sorted(l, key=key)] *)
Definition sorted_by_key {K A : Type} (lt : K -> K -> bool) (key : A -> K)
    (l : list A) : list A :=
  map snd (py_sorted lt (map (fun a => (key a, a)) l)).

(** [a] does not come after [b]: the key of [b] is not less. *)
Definition not_after {K A : Type} (lt : K -> K -> bool) (a b : K * A) : Prop :=
  lt (fst b) (fst a) = false.

(** [d.get(k)] on a dict kept as its items in insertion order. *)
Fixpoint lookup {V : Type} (k : str) (d : list (str * V)) : option V :=
  match d with
  | [] => None
  | (k', v) :: d' => if eqb k' k then Some v else lookup k d'
  end.

(** [l[i] = f(l[i])] *)
Fixpoint update_nth {A : Type} (i : nat) (f : A -> A) (l : list A) : list A :=
  match l, i with
  | [], _ => []
  | x :: l', O => f x :: l'
  | x :: l', S i' => x :: update_nth i' f l'
  end.

(** ** Global constants *)

Definition fall_cp : codepoint := 31179%N.    (* U+79CB *)
Definition spring_cp : codepoint := 26149%N.  (* U+6625 *)
Definition summer_cp : codepoint := 22799%N.  (* U+590F *)

Definition SEASONS : list str := [u "秋"; u "春"; u "夏"].

Definition PLAN_SEMESTERS : list str :=
  [u "1秋"; u "1春"; u "1夏";
   u "2秋"; u "2春"; u "2夏";
   u "3秋"; u "3春"; u "3夏";
   u "4秋"; u "4春"; u "4夏"].

(** ** Data structures *)

Record Course := {
  course_id : str;
  name : str;
  course_type : str;
  credits : float;
  semester : str;
  hours : option str;
  category : str
}.

Record PlanItem := {
  item_course_id : str;
  actual_semester : str;
  gpa : option float
}.

(** [Catalog._by_id], a dict in insertion order. *)
Record Catalog := { by_id : list (str * Course) }.

Record EnrollmentPlan := {
  catalog : Catalog;
  term_credit_limit : float;
  elective_credit_requirement : float;
  items : list PlanItem
}.

Definition with_items (p : EnrollmentPlan) (l : list PlanItem) : EnrollmentPlan :=
  {| catalog := catalog p;
     term_credit_limit := term_credit_limit p;
     elective_credit_requirement := elective_credit_requirement p;
     items := l |}.

Definition with_gpa (g : option float) (i : PlanItem) : PlanItem :=
  {| item_course_id := item_course_id i;
     actual_semester := actual_semester i;
     gpa := g |}.

(** The argument of [validate_gpa], seen through what [float(gpa)] makes of
    it: [None], an object that [float()] converts to [v] (a float, an int, a
    numeric string), or an object on which [float()] raises. *)
Inductive gpa_arg :=
| GpaNone
| GpaValue (v : float)
| GpaUnparseable.

(** The persisted document [load_from_config] reads, with the field types
    of the wire format. *)
Record RawItem := {
  raw_course_id : str;
  raw_actual_semester : str;
  raw_gpa : gpa_arg
}.

Record Document := {
  doc_courses : list Course;
  doc_term_credit_limit : float;
  doc_elective_credit_requirement : float;
  doc_items : list RawItem
}.

(** What a method of the plan produces: its value or its exception, and the
    plan as the call leaves it. *)
Inductive outcome (A : Type) :=
| Returned (a : A) (self : EnrollmentPlan)
| Raised (e : exn) (self : EnrollmentPlan).

Arguments Returned {A} a self.
Arguments Raised {A} e self.

Definition M (A : Type) : Type := EnrollmentPlan -> outcome A.

Definition ret {A : Type} (a : A) : M A := fun self => Returned a self.

Definition raise {A : Type} (e : exn) : M A := fun self => Raised e self.

Definition bindM {A B : Type} (m : M A) (k : A -> M B) : M B :=
  fun self =>
    match m self with
    | Returned a self' => k a self'
    | Raised e self' => Raised e self'
    end.

Notation "x <-- m ;; k" := (bindM m (fun x => k))
  (at level 61, m at next level, right associativity).

Definition lift {A : Type} (r : result A) : M A :=
  fun self =>
    match r with
    | Ok a => Returned a self
    | Raise e => Raised e self
    end.

Definition get_self : M EnrollmentPlan := fun self => Returned self self.

Definition set_items (l : list PlanItem) : M unit :=
  fun self => Returned tt (with_items self l).

(** [for x in l: body(x)] *)
Fixpoint for_each {A : Type} (l : list A) (body : A -> M unit) : M unit :=
  match l with
  | [] => ret tt
  | x :: l' => _ <-- body x ;; for_each l' body
  end.

Definition outcome_plan {A : Type} (o : outcome A) : EnrollmentPlan :=
  match o with
  | Returned _ self => self
  | Raised _ self => self
  end.

Definition raised {A : Type} (o : outcome A) : bool :=
  match o with
  | Returned _ _ => false
  | Raised _ _ => true
  end.

(** ** core.py *)

Section Core.

Open Scope float_scope.

(** The built-in [round(x, ndigits)] on floats. *)
Variable py_round : float -> Z -> float.

(** The decimal value of the code points above U+007F that are Unicode
    decimal digits (category Nd): what [\d] of [re] and [int()] accept
    besides [0-9]. *)
Variable nonascii_digit_value : codepoint -> option Z.

(** *** Regular expressions: semester parsing *)

Definition digit_value (c : codepoint) : option Z :=
  if (c <? 128)%N then
    if ((48 <=? c) && (c <=? 57))%N then Some (Z.of_N c - 48)%Z else None
  else nonascii_digit_value c.

(** [\d] *)
Definition re_digit (c : codepoint) : bool :=
  match digit_value c with
  | Some _ => true
  | None => false
  end.

(** [[1-9]] *)
Definition re_1_9 (c : codepoint) : bool := ((49 <=? c) && (c <=? 57))%N.

(** [(秋|春|夏)] *)
Definition re_season (c : codepoint) : bool :=
  ((c =? fall_cp) || (c =? spring_cp) || (c =? summer_cp))%N.

(** [[1-9]\d*] matching a whole string. *)
Definition re_year (y : str) : bool :=
  match y with
  | d :: ds => re_1_9 d && forallb re_digit ds
  | [] => false
  end.

(** [s[:-1]] and [s[-1]] of a non-empty string. *)
Definition split_last (s : str) : option (str * codepoint) :=
  match rev s with
  | c :: r => Some (rev r, c)
  | [] => None
  end.

(** [COURSE_SEM_RE.fullmatch(s)], with [group(2)] when it matches: an
    optional year [[1-9]\d*], then one of the three seasons. *)
Definition COURSE_SEM_RE (s : str) : option str :=
  match split_last s with
  | Some (y, c) =>
      if re_season c && (match y with [] => true | _ => re_year y end)
      then Some [c] else None
  | None => None
  end.

(** [ACTUAL_SEM_RE.fullmatch(s)]: a year [[1-9]\d*], then one of the
    three seasons. *)
Definition ACTUAL_SEM_RE (s : str) : bool :=
  match split_last s with
  | Some (y, c) => re_season c && re_year y
  | None => false
  end.

Definition extract_season (semester_str : str) : result str :=
  match COURSE_SEM_RE (strip semester_str) with
  | None =>
      Raise (ValueError [Lit "非法学期标记："; Fstr semester_str;
                         Lit "（应为 1秋/2春/秋/春/夏 等）"])
  | Some season =>
      if negb (mem season SEASONS)
      then Raise (ValueError [Lit "非法季节："; Fstr season])
      else Ok season
  end.

Definition ensure_actual_semester (sem : str) : result str :=
  let sem := strip sem in
  if negb (ACTUAL_SEM_RE sem)
  then Raise (ValueError [Lit "实际学期必须形如 1秋/2春/3夏，当前："; Fstr sem])
  else Ok sem.

(** [sem[-1]]; the string is not empty once [ensure_actual_semester]
    accepted it. *)
Definition last_char (sem : str) : str :=
  match split_last sem with
  | Some (_, c) => [c]
  | None => []
  end.

Definition season_of_actual_semester (sem : str) : result str :=
  sem <- ensure_actual_semester sem ;;
  Ok (last_char sem).

Definition validate_gpa (gpa : gpa_arg) : result (option float) :=
  match gpa with
  | GpaNone => Ok None
  | GpaUnparseable =>
      Raise (ValueError [Lit "绩点必须是数字（0~4.0）或留空。"])
  | GpaValue v =>
      if (v <? 0) || (4 <? v)
      then Raise (ValueError [Lit "绩点必须在 0~4.0 之间。"])
      else Ok (Some (py_round v 2))
  end.

(** *** Catalog *)

Fixpoint Catalog_init_loop (courses : list Course)
    (_by_id : list (str * Course)) : result Catalog :=
  match courses with
  | [] => Ok {| by_id := _by_id |}
  | c :: courses' =>
      match lookup (course_id c) _by_id with
      | Some _ => Raise (ValueError [Lit "课程编号重复："; Fstr (course_id c)])
      | None =>
          _ <- extract_season (semester c) ;;
          Catalog_init_loop courses' (_by_id ++ [(course_id c, c)])
      end
  end.

(** [Catalog(courses)] *)
Definition Catalog_init (courses : list Course) : result Catalog :=
  Catalog_init_loop courses [].

Definition Catalog_get (self : Catalog) (cid : str) : result Course :=
  match lookup cid (by_id self) with
  | None => Raise (KeyError [Lit "未找到课程编号："; Fstr cid])
  | Some c => Ok c
  end.

Definition Catalog_all (self : Catalog) : list Course := map snd (by_id self).

Definition required_courses (self : Catalog) : list Course :=
  filter (fun c => eqb (course_type c) (u "必修")) (map snd (by_id self)).

(** *** EnrollmentPlan: basics *)

(** [EnrollmentPlan(catalog, term_credit_limit, elective_credit_requirement)] *)
Definition EnrollmentPlan_init (catalog : Catalog)
    (term_credit_limit elective_credit_requirement : float) : EnrollmentPlan :=
  {| catalog := catalog;
     term_credit_limit := term_credit_limit;
     elective_credit_requirement := elective_credit_requirement;
     items := [] |}.

Definition has_course (self : EnrollmentPlan) (cid : str) : bool :=
  existsb (fun i => eqb (item_course_id i) cid) (items self).

Fixpoint first_index (cid : str) (l : list PlanItem) : option nat :=
  match l with
  | [] => None
  | i :: l' =>
      if eqb (item_course_id i) cid then Some O
      else option_map S (first_index cid l')
  end.

(** [_get_item] returns the item object itself; the position of that
    object in [self.items] stands for the reference. *)
Definition _get_item (self : EnrollmentPlan) (cid : str) : result nat :=
  match first_index cid (items self) with
  | Some n => Ok n
  | None => Raise (KeyError [Lit "计划中没有这门课。"])
  end.

Definition total_credits (self : EnrollmentPlan) : result float :=
  cs <- mapM (fun i => c <- Catalog_get (catalog self) (item_course_id i) ;;
                       Ok (credits c))
             (items self) ;;
  Ok (py_sum cs).

Definition semester_credits (self : EnrollmentPlan) (actual_sem : str)
  : result float :=
  actual_sem <- ensure_actual_semester actual_sem ;;
  cs <- mapM (fun i => c <- Catalog_get (catalog self) (item_course_id i) ;;
                       Ok (credits c))
             (filter (fun i => eqb (actual_semester i) actual_sem) (items self)) ;;
  Ok (py_sum cs).

(** *** EnrollmentPlan: GPA of one course *)

Definition get_gpa (self : EnrollmentPlan) (cid : str)
  : result (option float) :=
  n <- _get_item self cid ;;
  Ok (match nth_error (items self) n with
      | Some i => gpa i
      | None => None
      end).

(** [self._get_item(course_id).gpa = validate_gpa(gpa)]: Python evaluates
    the right-hand side of an assignment before its target. *)
Definition set_gpa (cid : str) (gpa : gpa_arg) : M unit :=
  v <-- lift (validate_gpa gpa) ;;
  self <-- get_self ;;
  n <-- lift (_get_item self cid) ;;
  set_items (update_nth n (with_gpa v) (items self)).

(** *** EnrollmentPlan: rule actions *)

Definition add_course (cid actual_sem : str) : M unit :=
  actual_sem <-- lift (ensure_actual_semester actual_sem) ;;
  self <-- get_self ;;
  c <-- lift (Catalog_get (catalog self) cid) ;;
  if has_course self cid
  then raise (ValueError [Lit "重复选课："; Fstr (course_id c);
                          Lit " "; Fstr (name c)])
  else
    course_season <-- lift (extract_season (semester c)) ;;
    target_season <-- lift (season_of_actual_semester actual_sem) ;;
    if negb (eqb course_season target_season)
    then raise (ValueError
                  [Lit "季节不匹配：目标 "; Fstr actual_sem; Lit "（";
                   Fstr target_season; Lit "）不能选 ";
                   Fstr (course_id c); Lit " "; Fstr (name c);
                   Lit "（课程季节="; Fstr course_season;
                   Lit "；方案学期="; Fstr (semester c); Lit "）"])
    else
      current <-- lift (semester_credits self actual_sem) ;;
      if term_credit_limit self <? current + credits c
      then
        shown <-- lift (semester_credits self actual_sem) ;;
        raise (ValueError
                 [Fstr actual_sem; Lit " 学分超上限："; Ffloat shown;
                  Lit " + "; Ffloat (credits c); Lit " > ";
                  Ffloat (term_credit_limit self)])
      else
        set_items (items self
                   ++ [{| item_course_id := cid;
                          actual_semester := actual_sem;
                          gpa := None |}]).

Definition remove_course (cid : str) : M unit :=
  self <-- get_self ;;
  let before := length (items self) in
  _ <-- set_items
          (filter (fun i => negb (eqb (item_course_id i) cid))
                  (items self)) ;;
  self <-- get_self ;;
  if (length (items self) =? before)%nat
  then raise (KeyError [Lit "计划中没有这门课。"])
  else ret tt.

(** ["4秋" if s == "秋" else ("4春" if s == "春" else "4夏")] *)
Definition final_year_of_season (s : str) : str :=
  if eqb s (u "秋") then u "4秋"
  else if eqb s (u "春") then u "4春" else u "4夏".

(** ["4秋" if target.endswith("秋") else ("4春" if target.endswith("春") else "4夏")] *)
Definition final_year_of_suffix (target : str) : str :=
  if endswith target fall_cp then u "4秋"
  else if endswith target spring_cp then u "4春" else u "4夏".

Definition auto_add_all_required : M unit :=
  self <-- get_self ;;
  keyed <-- lift (mapM (fun x => s <- extract_season (semester x) ;;
                                 Ok ((s, course_id x), x))
                       (required_courses (catalog self))) ;;
  let required := map snd (py_sorted pair_ltb keyed) in
  for_each required (fun c =>
    self <-- get_self ;;
    if has_course self (course_id c) then ret tt
    else
      target <-- (if ACTUAL_SEM_RE (semester c) then ret (semester c)
                  else s <-- lift (extract_season (semester c)) ;;
                       ret (final_year_of_season s)) ;;
      let target :=
        if negb (mem target PLAN_SEMESTERS)
        then final_year_of_suffix target else target in
      add_course (course_id c) target).

(** *** Configuration file: reading *)

Fixpoint load_items (catalog : Catalog) (raw : list RawItem)
    (items : list PlanItem) : result (list PlanItem) :=
  match raw with
  | [] => Ok items
  | it :: raw' =>
      let cid := raw_course_id it in
      actual_sem <- ensure_actual_semester (raw_actual_semester it) ;;
      gpa <- validate_gpa (raw_gpa it) ;;
      _ <- Catalog_get catalog cid ;;
      load_items catalog raw'
        (items ++ [{| item_course_id := cid;
                      actual_semester := actual_sem;
                      gpa := gpa |}])
  end.

(** [load_from_config] once the file is read and parsed. *)
Definition load_from_config (data : Document)
  : result (Catalog * EnrollmentPlan) :=
  catalog <- Catalog_init (doc_courses data) ;;
  let plan := EnrollmentPlan_init catalog (doc_term_credit_limit data)
                (doc_elective_credit_requirement data) in
  items <- load_items catalog (doc_items data) (items plan) ;;
  Ok (catalog, with_items plan items).

(** *** EnrollmentPlan: weighted GPA aggregates *)

(** [float(i.gpa)] *)
Definition float_of_gpa (g : option float) : result float :=
  match g with
  | Some v => Ok v
  | None => Raise (TypeError [Lit "float() argument must be a string or a real number, not 'NoneType'"])
  end.

(** The loop shared by the four aggregates:
    [for i in items: c = self.catalog.get(i.course_id);
     total_w += float(i.gpa) * c.credits; total_c += c.credits]. *)
Fixpoint weighted_totals (cat : Catalog) (l : list PlanItem)
    (total_w total_c : float) : result (float * float) :=
  match l with
  | [] => Ok (total_w, total_c)
  | i :: l' =>
      c <- Catalog_get cat (item_course_id i) ;;
      g <- float_of_gpa (gpa i) ;;
      weighted_totals cat l' (total_w + g * credits c) (total_c + credits c)
  end.

(** [sum(1 for i in l if i.gpa is None)] *)
Definition count_missing (l : list PlanItem) : nat :=
  List.length (filter (fun i => match gpa i with None => true | Some _ => false end) l).

Definition semester_gpa (self : EnrollmentPlan) (actual_sem : str)
  : result (option float * nat) :=
  actual_sem <- ensure_actual_semester actual_sem ;;
  let term_items :=
    filter (fun i => eqb (actual_semester i) actual_sem) (items self) in
  match term_items with
  | [] => Ok (None, O)
  | _ =>
      let missing := count_missing term_items in
      if (0 <? missing)%nat then Ok (None, missing)
      else
        t <- weighted_totals (catalog self) term_items 0 0 ;;
        let (total_w, total_c) := t in
        if total_c <=? 0 then Ok (None, O)
        else Ok (Some (py_round (total_w / total_c) 3), O)
  end.

Definition overall_gpa (self : EnrollmentPlan) : result (option float * nat) :=
  match items self with
  | [] => Ok (None, O)
  | _ =>
      let missing := count_missing (items self) in
      if (0 <? missing)%nat then Ok (None, missing)
      else
        t <- weighted_totals (catalog self) (items self) 0 0 ;;
        let (total_w, total_c) := t in
        if total_c <=? 0 then Ok (None, O)
        else Ok (Some (py_round (total_w / total_c) 3), O)
  end.

(** [(c.category or "未分类").strip()] *)
Definition category_or_default (c : Course) : str :=
  strip (match category c with [] => u "未分类" | _ => category c end).

Fixpoint major_items_loop (cat : Catalog) (major_categories : list str)
    (l : list PlanItem) (major_items : list PlanItem) : result (list PlanItem) :=
  match l with
  | [] => Ok major_items
  | it :: l' =>
      c <- Catalog_get cat (item_course_id it) ;;
      major_items_loop cat major_categories l'
        (if mem (category_or_default c) major_categories
         then major_items ++ [it] else major_items)
  end.

Definition major_gpa (self : EnrollmentPlan) (major_categories : option (list str))
  : result (option float * nat) :=
  let major_categories :=
    match major_categories with
    | None => [u "专业必修"; u "专业选修"]
    | Some s => s
    end in
  major_items <- major_items_loop (catalog self) major_categories (items self) [] ;;
  match major_items with
  | [] => Ok (None, O)
  | _ =>
      let missing := count_missing major_items in
      if (0 <? missing)%nat then Ok (None, missing)
      else
        t <- weighted_totals (catalog self) major_items 0 0 ;;
        let (total_w, total_c) := t in
        if total_c <=? 0 then Ok (None, O)
        else Ok (Some (py_round (total_w / total_c) 3), O)
  end.

(** [int(s)] on a string of decimal digits, the form [sem[:-1]] has for
    every actual semester that [ensure_actual_semester] accepted. [int()]
    first counts the digits the string starts with and raises when there
    are more than 4300 of them, the limit of the interpreter, which the
    program does not change; then it reads the value. On strings that are
    not all digits this model raises, where [int()] would still read a
    sign, blanks or underscores; [yearly_gpa] is used on accepted
    semesters. *)
Fixpoint leading_digits (s : str) : nat :=
  match s with
  | c :: s' => if re_digit c then S (leading_digits s') else O
  | [] => O
  end.

Fixpoint int_digits (s : str) (acc : Z) : option Z :=
  match s with
  | [] => Some acc
  | c :: s' =>
      match digit_value c with
      | Some d => int_digits s' (acc * 10 + d)%Z
      | None => None
      end
  end.

Definition py_int (s : str) : result Z :=
  let digits := leading_digits s in
  if (4300 <? digits)%nat
  then Raise (ValueError
                [Lit "Exceeds the limit (4300 digits) for integer string conversion: value has ";
                 Fint (Z.of_nat digits);
                 Lit " digits; use sys.set_int_max_str_digits() to increase the limit"])
  else
    match s with
    | [] => Raise (ValueError [Lit "invalid literal for int() with base 10: "; Fstr s])
    | _ =>
        match int_digits s 0%Z with
        | Some n => Ok n
        | None => Raise (ValueError [Lit "invalid literal for int() with base 10: "; Fstr s])
        end
    end.

(** [d.setdefault(k, []).append(v)] on a dict with integer keys. *)
Fixpoint bucket_append (k : Z) (v : PlanItem) (d : list (Z * list PlanItem))
  : list (Z * list PlanItem) :=
  match d with
  | [] => [(k, [v])]
  | (k', vs) :: d' =>
      if (k' =? k)%Z then (k', vs ++ [v]) :: d'
      else (k', vs) :: bucket_append k v d'
  end.

Fixpoint yearly_buckets (l : list PlanItem) (buckets : list (Z * list PlanItem))
  : result (list (Z * list PlanItem)) :=
  match l with
  | [] => Ok buckets
  | it :: l' =>
      let sem := actual_semester it in
      year <- py_int (removelast sem) ;;
      yearly_buckets l' (bucket_append year it buckets)
  end.

Definition yearly_gpa (self : EnrollmentPlan)
  : result (list (Z * (option float * nat))) :=
  buckets <- yearly_buckets (items self) [] ;;
  mapM (fun yi : Z * list PlanItem =>
          let (year, items) := yi in
          match items with
          | [] => Ok (year, (None, O))
          | _ =>
              let missing := count_missing items in
              if (0 <? missing)%nat then Ok (year, (None, missing))
              else
                t <- weighted_totals (catalog self) items 0 0 ;;
                let (total_w, total_c) := t in
                if total_c <=? 0 then Ok (year, (None, O))
                else Ok (year, (Some (py_round (total_w / total_c) 3), O))
          end)
       (py_sorted Z.ltb buckets).

(** *** EnrollmentPlan: credit progress *)

(** [progress[cat]]: the dict with the keys "required", "selected" and
    "completed". *)
Record Progress := {
  required : float;
  selected : float;
  completed : float
}.

(** [d[k] = v] *)
Fixpoint dict_set {V : Type} (k : str) (v : V) (d : list (str * V))
  : list (str * V) :=
  match d with
  | [] => [(k, v)]
  | (k', v') :: d' =>
      if eqb k' k then (k', v) :: d' else (k', v') :: dict_set k v d'
  end.

(** [k in d] *)
Definition dict_has {V : Type} (k : str) (d : list (str * V)) : bool :=
  match lookup k d with
  | Some _ => true
  | None => false
  end.

(** [d[k] = f(d[k])] for a key of [d]. *)
Fixpoint dict_modify {V : Type} (k : str) (f : V -> V) (d : list (str * V))
  : list (str * V) :=
  match d with
  | [] => []
  | (k', v') :: d' =>
      if eqb k' k then (k', f v') :: d' else (k', v') :: dict_modify k f d'
  end.

(** [(c.category or "未分类").strip() or "未分类"] *)
Definition progress_category (c : Course) : str :=
  match category_or_default c with
  | [] => u "未分类"
  | s => s
  end.

Definition add_selected (x : float) (p : Progress) : Progress :=
  {| required := required p; selected := selected p + x;
     completed := completed p |}.

Definition add_completed (x : float) (p : Progress) : Progress :=
  {| required := required p; selected := selected p;
     completed := completed p + x |}.

Definition round_progress (p : Progress) : Progress :=
  {| required := py_round (required p) 3;
     selected := py_round (selected p) 3;
     completed := py_round (completed p) 3 |}.

Fixpoint progress_items_loop (cat : Catalog) (l : list PlanItem)
    (progress : list (str * Progress)) : result (list (str * Progress)) :=
  match l with
  | [] => Ok progress
  | item :: l' =>
      c <- Catalog_get cat (item_course_id item) ;;
      let k := progress_category c in
      let progress :=
        if negb (dict_has k progress)
        then dict_set k {| required := 0; selected := 0; completed := 0 |} progress
        else progress in
      let progress := dict_modify k (add_selected (credits c)) progress in
      let progress :=
        match gpa item with
        | Some _ => dict_modify k (add_completed (credits c)) progress
        | None => progress
        end in
      progress_items_loop cat l' progress
  end.

Definition credit_progress_by_category (self : EnrollmentPlan)
    (requirements : list (str * float)) : result (list (str * Progress)) :=
  let progress :=
    fold_left (fun progress cr =>
                 dict_set (fst cr)
                   {| required := snd cr; selected := 0; completed := 0 |}
                   progress)
              requirements [] in
  progress <- progress_items_loop (catalog self) (items self) progress ;;
  Ok (map (fun kv => (fst kv, round_progress (snd kv))) progress).

(** One row of [credit_progress_rows]. *)
Record Row := {
  row_category : str;
  row_required : float;
  row_selected : float;
  row_completed : float;
  row_remaining : float
}.

(** [prog[cat]] *)
Definition dict_get {V : Type} (d : list (str * V)) (k : str) : result V :=
  match lookup k d with
  | Some v => Ok v
  | None => Raise (KeyError [Fstr k])
  end.

Definition credit_progress_rows (self : EnrollmentPlan)
    (requirements : list (str * float)) : result (list Row) :=
  prog <- credit_progress_by_category self requirements ;;
  let ordered := map fst requirements in
  let extra :=
    map snd
        (py_sorted ltb
           (map (fun k => (k, k))
                (filter (fun k => negb (dict_has k requirements))
                        (map fst prog)))) in
  mapM (fun cat =>
          p <- dict_get prog cat ;;
          let required := required p in
          let selected := selected p in
          let completed := completed p in
          let remaining := py_max (required - completed) 0 in
          Ok {| row_category := cat;
                row_required := py_round required 3;
                row_selected := py_round selected 3;
                row_completed := py_round completed 3;
                row_remaining := py_round remaining 3 |})
       (ordered ++ extra).

(** *** Catalog: courses offered in a season *)

(** The loop of [offered_in_by_type] over [self._by_id.values()]. *)
Fixpoint offered_loop (season : str) (cs : list Course) (req ele : list Course)
  : result (list Course * list Course) :=
  match cs with
  | [] => Ok (req, ele)
  | c :: cs' =>
      s <- extract_season (semester c) ;;
      if negb (eqb s season) then offered_loop season cs' req ele
      else if eqb (course_type c) (u "必修")
           then offered_loop season cs' (req ++ [c]) ele
           else offered_loop season cs' req (ele ++ [c])
  end.

(** [offered_in_by_type]: the lists under the keys "必修" and "选修". The
    message shows the constant [SEASONS] as Python prints the list. *)
Definition offered_in_by_type (self : Catalog) (season : str)
  : result (list Course * list Course) :=
  let season := strip season in
  if negb (mem season SEASONS)
  then Raise (ValueError [Lit "season 必须是 ['秋', '春', '夏'] 之一，当前：";
                          Fstr season])
  else
    re <- offered_loop season (map snd (by_id self)) [] [] ;;
    let (req, ele) := re in
    Ok (sorted_by_key pair_ltb (fun x => (semester x, course_id x)) req,
        sorted_by_key pair_ltb (fun x => (semester x, course_id x)) ele).

(** *** EnrollmentPlan: further queries *)

(** The generator of [elective_credits]: the condition looks the course
    up, and so does the summand. *)
Fixpoint elective_terms (cat : Catalog) (l : list PlanItem) : result (list float) :=
  match l with
  | [] => Ok []
  | i :: l' =>
      c <- Catalog_get cat (item_course_id i) ;;
      if eqb (course_type c) (u "选修")
      then c' <- Catalog_get cat (item_course_id i) ;;
           rest <- elective_terms cat l' ;;
           Ok (credits c' :: rest)
      else elective_terms cat l'
  end.

Definition elective_credits (self : EnrollmentPlan) : result float :=
  cs <- elective_terms (catalog self) (items self) ;;
  Ok (py_sum cs).

Definition required_missing (self : EnrollmentPlan) : list Course :=
  let planned := map item_course_id (items self) in
  let missing :=
    filter (fun c => negb (mem (course_id c) planned))
           (required_courses (catalog self)) in
  sorted_by_key ltb course_id missing.

Definition courses_in_semester (self : EnrollmentPlan) (actual_sem : str)
  : result (list Course) :=
  actual_sem <- ensure_actual_semester actual_sem ;;
  courses <- mapM (fun i => Catalog_get (catalog self) (item_course_id i))
                  (filter (fun i => eqb (actual_semester i) actual_sem)
                          (items self)) ;;
  Ok (sorted_by_key ltb course_id courses).

(** [out.setdefault(k, []).append(v)] on a dict with string keys. *)
Fixpoint group_append (k : str) (v : Course) (d : list (str * list Course))
  : list (str * list Course) :=
  match d with
  | [] => [(k, [v])]
  | (k', vs) :: d' =>
      if eqb k' k then (k', vs ++ [v]) :: d'
      else (k', vs) :: group_append k v d'
  end.

Fixpoint grouped_loop (cat : Catalog) (l : list PlanItem)
    (out : list (str * list Course)) : result (list (str * list Course)) :=
  match l with
  | [] => Ok out
  | it :: l' =>
      c <- Catalog_get cat (item_course_id it) ;;
      grouped_loop cat l' (group_append (actual_semester it) c out)
  end.

Definition grouped (self : EnrollmentPlan) : result (list (str * list Course)) :=
  let out := map (fun s => (s, [])) PLAN_SEMESTERS in
  out <- grouped_loop (catalog self) (items self) out ;;
  Ok (map (fun kv => (fst kv, sorted_by_key ltb course_id (snd kv))) out).

Definition validate (self : EnrollmentPlan) : result (list message) :=
  let errors :=
    map (fun c => [Lit "缺少必修："; Fstr (course_id c); Lit " "; Fstr (name c)])
        (required_missing self) in
  e <- elective_credits self ;;
  if e <? elective_credit_requirement self
  then
    shown <- elective_credits self ;;
    Ok (errors ++ [[Lit "专业选修学分不足："; Ffloat shown; Lit " < ";
                    Ffloat (elective_credit_requirement self)]])
  else Ok errors.

(** *** Configuration file: writing *)

(** [asdict(i)] of a plan item as [load_from_config] reads it back: a GPA
    of [None] is written as null. *)
Definition raw_of_item (i : PlanItem) : RawItem :=
  {| raw_course_id := item_course_id i;
     raw_actual_semester := actual_semester i;
     raw_gpa := match gpa i with
                | None => GpaNone
                | Some g => GpaValue g
                end |}.

(** The document [save_to_config] writes. *)
Definition save_to_config (catalog : Catalog) (plan : EnrollmentPlan) : Document :=
  {| doc_courses := Catalog_all catalog;
     doc_term_credit_limit := term_credit_limit plan;
     doc_elective_credit_requirement := elective_credit_requirement plan;
     doc_items := map raw_of_item (items plan) |}.

(** *** viz.py: the bars of the semester chart *)

(** A piece of a label or note: literal text or a formatted integer. *)
Inductive piece :=
| PLit (s : string)
| PInt (n : Z).

(** [f"{y}秋"], [f"{y}春"], [f"{y}夏"] for a one-digit [y]. *)
Definition semesters_of_year (y : N) : list str :=
  [[(48 + y)%N; fall_cp]; [(48 + y)%N; spring_cp]; [(48 + y)%N; summer_cp]].

(** The list built by [for y in range(1, 5): semesters.extend(...)]. *)
Definition viz_semesters : list str :=
  flat_map semesters_of_year [1%N; 2%N; 3%N; 4%N].

(** The loop of [_collect_semester_gpa]; an exception of
    [semester_credits] skips the semester, one of [semester_gpa] is not
    caught. *)
Fixpoint collect_loop (plan : EnrollmentPlan) (sems : list str)
    (labels : list str) (values : list float) (notes : list (list piece))
  : result (list str * list float * list (list piece)) :=
  match sems with
  | [] => Ok (labels, values, notes)
  | sem :: sems' =>
      match semester_credits plan sem with
      | Raise _ => collect_loop plan sems' labels values notes
      | Ok c =>
          if c <=? 0 then collect_loop plan sems' labels values notes
          else
            am <- semester_gpa plan sem ;;
            let (avg, missing) := am in
            match avg with
            | None =>
                collect_loop plan sems' (labels ++ [sem]) (values ++ [0])
                  (notes ++ [if (0 <? missing)%nat
                             then [PLit "缺"; PInt (Z.of_nat missing); PLit "门"]
                             else [PLit "暂无"]])
            | Some a =>
                collect_loop plan sems' (labels ++ [sem]) (values ++ [a])
                  (notes ++ [[]])
            end
      end
  end.

Definition _collect_semester_gpa (plan : EnrollmentPlan)
  : result (list str * list float * list (list piece)) :=
  collect_loop plan viz_semesters [] [] [].

(** ** Definitions the properties are stated with *)

(** The items of the courses other than [cid]. *)
Definition without (cid : str) (l : list PlanItem) : list PlanItem :=
  filter (fun i => negb (eqb (item_course_id i) cid)) l.

(** The ungraded item [add_course] appends. *)
Definition new_item (cid sem : str) : PlanItem :=
  {| item_course_id := cid; actual_semester := sem; gpa := None |}.

(** The credit-cap message of [add_course]. *)
Definition credit_cap_message (sem : str) (current incoming limit : float)
  : message :=
  [Fstr sem; Lit " 学分超上限："; Ffloat current; Lit " + ";
   Ffloat incoming; Lit " > "; Ffloat limit].

(** The checks [add_course] makes before the credit cap: the semester
    grammar, the catalog lookup, no duplicate, the season match, and the
    credits already scheduled in the term. *)
Definition reaches_credit_cap (p : EnrollmentPlan) (cid sem sem' : str)
    (c : Course) (current : float) : Prop :=
  ensure_actual_semester sem = Ok sem'
  /\ Catalog_get (catalog p) cid = Ok c
  /\ has_course p cid = false
  /\ extract_season (semester c) = Ok (last_char sem')
  /\ semester_credits p sem' = Ok current.

(** The GPA of the first item of a course, [None] when it has no item. *)
Fixpoint find_gpa (cid : str) (l : list PlanItem) : option (option float) :=
  match l with
  | [] => None
  | i :: l' => if eqb (item_course_id i) cid then Some (gpa i) else find_gpa cid l'
  end.

(** The items after [item.gpa = v] on the first item of a course. *)
Fixpoint set_first (cid : str) (v : option float) (l : list PlanItem)
  : list PlanItem :=
  match l with
  | [] => []
  | i :: l' =>
      if eqb (item_course_id i) cid then with_gpa v i :: l'
      else i :: set_first cid v l'
  end.

(** The enrollment state of one course identifier in a plan. *)
Inductive course_state := Absent | Ungraded | Graded.

(** Read off [get_gpa]: a course with no item is absent; otherwise the GPA
    of its item tells graded from ungraded. *)
Definition state_of (p : EnrollmentPlan) (cid : str) : course_state :=
  match get_gpa p cid with
  | Raise _ => Absent
  | Ok None => Ungraded
  | Ok (Some _) => Graded
  end.

(** The three mutation operations as commands. *)
Inductive op :=
| AddCourse (cid sem : str)
| RemoveCourse (cid : str)
| SetGpa (cid : str) (g : gpa_arg).

Definition run_op (o : op) : M unit :=
  match o with
  | AddCourse cid sem => add_course cid sem
  | RemoveCourse cid => remove_course cid
  | SetGpa cid g => set_gpa cid g
  end.

(** An exception that carries the credit-cap message. *)
Definition is_credit_cap_error (e : exn) : Prop :=
  exists sem current incoming limit,
    e = ValueError (credit_cap_message sem current incoming limit).

(** The dict [Catalog_init] builds from a list of courses. *)
Definition entries (cs : list Course) : list (str * Course) :=
  map (fun c => (course_id c, c)) cs.

(** The season a course is offered in. *)
Definition season_of (c : Course) : str :=
  match extract_season (semester c) with
  | Ok s => s
  | Raise _ => []
  end.

(** The sort key [(extract_season(x.semester), x.course_id)]. *)
Definition sort_key (c : Course) : str * str := (season_of c, course_id c).

Definition by_season_then_id (cs : list Course) : list Course :=
  map snd (py_sorted pair_ltb (map (fun c => (sort_key c, c)) cs)).

(** Where a required course is placed: its own program semester when that
    is one of the twelve semesters of the four planning years, the
    fourth year's semester of its season otherwise. *)
Definition placement (c : Course) : str :=
  if mem (semester c) PLAN_SEMESTERS then semester c
  else final_year_of_season (season_of c).

(** The required courses not yet enrolled, in the order of the batch. *)
Definition pending (p : EnrollmentPlan) : list Course :=
  filter (fun c => negb (has_course p (course_id c)))
         (by_season_then_id (required_courses (catalog p))).

(** [add_course] for each course in turn, up to the first failure. *)
Fixpoint enroll_each (l : list Course) : M unit :=
  match l with
  | [] => ret tt
  | c :: l' =>
      _ <-- add_course (course_id c) (placement c) ;; enroll_each l'
  end.

(** The item [add_course] appends for a required course. *)
Definition item_of (c : Course) : PlanItem :=
  new_item (course_id c) (placement c).

(** The order of the batch: ascending in [(season, identifier)]. *)
Definition key_before (a b : Course) : Prop :=
  pair_ltb (sort_key a) (sort_key b) = true.

(** [p'] keeps the catalog, the two configuration scalars and the items
    of [p], in their order, and may have further items after them. *)
Definition grows (p p' : EnrollmentPlan) : Prop :=
  catalog p' = catalog p
  /\ term_credit_limit p' = term_credit_limit p
  /\ elective_credit_requirement p' = elective_credit_requirement p
  /\ exists added, items p' = items p ++ added.


(** The course of the item is in the catalog. *)
Definition listed (cat : Catalog) (i : PlanItem) : Prop :=
  exists c, Catalog_get cat (item_course_id i) = Ok c.

(** The credits of the course of an item. *)
Definition credits_of (cat : Catalog) (i : PlanItem) : float :=
  match Catalog_get cat (item_course_id i) with
  | Ok c => credits c
  | Raise _ => 0
  end.


(** The (gpa, credits) pairs of a subset of items. *)
Definition pairs_of (cat : Catalog) (l : list PlanItem)
  : list (option float * float) :=
  map (fun i => (gpa i, credits_of cat i)) l.




(** The item belongs to the major subset. *)
Definition is_major (cat : Catalog) (major_categories : list str)
    (i : PlanItem) : bool :=
  match Catalog_get cat (item_course_id i) with
  | Ok c => mem (category_or_default c) major_categories
  | Raise _ => false
  end.


(** The year of the actual semester of an item: [int(sem[:-1])]. *)
Definition year_of (i : PlanItem) : Z :=
  match int_digits (removelast (actual_semester i)) 0%Z with
  | Some n => n
  | None => 0%Z
  end.

(** [int()] reads the year of the item: its semester is an actual
    semester and the year has at most 4300 digits. *)
Definition year_readable (i : PlanItem) : Prop :=
  ACTUAL_SEM_RE (actual_semester i) = true
  /\ (List.length (removelast (actual_semester i)) <= 4300)%nat.

(** The items of one year, in the order of the plan. *)
Definition in_year (y : Z) (l : list PlanItem) : list PlanItem :=
  filter (fun i => (year_of i =? y)%Z) l.

(** [d.get(k)] on a dict with integer keys. *)
Fixpoint zlookup (k : Z) (d : list (Z * list PlanItem)) : option (list PlanItem) :=
  match d with
  | [] => None
  | (k', v) :: d' => if (k' =? k)%Z then Some v else zlookup k d'
  end.

Definition nonempty (l : list PlanItem) : option (list PlanItem) :=
  match l with
  | [] => None
  | _ => Some l
  end.

(** The category an enrolled item is counted in. *)
Definition item_category (cat : Catalog) (i : PlanItem) : str :=
  match Catalog_get cat (item_course_id i) with
  | Ok c => progress_category c
  | Raise _ => []
  end.

(** The item is counted in category [k]. *)
Definition in_category (cat : Catalog) (k : str) (i : PlanItem) : bool :=
  eqb (item_category cat i) k.

(** The item is graded. *)
Definition graded (i : PlanItem) : bool :=
  match gpa i with
  | Some _ => true
  | None => false
  end.

(** The progress of a category before rounding: the requirement (0 when
    none is declared), the credits of the enrolled items of the category
    added up in the order of the plan, and those of its graded items. *)
Definition raw_progress (p : EnrollmentPlan) (reqs : list (str * float))
    (k : str) : Progress :=
  {| required := match lookup k reqs with Some x => x | None => 0 end;
     selected :=
       py_sum (map (credits_of (catalog p))
                   (filter (in_category (catalog p) k) (items p)));
     completed :=
       py_sum (map (credits_of (catalog p))
                   (filter (fun i => in_category (catalog p) k i && graded i)
                           (items p))) |}.

(** What the loop over the items makes of one entry. *)
Definition counted (cat : Catalog) (k : str) (l : list PlanItem) (q : Progress)
  : Progress :=
  {| required := required q;
     selected :=
       fold_left PrimFloat.add
         (map (credits_of cat) (filter (in_category cat k) l)) (selected q);
     completed :=
       fold_left PrimFloat.add
         (map (credits_of cat)
              (filter (fun i => in_category cat k i && graded i) l))
         (completed q) |}.

(** The row a requirement starts with. *)
Definition declared (kr : str * float) : str * Progress :=
  (fst kr, {| required := snd kr; selected := 0; completed := 0 |}).

(** The row [credit_progress_rows] makes of one entry of the progress. *)
Definition row_of (prog : list (str * Progress)) (cat : str) : Row :=
  let q := match lookup cat prog with
           | Some q => q
           | None => {| required := 0; selected := 0; completed := 0 |}
           end in
  {| row_category := cat;
     row_required := py_round (required q) 3;
     row_selected := py_round (selected q) 3;
     row_completed := py_round (completed q) 3;
     row_remaining := py_round (py_max (required q - completed q) 0) 3 |}.

(** Turns the comparisons of code points in the context into orders on N. *)
Ltac n_order :=
  repeat match goal with
    | H : (_ <? _)%N = true |- _ => apply N.ltb_lt in H
    | H : (_ <? _)%N = false |- _ => apply N.ltb_ge in H
    end.

(** ** Example data *)

(** The examples write years with the digits 0 to 9 only. *)
Definition ascii_digits_only : codepoint -> option Z := fun _ => None.

Definition example_course (id type : string) (credits : float)
    (sem cat : string) : Course :=
  {| course_id := u id; name := u id; course_type := u type;
     credits := credits; semester := u sem; hours := None;
     category := u cat |}.

Definition catalog_of (cs : list Course) : Catalog :=
  {| by_id := map (fun c => (course_id c, c)) cs |}.

(** A1: required, 3 credits, fall; B1: required, 2 credits, fall. *)
Definition course_A1 : Course := example_course "A1" "必修" 3 "秋" "专业必修".
Definition course_B1 : Course := example_course "B1" "必修" 2 "秋" "思政".

(** D5: required, tagged with the fifth year's fall. *)
Definition course_D5 : Course := example_course "D5" "必修" 1 "5秋" "专业必修".

(** G1: 2 credits, G2: 1 credit, both in fall. *)
Definition course_G1 : Course := example_course "G1" "必修" 2 "秋" "专业必修".
Definition course_G2 : Course := example_course "G2" "选修" 1 "秋" "人文".

(** An empty plan with term limit 3.0 over A1 and B1, and the same plan
    once A1 is enrolled in 1秋. *)
Definition cap_plan : EnrollmentPlan :=
  EnrollmentPlan_init (catalog_of [course_A1; course_B1]) 3 15.

Definition cap_plan_A1 : EnrollmentPlan :=
  with_items cap_plan [new_item (u "A1") (u "1秋")].

(** An empty plan over D5. *)
Definition far_plan : EnrollmentPlan :=
  EnrollmentPlan_init (catalog_of [course_D5]) 30 15.

(** G1 graded 3.5 and G2 graded 4.0, both in 1秋. *)
Definition gpa_plan : EnrollmentPlan :=
  with_items (EnrollmentPlan_init (catalog_of [course_G1; course_G2]) 30 15)
    [{| item_course_id := u "G1"; actual_semester := u "1秋"; gpa := Some 3.5 |};
     {| item_course_id := u "G2"; actual_semester := u "1秋"; gpa := Some 4 |}].

(** A plan that holds two items for A1, as a document can bring in. *)
Definition dup_plan : EnrollmentPlan :=
  with_items (EnrollmentPlan_init (catalog_of [course_A1; course_B1]) 30 15)
    [{| item_course_id := u "A1"; actual_semester := u "1秋"; gpa := None |};
     {| item_course_id := u "B1"; actual_semester := u "1秋"; gpa := Some 4 |};
     {| item_course_id := u "A1"; actual_semester := u "2秋"; gpa := Some 3.5 |}].

(** A document whose plan enrolls A1 twice. *)
Definition dup_document : Document :=
  {| doc_courses := [course_A1; course_B1];
     doc_term_credit_limit := 30;
     doc_elective_credit_requirement := 15;
     doc_items :=
       [{| raw_course_id := u "A1"; raw_actual_semester := u "1秋";
           raw_gpa := GpaNone |};
        {| raw_course_id := u "A1"; raw_actual_semester := u "2秋";
           raw_gpa := GpaValue 3.5 |}] |}.



(** A fall semester whose year has 4301 digits, and the plan with A1
    enrolled in it. *)
Definition long_semester : str := repeat 49%N 4301 ++ [fall_cp].

Definition long_year_plan : EnrollmentPlan :=
  with_items cap_plan [new_item (u "A1") long_semester].

(** Requirements for two categories. *)
Definition example_requirements : list (str * float) :=
  [(u "思政", 18.5); (u "体育", 4)].

(** ** Invariants of a plan *)

(** A stored GPA is what [validate_gpa] returned for some argument. *)
Definition stored_gpa_ok (g : option float) : Prop :=
  exists a, validate_gpa a = Ok g.

(** An item as the operations of the plan make it: its course is in the
    catalog, its semester is an actual semester, its GPA is validated. *)
Definition item_ok (cat : Catalog) (i : PlanItem) : Prop :=
  listed cat i
  /\ ACTUAL_SEM_RE (actual_semester i) = true
  /\ stored_gpa_ok (gpa i).

(** Every item is well formed and no course is enrolled twice. *)
Definition consistent (p : EnrollmentPlan) : Prop :=
  Forall (item_ok (catalog p)) (items p)
  /\ NoDup (map item_course_id (items p)).

(** The call returns a value. *)
Definition succeeds {A : Type} (r : result A) : Prop := exists a, r = Ok a.

(** An item that [load_from_config] reads back as it is: its semester is
    accepted unchanged, and so is its GPA. *)
Definition reloadable (cat : Catalog) (i : PlanItem) : Prop :=
  listed cat i
  /\ ensure_actual_semester (actual_semester i) = Ok (actual_semester i)
  /\ validate_gpa (raw_gpa (raw_of_item i)) = Ok (gpa i).

(** ** The bars of the semester chart *)

(** The semester gets a bar: its credits can be computed and are above 0. *)
Definition shown (plan : EnrollmentPlan) (sem : str) : bool :=
  match semester_credits plan sem with
  | Ok c => negb (c <=? 0)
  | Raise _ => false
  end.

(** The height of the bar: the GPA of the semester, 0.0 when it has none. *)
Definition bar_value (plan : EnrollmentPlan) (sem : str) : float :=
  match semester_gpa plan sem with
  | Ok (Some a, _) => a
  | _ => 0
  end.

(** The note of the bar: empty when the semester has a GPA, the number of
    ungraded courses or "暂无" otherwise. *)
Definition bar_note (plan : EnrollmentPlan) (sem : str) : list piece :=
  match semester_gpa plan sem with
  | Ok (None, missing) =>
      if (0 <? missing)%nat
      then [PLit "缺"; PInt (Z.of_nat missing); PLit "门"]
      else [PLit "暂无"]
  | _ => []
  end.

(** ** The term limit as an invariant *)

(** No term whose credits can be computed is above the term limit. *)
Definition within_limit (p : EnrollmentPlan) : Prop :=
  forall sem c,
    semester_credits p sem = Ok c -> (term_credit_limit p <? c) = false.

(** ** Properties *)

(** *** Strings and lists *)

Lemma str_eqb_eq (a b : str) : eqb a b = true <-> a = b.
Proof.
  revert b; induction a as [|x a IH]; intros [|y b]; simpl;
    try (split; [discriminate | discriminate]); [tauto|].
  rewrite andb_true_iff, N.eqb_eq, IH.
  split; [intros [-> ->]; reflexivity | intros H; inversion H; auto].
Qed.

Lemma str_eqb_refl (a : str) : eqb a a = true.
Proof. apply str_eqb_eq; reflexivity. Qed.

Lemma str_eqb_neq (a b : str) : eqb a b = false <-> a <> b.
Proof.
  destruct (eqb a b) eqn:E.
  - apply str_eqb_eq in E. split; [discriminate | congruence].
  - split; [|reflexivity]. intros _ H. apply str_eqb_eq in H. congruence.
Qed.

Lemma str_eqb_sym (a b : str) : eqb a b = eqb b a.
Proof.
  destruct (eqb a b) eqn:E, (eqb b a) eqn:E'; try reflexivity.
  - apply str_eqb_eq in E. subst. rewrite str_eqb_refl in E'. discriminate.
  - apply str_eqb_eq in E'. subst. rewrite str_eqb_refl in E. discriminate.
Qed.

Lemma str_ltb_asym (a b : str) : ltb a b = true -> ltb b a = false.
Proof.
  revert b; induction a as [|x a IH]; intros [|y b]; simpl; try congruence.
  destruct (x <? y)%N eqn:Hxy, (y <? x)%N eqn:Hyx; try congruence.
  - apply N.ltb_lt in Hxy, Hyx. lia.
  - auto.
Qed.

Lemma pair_ltb_asym (a b : str * str) : pair_ltb a b = true -> pair_ltb b a = false.
Proof.
  unfold pair_ltb.
  destruct (ltb (fst a) (fst b)) eqn:H1.
  - rewrite (str_ltb_asym _ _ H1). reflexivity.
  - destruct (ltb (fst b) (fst a)) eqn:H2; [discriminate|].
    apply str_ltb_asym.
Qed.


Lemma with_items_same (p : EnrollmentPlan) : with_items p (items p) = p.
Proof. destruct p; reflexivity. Qed.

Lemma with_items_twice (p : EnrollmentPlan) (l l' : list PlanItem) :
  with_items (with_items p l) l' = with_items p l'.
Proof. reflexivity. Qed.

(** *** remove_course *)

Lemma remove_course_unfold (cid : str) (p : EnrollmentPlan) :
  remove_course cid p =
  if (List.length (without cid (items p)) =? List.length (items p))%nat
  then Raised (KeyError [Lit "计划中没有这门课。"])
              (with_items p (without cid (items p)))
  else Returned tt (with_items p (without cid (items p))).
Proof.
  unfold remove_course, bindM, get_self, set_items, without; simpl.
  destruct (_ =? _)%nat; reflexivity.
Qed.

Lemma without_absent (cid : str) (l : list PlanItem) :
  existsb (fun i => eqb (item_course_id i) cid) l = false ->
  without cid l = l.
Proof.
  induction l as [|i l IH]; simpl; [reflexivity|].
  rewrite orb_false_iff. intros [H1 H2]. rewrite H1. simpl. f_equal; auto.
Qed.

Lemma without_has (cid : str) (l : list PlanItem) :
  existsb (fun i => eqb (item_course_id i) cid) (without cid l) = false.
Proof.
  induction l as [|i l IH]; simpl; [reflexivity|].
  destruct (eqb (item_course_id i) cid) eqn:E; simpl; [exact IH|].
  rewrite E. exact IH.
Qed.

Lemma without_length_present (cid : str) (l : list PlanItem) :
  existsb (fun i => eqb (item_course_id i) cid) l = true ->
  (List.length (without cid l) < List.length l)%nat.
Proof.
  induction l as [|i l IH]; simpl; [discriminate|].
  destruct (eqb (item_course_id i) cid) eqn:E; simpl.
  - intros _. pose proof (filter_length_le
      (fun i => negb (eqb (item_course_id i) cid)) l).
    unfold without. lia.
  - intros H. apply IH in H. lia.
Qed.

Lemma remove_course_enrolled (cid : str) (p : EnrollmentPlan) :
  has_course p cid = true ->
  remove_course cid p =
  Returned tt (with_items p (without cid (items p))).
Proof.
  intros H. rewrite remove_course_unfold.
  apply without_length_present in H.
  destruct (Nat.eqb_spec (List.length (without cid (items p)))
                         (List.length (items p))); [lia | reflexivity].
Qed.

Lemma remove_course_not_enrolled (cid : str) (p : EnrollmentPlan) :
  has_course p cid = false ->
  remove_course cid p = Raised (KeyError [Lit "计划中没有这门课。"]) p.
Proof.
  intros H. rewrite remove_course_unfold.
  rewrite (without_absent _ _ H), Nat.eqb_refl, with_items_same. reflexivity.
Qed.

(** *** strip and the semester grammar *)

Lemma lstrip_idem (s : str) : lstrip (lstrip s) = lstrip s.
Proof.
  induction s as [|c s IH]; simpl; [reflexivity|].
  destruct (isspace c) eqn:E; [exact IH|]. simpl. rewrite E. reflexivity.
Qed.

Lemma lstrip_head (s : str) :
  match lstrip s with
  | [] => True
  | c :: _ => isspace c = false
  end.
Proof.
  induction s as [|c s IH]; simpl; [exact I|].
  destruct (isspace c) eqn:E; [exact IH|]. exact E.
Qed.

Lemma lstrip_app_last (a : str) (c : codepoint) :
  isspace c = false -> lstrip (a ++ [c]) = lstrip a ++ [c].
Proof.
  intros Hc. induction a as [|x a IH]; simpl.
  - rewrite Hc. reflexivity.
  - destruct (isspace x); [exact IH | reflexivity].
Qed.

Lemma rstrip_cons (c : codepoint) (t : str) :
  isspace c = false -> rstrip (c :: t) = c :: rstrip t.
Proof.
  intros Hc. unfold rstrip. simpl.
  rewrite (lstrip_app_last _ _ Hc), rev_app_distr. reflexivity.
Qed.

Lemma rstrip_idem (s : str) : rstrip (rstrip s) = rstrip s.
Proof. unfold rstrip. rewrite rev_involutive, lstrip_idem. reflexivity. Qed.

Lemma strip_idem (s : str) : strip (strip s) = strip s.
Proof.
  unfold strip. pose proof (lstrip_head s) as H.
  destruct (lstrip s) as [|c t]; [reflexivity|].
  rewrite (rstrip_cons _ _ H). simpl. rewrite H.
  rewrite <- (rstrip_cons _ _ H). apply rstrip_idem.
Qed.

Lemma ensure_actual_semester_Ok (sem sem' : str) :
  ensure_actual_semester sem = Ok sem' ->
  sem' = strip sem /\ ACTUAL_SEM_RE sem' = true.
Proof.
  unfold ensure_actual_semester.
  destruct (ACTUAL_SEM_RE (strip sem)) eqn:E; simpl; [|discriminate].
  intros H; inversion H; subst. auto.
Qed.

Lemma ensure_actual_semester_idem (sem sem' : str) :
  ensure_actual_semester sem = Ok sem' ->
  ensure_actual_semester sem' = Ok sem'.
Proof.
  intros H. apply ensure_actual_semester_Ok in H as [-> H].
  unfold ensure_actual_semester. rewrite strip_idem, H. reflexivity.
Qed.

(** *** add_course *)

Lemma add_course_at_cap (p : EnrollmentPlan) (cid sem sem' : str)
    (c : Course) (current : float) :
  reaches_credit_cap p cid sem sem' c current ->
  add_course cid sem p =
  if term_credit_limit p <? current + credits c
  then Raised (ValueError (credit_cap_message sem' current (credits c)
                             (term_credit_limit p))) p
  else Returned tt (with_items p (items p ++ [new_item cid sem'])).
Proof.
  intros (He & Hc & Hh & Hs & Hk).
  unfold add_course, bindM, lift, get_self, raise, set_items.
  rewrite He, Hc, Hh, Hs.
  unfold season_of_actual_semester.
  rewrite (ensure_actual_semester_idem _ _ He). simpl.
  rewrite str_eqb_refl. simpl. rewrite Hk.
  destruct (term_credit_limit p <? current + credits c); reflexivity.
Qed.

Lemma add_course_inv (p : EnrollmentPlan) (cid sem : str) :
  match add_course cid sem p with
  | Raised e p' =>
      p' = p
      /\ ((exists sem' c current,
             reaches_credit_cap p cid sem sem' c current
             /\ (term_credit_limit p <? current + credits c) = true
             /\ e = ValueError (credit_cap_message sem' current (credits c)
                                  (term_credit_limit p)))
          \/ (forall s x y z, e <> ValueError (credit_cap_message s x y z)))
  | Returned _ p' =>
      exists sem' c current,
        reaches_credit_cap p cid sem sem' c current
        /\ (term_credit_limit p <? current + credits c) = false
        /\ p' = with_items p (items p ++ [new_item cid sem'])
  end.
Proof.
  unfold add_course, bindM, lift, get_self, raise, set_items.
  destruct (ensure_actual_semester sem) as [sem'|e] eqn:He;
    [|split; [reflexivity|right]].
  2:{ unfold ensure_actual_semester in He.
      destruct (negb _); inversion He; subst. intros; discriminate. }
  destruct (Catalog_get (catalog p) cid) as [c|e] eqn:Hc;
    [|split; [reflexivity|right]].
  2:{ unfold Catalog_get in Hc. destruct (lookup _ _); inversion Hc.
      intros; discriminate. }
  destruct (has_course p cid) eqn:Hh;
    [split; [reflexivity|right; intros; discriminate]|].
  destruct (extract_season (semester c)) as [cs|e] eqn:Hs;
    [|split; [reflexivity|right]].
  2:{ unfold extract_season in Hs. destruct (COURSE_SEM_RE _); [|inversion Hs; intros; discriminate].
      destruct (negb _); inversion Hs. intros; discriminate. }
  unfold season_of_actual_semester.
  rewrite (ensure_actual_semester_idem _ _ He). simpl.
  destruct (eqb cs (last_char sem')) eqn:Hm; simpl;
    [|split; [reflexivity|right; intros; discriminate]].
  apply str_eqb_eq in Hm. subst cs.
  destruct (semester_credits p sem') as [cur|e] eqn:Hk;
    [|split; [reflexivity|right]].
  2:{ unfold semester_credits in Hk.
      rewrite (ensure_actual_semester_idem _ _ He) in Hk. simpl in Hk.
      destruct (mapM _ _) eqn:Hm in Hk; simpl in Hk; [discriminate|].
      inversion Hk; subst.
      assert (G : forall (l : list PlanItem) e0,
               mapM (fun i => c0 <- Catalog_get (catalog p) (item_course_id i) ;;
                              Ok (credits c0)) l = Raise e0 ->
               exists m, e0 = KeyError m).
      { induction l as [|i l IH]; simpl; intros e0 H0; [discriminate|].
        unfold Catalog_get in H0 at 1.
        destruct (lookup _ _); simpl in H0.
        - destruct (mapM _ l) eqn:E; simpl in H0; [discriminate|].
          inversion H0; subst. eapply IH; reflexivity.
        - inversion H0; eauto. }
      destruct (G _ _ Hm) as [m ->]. intros; discriminate. }
  destruct (term_credit_limit p <? cur + credits c) eqn:Hcap.
  - split; [reflexivity|left].
    exists sem', c, cur. repeat split; auto.
  - exists sem', c, cur. repeat split; auto.
Qed.

Lemma add_course_raised_unchanged (p p' : EnrollmentPlan) (cid sem : str) (e : exn) :
  add_course cid sem p = Raised e p' -> p' = p.
Proof.
  intros H. pose proof (add_course_inv p cid sem) as G. rewrite H in G.
  tauto.
Qed.

Lemma add_course_returned (p p' : EnrollmentPlan) (cid sem : str) (a : unit) :
  add_course cid sem p = Returned a p' ->
  has_course p cid = false
  /\ p' = with_items p (items p ++ [new_item cid (strip sem)]).
Proof.
  intros H. pose proof (add_course_inv p cid sem) as G. rewrite H in G.
  destruct G as (sem' & c & cur & (He & _ & Hh & _) & _ & ->).
  apply ensure_actual_semester_Ok in He as [-> _]. auto.
Qed.

(** *** Floats: comparisons *)

Lemma SFcompare_antisym (x y : spec_float) :
  SFcompare y x = option_map CompOpp (SFcompare x y).
Proof.
  destruct x as [sx|sx| |sx mx ex], y as [sy|sy| |sy my ey]; simpl;
    try reflexivity;
    try (destruct sx; reflexivity); try (destruct sy; reflexivity);
    try (destruct sx, sy; reflexivity).
  pose proof (Pos.compare_cont_antisym mx my Eq) as H. simpl in H.
  destruct sx, sy; simpl; try reflexivity;
    rewrite (Z.compare_antisym ex ey);
    destruct (ex ?= ey)%Z; simpl; try reflexivity;
    rewrite <- H; destruct (Pos.compare_cont Eq mx my); reflexivity.
Qed.

Lemma leb_true_ltb_false (x y : float) :
  (x <=? y) = true -> (y <? x) = false.
Proof.
  rewrite leb_spec, ltb_spec. unfold SFleb, SFltb.
  rewrite (SFcompare_antisym (Prim2SF x) (Prim2SF y)).
  destruct (SFcompare (Prim2SF x) (Prim2SF y)) as [[| |]|]; simpl; congruence.
Qed.

Lemma py_max_not_negative (x : float) : (py_max x 0 <? 0) = false.
Proof.
  unfold py_max. destruct (x <? 0) eqn:E; [reflexivity | exact E].
Qed.

(** *** set_gpa and get_gpa *)

Lemma first_index_has (cid : str) (l : list PlanItem) :
  first_index cid l = None <->
  existsb (fun i => eqb (item_course_id i) cid) l = false.
Proof.
  induction l as [|i l IH]; simpl; [tauto|].
  destruct (eqb (item_course_id i) cid); simpl; [split; discriminate|].
  destruct (first_index cid l); simpl in *; [|tauto].
  split; [discriminate|]. intros H. apply IH in H. discriminate.
Qed.

Lemma first_index_find (cid : str) (l : list PlanItem) :
  match first_index cid l with
  | Some n =>
      find_gpa cid l = option_map gpa (nth_error l n)
      /\ nth_error l n <> None
      /\ forall v, update_nth n (with_gpa v) l = set_first cid v l
  | None => find_gpa cid l = None
  end.
Proof.
  induction l as [|i l IH]; simpl; [reflexivity|].
  destruct (eqb (item_course_id i) cid); simpl.
  - repeat split; [discriminate].
  - destruct (first_index cid l); simpl; [|exact IH].
    destruct IH as (H1 & H2 & H3). repeat split; auto.
    intros v. rewrite H3. reflexivity.
Qed.

Lemma get_gpa_find (p : EnrollmentPlan) (cid : str) :
  get_gpa p cid =
  match find_gpa cid (items p) with
  | Some g => Ok g
  | None => Raise (KeyError [Lit "计划中没有这门课。"])
  end.
Proof.
  unfold get_gpa, _get_item.
  pose proof (first_index_find cid (items p)) as H.
  destruct (first_index cid (items p)) as [n|]; simpl.
  - destruct H as (H1 & H2 & _). rewrite H1.
    destruct (nth_error (items p) n); [reflexivity | congruence].
  - rewrite H. reflexivity.
Qed.

Lemma set_gpa_unfold (p : EnrollmentPlan) (cid : str) (g : gpa_arg) :
  set_gpa cid g p =
  match validate_gpa g with
  | Raise e => Raised e p
  | Ok v =>
      if has_course p cid
      then Returned tt (with_items p (set_first cid v (items p)))
      else Raised (KeyError [Lit "计划中没有这门课。"]) p
  end.
Proof.
  unfold set_gpa, bindM, lift, get_self, set_items, _get_item, has_course.
  destruct (validate_gpa g) as [v|e]; [|reflexivity].
  pose proof (first_index_find cid (items p)) as H.
  pose proof (first_index_has cid (items p)) as G.
  destruct (first_index cid (items p)) as [n|].
  - destruct H as (_ & _ & H). rewrite H.
    destruct (existsb _ _); [reflexivity|].
    destruct G as [_ G]. specialize (G eq_refl). discriminate.
  - destruct G as [G _]. rewrite (G eq_refl). reflexivity.
Qed.

Lemma find_gpa_has (cid : str) (l : list PlanItem) :
  find_gpa cid l = None <->
  existsb (fun i => eqb (item_course_id i) cid) l = false.
Proof.
  induction l as [|i l IH]; simpl; [tauto|].
  destruct (eqb (item_course_id i) cid); simpl; [split; discriminate | exact IH].
Qed.

Lemma find_gpa_set_first_same (cid : str) (v : option float) (l : list PlanItem) :
  existsb (fun i => eqb (item_course_id i) cid) l = true ->
  find_gpa cid (set_first cid v l) = Some v.
Proof.
  induction l as [|i l IH]; simpl; [discriminate|].
  destruct (eqb (item_course_id i) cid) eqn:E; simpl.
  - rewrite E. reflexivity.
  - rewrite E. exact IH.
Qed.

Lemma find_gpa_set_first_other (cid c : str) (v : option float) (l : list PlanItem) :
  c <> cid -> find_gpa c (set_first cid v l) = find_gpa c l.
Proof.
  intros Hne. induction l as [|i l IH]; simpl; [reflexivity|].
  destruct (eqb (item_course_id i) cid) eqn:E; simpl.
  - apply str_eqb_eq in E.
    destruct (eqb (item_course_id i) c) eqn:E'; [|reflexivity].
    apply str_eqb_eq in E'. congruence.
  - destruct (eqb (item_course_id i) c); [reflexivity | exact IH].
Qed.

Lemma find_gpa_without_same (cid : str) (l : list PlanItem) :
  find_gpa cid (without cid l) = None.
Proof. apply find_gpa_has, without_has. Qed.

Lemma find_gpa_without_other (cid c : str) (l : list PlanItem) :
  c <> cid -> find_gpa c (without cid l) = find_gpa c l.
Proof.
  intros Hne. induction l as [|i l IH]; simpl; [reflexivity|].
  destruct (eqb (item_course_id i) cid) eqn:E; simpl.
  - apply str_eqb_eq in E.
    destruct (eqb (item_course_id i) c) eqn:E'; [|exact IH].
    apply str_eqb_eq in E'. congruence.
  - destruct (eqb (item_course_id i) c); [reflexivity | exact IH].
Qed.

Lemma find_gpa_app_new (cid c sem : str) (l : list PlanItem) :
  find_gpa c (l ++ [new_item cid sem]) =
  match find_gpa c l with
  | Some g => Some g
  | None => if eqb cid c then Some None else None
  end.
Proof.
  induction l as [|i l IH]; simpl; [reflexivity|].
  destruct (eqb (item_course_id i) c); [reflexivity | exact IH].
Qed.

Lemma has_course_app_new (p : EnrollmentPlan) (cid c sem : str) :
  has_course (with_items p (items p ++ [new_item cid sem])) c =
  has_course p c || eqb cid c.
Proof.
  unfold has_course. simpl. rewrite existsb_app. simpl.
  rewrite orb_false_r. reflexivity.
Qed.

Lemma without_app_new (cid sem : str) (l : list PlanItem) :
  without cid (l ++ [new_item cid sem]) = without cid l.
Proof.
  unfold without. rewrite filter_app. simpl. rewrite str_eqb_refl. simpl.
  apply app_nil_r.
Qed.

Lemma ltb_irrefl (x : float) : (x <? x) = false.
Proof.
  rewrite ltb_spec. unfold SFltb.
  pose proof (SFcompare_antisym (Prim2SF x) (Prim2SF x)) as H.
  destruct (SFcompare (Prim2SF x) (Prim2SF x)) as [[| |]|];
    simpl in H; congruence.
Qed.

(** *** The claims on the mutation operations *)

(** C10. When [remove_course] succeeds, every item of the course is
    deleted, not only the first one: the items left are exactly the items
    of the other courses, so [has_course] is false afterwards, however
    many entries the collection held for that identifier. *)
Theorem remove_course_deletes_every_item
    (p p' : EnrollmentPlan) (cid : str) (a : unit) :
  remove_course cid p = Returned a p' ->
  items p' = filter (fun i => negb (eqb (item_course_id i) cid)) (items p)
  /\ (forall i, In i (items p') -> item_course_id i <> cid)
  /\ (forall i, In i (items p) -> item_course_id i <> cid -> In i (items p'))
  /\ has_course p' cid = false.
Proof.
  rewrite remove_course_unfold.
  destruct (_ =? _)%nat; [discriminate|].
  intros H; inversion H; subst; clear H. simpl.
  split; [reflexivity|]. split; [|split].
  - intros i Hi. apply filter_In in Hi as [_ Hi].
    apply negb_true_iff, str_eqb_neq in Hi. exact Hi.
  - intros i Hi Hne. apply filter_In. split; [exact Hi|].
    apply negb_true_iff, str_eqb_neq. exact Hne.
  - apply without_has.
Qed.

(** C6. A successful [add_course] followed by [remove_course] of the same
    identifier succeeds and restores [total_credits()] and
    [has_course(id)] to their values before the add; the plan is the one
    before the add. *)
Theorem add_then_remove_round_trip
    (p p1 : EnrollmentPlan) (cid sem : str) (a : unit) :
  add_course cid sem p = Returned a p1 ->
  has_course p cid = false
  /\ exists p2,
       remove_course cid p1 = Returned tt p2
       /\ total_credits p2 = total_credits p
       /\ has_course p2 cid = has_course p cid
       /\ p2 = p.
Proof.
  intros H. apply add_course_returned in H as [Hh ->].
  split; [exact Hh|]. exists p.
  assert (E : remove_course cid (with_items p (items p ++ [new_item cid (strip sem)]))
              = Returned tt p).
  { rewrite remove_course_enrolled.
    - unfold has_course in Hh. destruct p as [ct lim ereq its].
      unfold with_items; simpl in *.
      rewrite without_app_new, (without_absent _ _ Hh). reflexivity.
    - rewrite has_course_app_new, str_eqb_refl. apply orb_true_r. }
  auto.
Qed.

Lemma state_of_find (p : EnrollmentPlan) (cid : str) :
  state_of p cid =
  match find_gpa cid (items p) with
  | None => Absent
  | Some None => Ungraded
  | Some (Some _) => Graded
  end.
Proof.
  unfold state_of. rewrite get_gpa_find.
  destruct (find_gpa cid (items p)) as [[|]|]; reflexivity.
Qed.

(** C2, as amended. Under [add_course], [remove_course] and [set_gpa] the
    state of a course identifier either stays as it is or takes one of
    four transitions: absent to enrolled(ungraded), by adding it;
    enrolled to enrolled(graded), by setting a GPA value;
    enrolled to enrolled(ungraded), by setting an absent GPA (which
    clears a grade); enrolled to absent, by removing it. An absent course
    never becomes graded in one step. *)
Theorem course_state_transitions (o : op) (p : EnrollmentPlan) (c : str) :
  let p' := outcome_plan (run_op o p) in
  state_of p' c = state_of p c
  \/ (exists sem, o = AddCourse c sem
                  /\ state_of p c = Absent /\ state_of p' c = Ungraded)
  \/ (exists v, o = SetGpa c (GpaValue v)
                /\ state_of p c <> Absent /\ state_of p' c = Graded)
  \/ (o = SetGpa c GpaNone
      /\ state_of p c <> Absent /\ state_of p' c = Ungraded)
  \/ (o = RemoveCourse c
      /\ state_of p c <> Absent /\ state_of p' c = Absent).
Proof.
  assert (P : forall cid, has_course p cid = true ->
              match find_gpa cid (items p) with
              | None => Absent
              | Some None => Ungraded
              | Some (Some _) => Graded
              end <> Absent).
  { intros cid Hh.
    destruct (find_gpa cid (items p)) as [[|]|] eqn:E; try discriminate.
    apply find_gpa_has in E. unfold has_course in Hh. congruence. }
  intros p'. subst p'. rewrite !state_of_find.
  destruct o as [cid sem|cid|cid g]; simpl.
  - pose proof (add_course_inv p cid sem) as H.
    destruct (add_course cid sem p) as [a p1|e p1]; simpl.
    + destruct H as (sem' & c0 & cur & (_ & _ & Hh & _) & _ & ->).
      simpl. rewrite find_gpa_app_new.
      destruct (find_gpa c (items p)) as [g|] eqn:E; [left; reflexivity|].
      destruct (eqb cid c) eqn:Ec; [|left; reflexivity].
      apply str_eqb_eq in Ec. subst c.
      right; left. exists sem. auto.
    + destruct H as [-> _]. left; reflexivity.
  - destruct (has_course p cid) eqn:Hh.
    + rewrite (remove_course_enrolled _ _ Hh). simpl.
      destruct (eqb cid c) eqn:Ec.
      * apply str_eqb_eq in Ec. subst c.
        right; right; right; right.
        rewrite find_gpa_without_same. auto.
      * apply str_eqb_neq in Ec.
        rewrite find_gpa_without_other by congruence. left; reflexivity.
    + rewrite (remove_course_not_enrolled _ _ Hh). left; reflexivity.
  - rewrite set_gpa_unfold.
    destruct (validate_gpa g) as [v|e] eqn:Hv; [|left; reflexivity].
    destruct (has_course p cid) eqn:Hh; [|left; reflexivity].
    simpl.
    destruct (eqb cid c) eqn:Ec.
    + apply str_eqb_eq in Ec. subst c.
      rewrite (find_gpa_set_first_same _ _ _ Hh).
      destruct g as [|x|]; simpl in Hv.
      * inversion Hv; subst. right; right; right; left. auto.
      * destruct (_ || _); inversion Hv; subst.
        right; right; left. exists x. auto.
      * discriminate.
    + apply str_eqb_neq in Ec.
      rewrite find_gpa_set_first_other by congruence. left; reflexivity.
Qed.

(** C9, as amended. [set_gpa] validates the value before it looks the
    course up. A value that [float()] rejects, or a number below 0 or
    above 4, fails with the GPA error whether or not the course is
    enrolled. With an absent value or a number in [0, 4] (0 and 4
    included), an unenrolled course fails with the not-found error, and
    an enrolled one gets the value rounded to 2 decimals (or its grade
    cleared), the other courses keeping theirs. *)
Theorem set_gpa_value_then_enrollment (p : EnrollmentPlan) (cid : str) :
  set_gpa cid GpaUnparseable p
    = Raised (ValueError [Lit "绩点必须是数字（0~4.0）或留空。"]) p
  /\ (forall v, (v <? 0) = true \/ (4 <? v) = true ->
       set_gpa cid (GpaValue v) p
         = Raised (ValueError [Lit "绩点必须在 0~4.0 之间。"]) p)
  /\ (forall g,
        g = GpaNone
        \/ (exists v, g = GpaValue v /\ (0 <=? v) = true /\ (v <=? 4) = true) ->
        has_course p cid = false ->
        set_gpa cid g p = Raised (KeyError [Lit "计划中没有这门课。"]) p)
  /\ (forall v, (0 <=? v) = true -> (v <=? 4) = true ->
       has_course p cid = true ->
       exists p',
         set_gpa cid (GpaValue v) p = Returned tt p'
         /\ get_gpa p' cid = Ok (Some (py_round v 2))
         /\ forall c, c <> cid -> get_gpa p' c = get_gpa p c)
  /\ (has_course p cid = true ->
      exists p',
        set_gpa cid GpaNone p = Returned tt p'
        /\ get_gpa p' cid = Ok None
        /\ forall c, c <> cid -> get_gpa p' c = get_gpa p c)
  /\ validate_gpa (GpaValue 0) = Ok (Some (py_round 0 2))
  /\ validate_gpa (GpaValue 4) = Ok (Some (py_round 4 2)).
Proof.
  assert (V : forall v, (0 <=? v) = true -> (v <=? 4) = true ->
              validate_gpa (GpaValue v) = Ok (Some (py_round v 2))).
  { intros v H0 H4. simpl.
    rewrite (leb_true_ltb_false _ _ H0), (leb_true_ltb_false _ _ H4).
    reflexivity. }
  assert (S : forall v, has_course p cid = true ->
              exists p',
                Returned tt (with_items p (set_first cid v (items p)))
                  = Returned tt p'
                /\ get_gpa p' cid = Ok v
                /\ forall c, c <> cid -> get_gpa p' c = get_gpa p c).
  { intros v Hh. eexists; split; [reflexivity|]. split.
    - rewrite get_gpa_find. simpl.
      rewrite (find_gpa_set_first_same _ _ _ Hh). reflexivity.
    - intros c Hc. rewrite !get_gpa_find. simpl.
      rewrite (find_gpa_set_first_other _ _ _ _ Hc). reflexivity. }
  refine (conj _ (conj _ (conj _ (conj _ (conj _ (conj _ _)))))).
  - reflexivity.
  - intros v Hv. rewrite set_gpa_unfold. simpl.
    destruct Hv as [-> | ->]; [|rewrite orb_true_r]; reflexivity.
  - intros g Hg Hh. rewrite set_gpa_unfold, Hh.
    destruct Hg as [-> | (v & -> & H0 & H4)]; [reflexivity|].
    rewrite (V v H0 H4). reflexivity.
  - intros v H0 H4 Hh. rewrite set_gpa_unfold, (V v H0 H4), Hh.
    apply (S (Some (py_round v 2)) Hh).
  - intros Hh. rewrite set_gpa_unfold, Hh. apply (S None Hh).
  - reflexivity.
  - reflexivity.
Qed.

(** C5. [add_course] fails with the credit-cap error exactly when its
    earlier checks pass and the credits already scheduled in the term
    plus the course's credits are strictly greater than the per-term
    ceiling; the message then carries the term total, the incoming
    credits and the limit. When the sum does not exceed the ceiling, and
    in particular when it reaches it exactly, the course is appended. *)
Theorem add_course_credit_cap (p : EnrollmentPlan) (cid sem : str) :
  (forall e p',
     add_course cid sem p = Raised e p' /\ is_credit_cap_error e <->
     exists sem' c current,
       reaches_credit_cap p cid sem sem' c current
       /\ (term_credit_limit p <? current + credits c) = true
       /\ e = ValueError (credit_cap_message sem' current (credits c)
                            (term_credit_limit p))
       /\ p' = p)
  /\ (forall sem' c current,
        reaches_credit_cap p cid sem sem' c current ->
        (term_credit_limit p <? current + credits c) = false ->
        add_course cid sem p
          = Returned tt (with_items p (items p ++ [new_item cid sem'])))
  /\ (forall sem' c current,
        reaches_credit_cap p cid sem sem' c current ->
        current + credits c = term_credit_limit p ->
        add_course cid sem p
          = Returned tt (with_items p (items p ++ [new_item cid sem']))).
Proof.
  split; [|split].
  - intros e p'. split.
    + intros [H (s & x & y & z & He)].
      pose proof (add_course_inv p cid sem) as G. rewrite H in G.
      destruct G as [-> [(sem' & c & cur & Hr & Hlt & ->) | G]].
      * exists sem', c, cur. auto.
      * exfalso. apply (G s x y z). exact He.
    + intros (sem' & c & cur & Hr & Hlt & -> & ->).
      rewrite (add_course_at_cap _ _ _ _ _ _ Hr), Hlt. split; [reflexivity|].
      unfold is_credit_cap_error. eauto.
  - intros sem' c cur Hr Hlt. rewrite (add_course_at_cap _ _ _ _ _ _ Hr), Hlt. reflexivity.
  - intros sem' c cur Hr Heq. rewrite (add_course_at_cap _ _ _ _ _ _ Hr), Heq, ltb_irrefl.
    reflexivity.
Qed.

(** *** Sorting *)

Lemma str_ltb_trans (a b c : str) :
  ltb a b = true -> ltb b c = true -> ltb a c = true.
Proof.
  revert b c; induction a as [|x a IH]; intros [|y b] [|z c]; simpl;
    try congruence.
  destruct (x <? y)%N eqn:Hxy, (y <? x)%N eqn:Hyx,
           (y <? z)%N eqn:Hyz, (z <? y)%N eqn:Hzy,
           (x <? z)%N eqn:Hxz, (z <? x)%N eqn:Hzx;
    try congruence; try (exfalso; n_order; lia).
  apply IH.
Qed.

Lemma str_ltb_total (a b : str) :
  ltb a b = false -> ltb b a = false -> a = b.
Proof.
  revert b; induction a as [|x a IH]; intros [|y b]; simpl; try congruence.
  destruct (x <? y)%N eqn:Hxy, (y <? x)%N eqn:Hyx; try congruence.
  intros H1 H2. n_order. f_equal; [lia | auto].
Qed.

Lemma pair_ltb_trans (a b c : str * str) :
  pair_ltb a b = true -> pair_ltb b c = true -> pair_ltb a c = true.
Proof.
  destruct a as [a1 a2], b as [b1 b2], c as [c1 c2]. unfold pair_ltb; simpl.
  destruct (ltb a1 b1) eqn:Hab.
  - intros _. destruct (ltb b1 c1) eqn:Hbc.
    + rewrite (str_ltb_trans _ _ _ Hab Hbc). reflexivity.
    + destruct (ltb c1 b1) eqn:Hcb; [discriminate|]. intros _.
      rewrite <- (str_ltb_total _ _ Hbc Hcb), Hab. reflexivity.
  - destruct (ltb b1 a1) eqn:Hba; [discriminate|].
    rewrite (str_ltb_total _ _ Hab Hba). intros H.
    destruct (ltb b1 c1); [reflexivity|].
    destruct (ltb c1 b1); [discriminate|]. apply str_ltb_trans. exact H.
Qed.

Lemma pair_ltb_total (a b : str * str) :
  pair_ltb a b = false -> pair_ltb b a = false -> a = b.
Proof.
  destruct a as [a1 a2], b as [b1 b2]. unfold pair_ltb; simpl.
  destruct (ltb a1 b1) eqn:Hab; [discriminate|].
  destruct (ltb b1 a1) eqn:Hba; [discriminate|].
  intros H1 H2. f_equal; apply str_ltb_total; assumption.
Qed.

Section Sorting.

Context {K A : Type} (lt : K -> K -> bool).

Lemma insert_by_perm (x : K * A) (l : list (K * A)) :
  Permutation (insert_by lt x l) (x :: l).
Proof.
  induction l as [|y l IH]; simpl; [reflexivity|].
  destruct (lt (fst y) (fst x)); [|reflexivity].
  rewrite IH. apply perm_swap.
Qed.

Lemma py_sorted_perm (l : list (K * A)) : Permutation (py_sorted lt l) l.
Proof.
  induction l as [|x l IH]; simpl; [reflexivity|].
  unfold py_sorted in *. simpl. rewrite insert_by_perm, IH. reflexivity.
Qed.

Hypothesis lt_asym : forall a b, lt a b = true -> lt b a = false.
Hypothesis lt_trans : forall a b c, lt a b = true -> lt b c = true -> lt a c = true.
Hypothesis lt_total : forall a b, lt a b = false -> lt b a = false -> a = b.

Lemma not_after_trans (a b c : K * A) :
  (not_after lt) a b -> (not_after lt) b c -> (not_after lt) a c.
Proof.
  unfold not_after. intros Hba Hcb.
  destruct (lt (fst c) (fst a)) eqn:Hca; [|reflexivity].
  destruct (lt (fst a) (fst b)) eqn:Hab.
  - rewrite (lt_trans _ _ _ Hca Hab) in Hcb. discriminate.
  - rewrite <- (lt_total _ _ Hab Hba), Hca in Hcb. discriminate.
Qed.

Lemma insert_by_sorted (x : K * A) (l : list (K * A)) :
  Sorted (not_after lt) l -> Sorted (not_after lt) (insert_by lt x l).
Proof.
  induction l as [|y l IH]; simpl; intros Hs.
  - constructor; constructor.
  - destruct (lt (fst y) (fst x)) eqn:E.
    + inversion Hs as [|? ? Hs' Hd]; subst.
      constructor; [apply IH; exact Hs'|].
      destruct l as [|z l]; simpl.
      * constructor. unfold not_after. apply lt_asym. exact E.
      * destruct (lt (fst z) (fst x)).
        -- inversion Hd; subst. constructor. assumption.
        -- constructor. unfold not_after. apply lt_asym. exact E.
    + constructor; [exact Hs|]. constructor. exact E.
Qed.

Lemma py_sorted_sorted (l : list (K * A)) :
  StronglySorted (not_after lt) (py_sorted lt l).
Proof.
  apply Sorted_StronglySorted.
  - intros a b c. apply not_after_trans.
  - induction l as [|x l IH]; simpl; [constructor|].
    apply insert_by_sorted. exact IH.
Qed.

Variable key : A -> K.

Lemma sorted_by_key_perm (l : list A) : Permutation (sorted_by_key lt key l) l.
Proof.
  unfold sorted_by_key. rewrite py_sorted_perm, map_map. simpl.
  rewrite map_id. reflexivity.
Qed.

Lemma sorted_by_key_sorted (l : list A) :
  StronglySorted (fun a b => lt (key b) (key a) = false) (sorted_by_key lt key l).
Proof.
  unfold sorted_by_key.
  set (d := map (fun a => (key a, a)) l).
  assert (Hk : forall x, In x (py_sorted lt d) -> fst x = key (snd x)).
  { intros x Hx. apply (Permutation_in _ (py_sorted_perm d)) in Hx.
    unfold d in Hx. apply in_map_iff in Hx as (c & <- & _). reflexivity. }
  pose proof (py_sorted_sorted d) as Hs.
  induction Hs as [|x t Hs IH Hf]; simpl; [constructor|].
  constructor.
  - apply IH. intros y Hy. apply Hk. right. exact Hy.
  - apply Forall_forall. intros c Hc.
    apply in_map_iff in Hc as (y & <- & Hy).
    rewrite Forall_forall in Hf. specialize (Hf y Hy).
    unfold not_after in Hf.
    rewrite (Hk x (or_introl eq_refl)), (Hk y (or_intror Hy)) in Hf. exact Hf.
Qed.

Lemma sorted_strictly (l : list A) :
  StronglySorted (fun a b => lt (key b) (key a) = false) l ->
  NoDup (map key l) ->
  StronglySorted (fun a b => lt (key a) (key b) = true) l.
Proof.
  induction 1 as [|a t Hs IH Hf]; simpl; intros Hnd; [constructor|].
  inversion Hnd as [|? ? Ha Hl]; subst.
  constructor; [auto|].
  apply Forall_forall. intros b Hb.
  rewrite Forall_forall in Hf. specialize (Hf b Hb).
  destruct (lt (key a) (key b)) eqn:E; [reflexivity|].
  exfalso. apply Ha. rewrite (lt_total _ _ E Hf). apply in_map. exact Hb.
Qed.

End Sorting.

(** *** Catalogs built by [Catalog_init] *)

Lemma lookup_app {V : Type} (k : str) (d d' : list (str * V)) :
  lookup k (d ++ d') =
  match lookup k d with
  | Some v => Some v
  | None => lookup k d'
  end.
Proof.
  induction d as [|[k' v] d IH]; simpl; [reflexivity|].
  destruct (eqb k' k); [reflexivity | exact IH].
Qed.

Lemma Catalog_init_loop_Ok (cs : list Course) :
  forall (acc : list (str * Course)) (cat : Catalog),
    Catalog_init_loop cs acc = Ok cat ->
    by_id cat = acc ++ entries cs
    /\ (forall c, In c cs -> exists s, extract_season (semester c) = Ok s)
    /\ (forall c, In c cs -> lookup (course_id c) acc = None)
    /\ NoDup (map course_id cs).
Proof.
  induction cs as [|c cs IH]; simpl; intros acc cat H.
  - inversion H; subst. simpl. rewrite app_nil_r.
    repeat split; try (intros ? []). constructor.
  - destruct (lookup (course_id c) acc) eqn:Hl; [discriminate|].
    destruct (extract_season (semester c)) as [s|e] eqn:Hs; [|discriminate].
    simpl in H. apply IH in H as (H1 & H2 & H3 & H4).
    split; [|split; [|split]].
    + rewrite H1, <- app_assoc. reflexivity.
    + intros c' [<- | Hc']; eauto.
    + intros c' [<- | Hc']; [exact Hl|].
      specialize (H3 c' Hc'). rewrite lookup_app in H3.
      destruct (lookup (course_id c') acc); [discriminate | reflexivity].
    + constructor; [|exact H4].
      intros Hin. apply in_map_iff in Hin as (c' & Heq & Hc').
      specialize (H3 c' Hc'). rewrite lookup_app in H3.
      destruct (lookup (course_id c') acc); [discriminate|].
      simpl in H3. rewrite Heq, str_eqb_refl in H3. discriminate.
Qed.

Lemma Catalog_init_Ok (cs : list Course) (cat : Catalog) :
  Catalog_init cs = Ok cat ->
  by_id cat = entries cs
  /\ (forall c, In c cs -> exists s, extract_season (semester c) = Ok s)
  /\ NoDup (map course_id cs).
Proof.
  intros H. apply Catalog_init_loop_Ok in H as (H1 & H2 & _ & H4). auto.
Qed.

Lemma lookup_entries (cs : list Course) (c : Course) :
  NoDup (map course_id cs) -> In c cs ->
  lookup (course_id c) (entries cs) = Some c.
Proof.
  induction cs as [|x cs IH]; simpl; intros Hnd Hin; [contradiction|].
  inversion Hnd as [|? ? Hx Hnd']; subst.
  destruct Hin as [-> | Hin].
  - rewrite str_eqb_refl. reflexivity.
  - destruct (eqb (course_id x) (course_id c)) eqn:E; [|auto].
    apply str_eqb_eq in E. exfalso. apply Hx. rewrite E.
    apply in_map. exact Hin.
Qed.

Lemma map_snd_entries (cs : list Course) : map snd (entries cs) = cs.
Proof.
  unfold entries. rewrite map_map. simpl. apply map_id.
Qed.

(** *** auto_add_all_required *)

Lemma keyed_Ok (l : list Course) :
  (forall c, In c l -> exists s, extract_season (semester c) = Ok s) ->
  mapM (fun x => s <- extract_season (semester x) ;;
                 Ok ((s, course_id x), x)) l
  = Ok (map (fun c => (sort_key c, c)) l).
Proof.
  induction l as [|c l IH]; simpl; intros H; [reflexivity|].
  destruct (H c (or_introl eq_refl)) as [s Hs].
  unfold sort_key at 1, season_of. rewrite Hs. simpl.
  rewrite IH by auto. reflexivity.
Qed.

Lemma re_1_9_not_space (d : codepoint) : re_1_9 d = true -> isspace d = false.
Proof.
  unfold re_1_9. rewrite andb_true_iff, !N.leb_le. intros H.
  destruct (isspace d) eqn:E; [exfalso|reflexivity].
  unfold isspace in E.
  rewrite !orb_true_iff, !andb_true_iff, !N.leb_le, !N.eqb_eq in E. lia.
Qed.

Lemma re_season_cases (c : codepoint) :
  re_season c = true -> c = fall_cp \/ c = spring_cp \/ c = summer_cp.
Proof.
  unfold re_season. rewrite !orb_true_iff, !N.eqb_eq. tauto.
Qed.

Lemma re_season_not_space (c : codepoint) : re_season c = true -> isspace c = false.
Proof.
  intros H. apply re_season_cases in H as [-> | [-> | ->]]; reflexivity.
Qed.

Lemma split_last_app (y : str) (c : codepoint) :
  split_last (y ++ [c]) = Some (y, c).
Proof.
  unfold split_last. rewrite rev_app_distr. simpl. rewrite rev_involutive.
  reflexivity.
Qed.

Lemma split_last_Some (s y : str) (c : codepoint) :
  split_last s = Some (y, c) -> s = y ++ [c].
Proof.
  unfold split_last. destruct (rev s) as [|x r] eqn:E; [discriminate|].
  intros H; inversion H; subst; clear H.
  rewrite <- (rev_involutive s), E. reflexivity.
Qed.

Lemma ACTUAL_SEM_RE_shape (s : str) :
  ACTUAL_SEM_RE s = true ->
  exists d ds c,
    s = (d :: ds) ++ [c] /\ re_1_9 d = true /\ re_season c = true
    /\ re_year (d :: ds) = true.
Proof.
  unfold ACTUAL_SEM_RE.
  destruct (split_last s) as [[y c]|] eqn:E; [|discriminate].
  rewrite andb_true_iff. intros [Hc Hy].
  destruct y as [|d ds]; [discriminate|].
  apply split_last_Some in E.
  exists d, ds, c. repeat split; auto.
  simpl in Hy. apply andb_true_iff in Hy as [Hd _]. exact Hd.
Qed.

Lemma ACTUAL_SEM_RE_strip (s : str) : ACTUAL_SEM_RE s = true -> strip s = s.
Proof.
  intros H. apply ACTUAL_SEM_RE_shape in H as (d & ds & c & -> & Hd & Hc & _).
  unfold strip. simpl. rewrite (re_1_9_not_space _ Hd).
  unfold rstrip. change (d :: ds ++ [c]) with ((d :: ds) ++ [c]).
  rewrite rev_app_distr. simpl. rewrite (re_season_not_space _ Hc).
  change (c :: rev ds ++ [d]) with ([c] ++ rev (d :: ds)).
  rewrite rev_app_distr, rev_involutive. reflexivity.
Qed.

Lemma mem_season (c : codepoint) : re_season c = true -> mem [c] SEASONS = true.
Proof.
  intros H. apply re_season_cases in H as [-> | [-> | ->]]; reflexivity.
Qed.

Lemma ACTUAL_SEM_RE_season (s : str) :
  ACTUAL_SEM_RE s = true ->
  exists c, re_season c = true /\ extract_season s = Ok [c]
            /\ forall k, endswith s k = (c =? k)%N.
Proof.
  intros H. pose proof (ACTUAL_SEM_RE_strip _ H) as Hs.
  apply ACTUAL_SEM_RE_shape in H as (d & ds & c & E & Hd & Hc & Hy).
  exists c. split; [exact Hc|]. split.
  - unfold extract_season, COURSE_SEM_RE.
    rewrite Hs, E, split_last_app. cbv beta iota.
    rewrite Hc, Hy. cbn [andb]. rewrite (mem_season _ Hc). reflexivity.
  - intros k. unfold endswith. rewrite E, rev_app_distr. reflexivity.
Qed.

Lemma PLAN_SEMESTERS_actual (x : str) :
  mem x PLAN_SEMESTERS = true -> ACTUAL_SEM_RE x = true.
Proof.
  intros H. apply existsb_exists in H as (y & Hin & Heq).
  apply str_eqb_eq in Heq. subst y.
  simpl in Hin.
  repeat (destruct Hin as [<- | Hin]; [reflexivity|]). contradiction.
Qed.

Lemma final_year_in_plan (s : str) :
  mem (final_year_of_season s) PLAN_SEMESTERS = true.
Proof.
  unfold final_year_of_season.
  destruct (eqb s (u "秋")); [reflexivity|].
  destruct (eqb s (u "春")); reflexivity.
Qed.

Lemma placement_in_plan (c : Course) : mem (placement c) PLAN_SEMESTERS = true.
Proof.
  unfold placement.
  destruct (mem (semester c) PLAN_SEMESTERS) eqn:E; [exact E|].
  apply final_year_in_plan.
Qed.

Lemma placement_strip (c : Course) : strip (placement c) = placement c.
Proof. apply ACTUAL_SEM_RE_strip, PLAN_SEMESTERS_actual, placement_in_plan. Qed.

(** The target the loop of [auto_add_all_required] computes for a course
    of a well-formed catalog is its placement. *)
Lemma auto_target (c : Course) (s : str) (p : EnrollmentPlan) :
  extract_season (semester c) = Ok s ->
  (target <-- (if ACTUAL_SEM_RE (semester c) then ret (semester c)
               else s <-- lift (extract_season (semester c)) ;;
                    ret (final_year_of_season s)) ;;
   let target :=
     if negb (mem target PLAN_SEMESTERS)
     then final_year_of_suffix target else target in
   add_course (course_id c) target) p
  = add_course (course_id c) (placement c) p.
Proof.
  intros Hs. unfold placement, season_of. rewrite Hs.
  destruct (mem (semester c) PLAN_SEMESTERS) eqn:Hm.
  - rewrite (PLAN_SEMESTERS_actual _ Hm). unfold bindM, ret.
    rewrite Hm. reflexivity.
  - destruct (ACTUAL_SEM_RE (semester c)) eqn:Ha.
    + unfold bindM, ret. rewrite Hm. cbn [negb].
      destruct (ACTUAL_SEM_RE_season _ Ha) as (k & Hk & He & Hend).
      rewrite Hs in He. inversion He; subst s. f_equal.
      unfold final_year_of_suffix. rewrite !Hend.
      apply re_season_cases in Hk as [-> | [-> | ->]]; reflexivity.
    + unfold bindM, lift, ret. rewrite final_year_in_plan. reflexivity.
Qed.

Lemma bindM_apply {A B : Type} (m : M A) (k : A -> M B) (p : EnrollmentPlan) :
  bindM m k p =
  match m p with
  | Returned a p' => k a p'
  | Raised e p' => Raised e p'
  end.
Proof. reflexivity. Qed.

Lemma for_each_enroll (L : list Course) :
  forall p : EnrollmentPlan,
    NoDup (map course_id L) ->
    (forall c, In c L -> exists s, extract_season (semester c) = Ok s) ->
    for_each L (fun c =>
      self <-- get_self ;;
      if has_course self (course_id c) then ret tt
      else
        target <-- (if ACTUAL_SEM_RE (semester c) then ret (semester c)
                    else s <-- lift (extract_season (semester c)) ;;
                         ret (final_year_of_season s)) ;;
        let target :=
          if negb (mem target PLAN_SEMESTERS)
          then final_year_of_suffix target else target in
        add_course (course_id c) target) p
    = enroll_each (filter (fun c => negb (has_course p (course_id c))) L) p.
Proof.
  induction L as [|c L IH]; intros p Hnd Hok; [reflexivity|].
  inversion Hnd as [|? ? Hc Hnd']; subst.
  destruct (Hok c (or_introl eq_refl)) as [s Hs].
  assert (Hok' : forall c', In c' L -> exists s, extract_season (semester c') = Ok s)
    by (intros; apply Hok; right; assumption).
  cbn [for_each filter]. unfold bindM at 1. unfold bindM at 1.
  unfold get_self at 1.
  destruct (has_course p (course_id c)) eqn:Hh; cbn [negb].
  - unfold ret at 1. apply IH; assumption.
  - rewrite (auto_target _ _ _ Hs). cbn [enroll_each].
    rewrite (bindM_apply (add_course (course_id c) (placement c))).
    destruct (add_course (course_id c) (placement c) p) as [a p1|e p1] eqn:Ha;
      [|reflexivity].
    rewrite IH by assumption. f_equal.
    apply add_course_returned in Ha as [_ ->].
    apply filter_ext_in. intros c' Hc'.
    rewrite has_course_app_new.
    destruct (eqb (course_id c) (course_id c')) eqn:E;
      [|rewrite orb_false_r; reflexivity].
    apply str_eqb_eq in E. exfalso. apply Hc. rewrite E.
    apply in_map. exact Hc'.
Qed.

Lemma enroll_each_outcome (l : list Course) :
  forall p : EnrollmentPlan,
    match enroll_each l p with
    | Returned _ p' => p' = with_items p (items p ++ map item_of l)
    | Raised e p' =>
        exists done c rest,
          l = done ++ c :: rest
          /\ p' = with_items p (items p ++ map item_of done)
          /\ add_course (course_id c) (placement c) p' = Raised e p'
    end.
Proof.
  induction l as [|c l IH]; intros p; simpl.
  - unfold ret. rewrite app_nil_r, with_items_same. reflexivity.
  - unfold bindM.
    destruct (add_course (course_id c) (placement c) p) as [a p1|e p1] eqn:Ha.
    + apply add_course_returned in Ha as [_ ->]. rewrite placement_strip.
      specialize (IH (with_items p (items p ++ [new_item (course_id c) (placement c)]))).
      destruct (enroll_each l _) as [a' p'|e p'].
      * rewrite IH. simpl. rewrite <- app_assoc. reflexivity.
      * destruct IH as (done & c' & rest & -> & -> & H).
        exists (c :: done), c', rest. simpl in *.
        rewrite <- app_assoc in *. auto.
    + pose proof (add_course_raised_unchanged _ _ _ _ _ Ha) as ->.
      exists [], c, l. simpl. rewrite app_nil_r, with_items_same. auto.
Qed.

Lemma auto_add_all_required_unfold (cs : list Course) (p : EnrollmentPlan) :
  Catalog_init cs = Ok (catalog p) ->
  auto_add_all_required p = enroll_each (pending p) p.
Proof.
  intros H. apply Catalog_init_Ok in H as (Hb & Hok & Hnd).
  assert (Hreq : required_courses (catalog p)
                 = filter (fun c => eqb (course_type c) (u "必修")) cs).
  { unfold required_courses. rewrite Hb, map_snd_entries. reflexivity. }
  assert (Hok' : forall c, In c (required_courses (catalog p)) ->
                 exists s, extract_season (semester c) = Ok s).
  { intros c Hc. rewrite Hreq in Hc. apply filter_In in Hc as [Hc _]. auto. }
  unfold auto_add_all_required, pending, by_season_then_id.
  unfold bindM at 1. unfold get_self at 1. unfold bindM at 1.
  rewrite (keyed_Ok _ Hok'). unfold lift at 1.
  set (L := map snd (py_sorted pair_ltb
              (map (fun c => (sort_key c, c)) (required_courses (catalog p))))).
  assert (HL : Permutation L (required_courses (catalog p))).
  { unfold L. rewrite (py_sorted_perm pair_ltb), map_map. simpl.
    rewrite map_id. reflexivity. }
  apply for_each_enroll.
  - apply (Permutation_NoDup (l := map course_id (required_courses (catalog p)))).
    + apply Permutation_map. symmetry. exact HL.
    + rewrite Hreq. clear - Hnd.
      induction cs as [|c cs IH]; simpl; [constructor|].
      inversion Hnd as [|? ? Hc Hnd']; subst.
      destruct (eqb (course_type c) (u "必修")); simpl; [|auto].
      constructor; [|auto].
      intros Hin. apply Hc. apply in_map_iff in Hin as (c' & E & Hin).
      apply filter_In in Hin as [Hin _]. rewrite <- E. apply in_map. exact Hin.
  - intros c Hc. apply Hok'. apply (Permutation_in _ HL). exact Hc.
Qed.

Lemma by_season_then_id_perm (cs : list Course) :
  Permutation (by_season_then_id cs) cs.
Proof. apply (sorted_by_key_perm pair_ltb sort_key). Qed.

Lemma StronglySorted_filter {A : Type} (R : A -> A -> Prop) (f : A -> bool)
    (l : list A) :
  StronglySorted R l -> StronglySorted R (filter f l).
Proof.
  induction 1 as [|a l Hs IH Hf]; simpl; [constructor|].
  destruct (f a); [|exact IH].
  constructor; [exact IH|].
  apply Forall_forall. intros x Hx. apply filter_In in Hx as [Hx _].
  rewrite Forall_forall in Hf. auto.
Qed.

Lemma NoDup_map_filter {A B : Type} (g : A -> B) (f : A -> bool) (l : list A) :
  NoDup (map g l) -> NoDup (map g (filter f l)).
Proof.
  induction l as [|a l IH]; simpl; intros H; [constructor|].
  inversion H as [|? ? Ha Hl]; subst.
  destruct (f a); simpl; [|auto].
  constructor; [|auto].
  intros Hin. apply Ha. apply in_map_iff in Hin as (x & E & Hx).
  apply filter_In in Hx as [Hx _]. rewrite <- E. apply in_map. exact Hx.
Qed.

Lemma by_season_then_id_sorted (cs : list Course) :
  StronglySorted (fun a b => pair_ltb (sort_key b) (sort_key a) = false)
                 (by_season_then_id cs).
Proof.
  apply (sorted_by_key_sorted pair_ltb pair_ltb_asym pair_ltb_trans
           pair_ltb_total sort_key).
Qed.

Lemma sorted_strict (l : list Course) :
  StronglySorted (fun a b => pair_ltb (sort_key b) (sort_key a) = false) l ->
  NoDup (map course_id l) ->
  StronglySorted key_before l.
Proof.
  intros Hs Hnd.
  apply (sorted_strictly pair_ltb pair_ltb_total sort_key _ Hs).
  apply (NoDup_map_inv snd). rewrite map_map. exact Hnd.
Qed.

Lemma required_NoDup (cs : list Course) (cat : Catalog) :
  Catalog_init cs = Ok cat ->
  required_courses cat = filter (fun c => eqb (course_type c) (u "必修")) cs
  /\ NoDup (map course_id (required_courses cat)).
Proof.
  intros H. apply Catalog_init_Ok in H as (Hb & _ & Hnd).
  assert (E : required_courses cat
              = filter (fun c => eqb (course_type c) (u "必修")) cs).
  { unfold required_courses. rewrite Hb, map_snd_entries. reflexivity. }
  split; [exact E|]. rewrite E. apply NoDup_map_filter. exact Hnd.
Qed.

(** C7, as amended. On a plan whose catalog was built by [Catalog_init],
    [auto_add_all_required] goes through the required courses not yet
    enrolled in ascending order of (season, identifier) and calls
    [add_course] for each with its placement: the course's own program
    semester when that is one of the twelve semesters of the four
    planning years, and the fourth year's semester of the course's
    season otherwise (a season-only tag, or a year outside the four
    planning years). The batch stops at the first [add_course] that
    fails, with that error, and the courses added before it stay
    enrolled. *)
Theorem auto_add_all_required_batch (cs : list Course) (p : EnrollmentPlan) :
  Catalog_init cs = Ok (catalog p) ->
  (forall c, In c (pending p) <->
             In c cs /\ course_type c = u "必修"
             /\ has_course p (course_id c) = false)
  /\ StronglySorted key_before (pending p)
  /\ (forall c, placement c =
                if mem (semester c) PLAN_SEMESTERS then semester c
                else final_year_of_season (season_of c))
  /\ auto_add_all_required p = enroll_each (pending p) p
  /\ (forall a p', auto_add_all_required p = Returned a p' ->
       p' = with_items p (items p ++ map item_of (pending p)))
  /\ (forall e p', auto_add_all_required p = Raised e p' ->
       exists done c rest,
         pending p = done ++ c :: rest
         /\ p' = with_items p (items p ++ map item_of done)
         /\ add_course (course_id c) (placement c) p' = Raised e p').
Proof.
  intros H. pose proof (auto_add_all_required_unfold _ _ H) as Hu.
  destruct (required_NoDup _ _ H) as [Hreq Hnd].
  pose proof (enroll_each_outcome (pending p) p) as Ho.
  refine (conj _ (conj _ (conj _ (conj Hu (conj _ _))))).
  - intros c. unfold pending. rewrite filter_In, negb_true_iff.
    assert (E : In c (by_season_then_id (required_courses (catalog p)))
                <-> In c (required_courses (catalog p))).
    { split; apply Permutation_in;
        [|symmetry]; apply by_season_then_id_perm. }
    rewrite E, Hreq, filter_In, str_eqb_eq. tauto.
  - unfold pending. apply sorted_strict.
    + apply StronglySorted_filter, by_season_then_id_sorted.
    + apply NoDup_map_filter.
      apply (Permutation_NoDup (l := map course_id (required_courses (catalog p))));
        [|exact Hnd].
      apply Permutation_map. symmetry. apply by_season_then_id_perm.
  - reflexivity.
  - intros a p' E. rewrite Hu in E. rewrite E in Ho. exact Ho.
  - intros e p' E. rewrite Hu in E. rewrite E in Ho. exact Ho.
Qed.

(** *** Failing operations *)

Lemma grows_refl (p : EnrollmentPlan) : grows p p.
Proof.
  repeat split. exists []. rewrite app_nil_r. reflexivity.
Qed.


Lemma add_course_grows (p : EnrollmentPlan) (cid sem : str) :
  grows p (outcome_plan (add_course cid sem p)).
Proof.
  pose proof (add_course_inv p cid sem) as H.
  destruct (add_course cid sem p) as [a p'|e p']; simpl.
  - destruct H as (sem' & c & cur & _ & _ & ->).
    repeat split. eexists; reflexivity.
  - destruct H as [-> _]. apply grows_refl.
Qed.




(** *** Floats: sums of non-negative numbers *)










(** *** Weighted GPA aggregates *)


Lemma count_missing_zero (l : list PlanItem) :
  count_missing l = O -> Forall (fun i => gpa i <> None) l.
Proof.
  unfold count_missing. induction l as [|i l IH]; simpl; intros H; [constructor|].
  destruct (gpa i) eqn:E; simpl in H; [|discriminate].
  constructor; [congruence | auto].
Qed.

Lemma weighted_totals_Ok (cat : Catalog) (l : list PlanItem) :
  Forall (listed cat) l ->
  Forall (fun i => gpa i <> None) l ->
  forall w c,
    weighted_totals cat l w c =
    Ok (fold_left (fun acc gc =>
                     acc + match fst gc with Some g => g | None => 0 end
                           * snd gc) (pairs_of cat l) w,
        fold_left (fun acc gc => acc + snd gc) (pairs_of cat l) c).
Proof.
  induction l as [|i l IH]; intros Hl Hg w c; simpl; [reflexivity|].
  inversion Hl as [|? ? [x Hx] Hl']; subst.
  inversion Hg as [|? ? Hi Hg']; subst.
  unfold credits_of. rewrite Hx. simpl.
  destruct (gpa i) as [g|]; [|congruence]. simpl.
  apply IH; assumption.
Qed.




Lemma Forall_filter_keep {A : Type} (P : A -> Prop) (f : A -> bool) (l : list A) :
  Forall P l -> Forall P (filter f l).
Proof.
  rewrite !Forall_forall. intros H x Hx. apply filter_In in Hx as [Hx _]. auto.
Qed.

Lemma major_items_loop_Ok (cat : Catalog) (mc : list str) (l : list PlanItem) :
  Forall (listed cat) l ->
  forall acc,
    major_items_loop cat mc l acc = Ok (acc ++ filter (is_major cat mc) l).
Proof.
  induction l as [|i l IH]; intros Hl acc; simpl.
  - rewrite app_nil_r. reflexivity.
  - inversion Hl as [|? ? [c Hc] Hl']; subst.
    unfold is_major at 1. rewrite Hc. simpl.
    rewrite (IH Hl').
    destruct (mem (category_or_default c) mc); [|reflexivity].
    rewrite <- app_assoc. reflexivity.
Qed.

Lemma int_digits_Some (s : str) :
  forallb re_digit s = true -> forall acc, exists n, int_digits s acc = Some n.
Proof.
  induction s as [|c s IH]; simpl; intros H acc; [eauto|].
  apply andb_true_iff in H as [Hc Hs]. unfold re_digit in Hc.
  destruct (digit_value c); [|discriminate]. apply IH. exact Hs.
Qed.

Lemma re_1_9_digit (d : codepoint) : re_1_9 d = true -> re_digit d = true.
Proof.
  unfold re_1_9, re_digit, digit_value. intros H.
  apply andb_true_iff in H as [H1 H2].
  assert (Hlt : (d <? 128)%N = true)
    by (apply N.ltb_lt; apply N.leb_le in H2; lia).
  assert (H48 : (48 <=? d)%N = true)
    by (apply N.leb_le; apply N.leb_le in H1; lia).
  rewrite Hlt, H48, H2. reflexivity.
Qed.

Lemma leading_digits_all (s : str) :
  forallb re_digit s = true -> leading_digits s = List.length s.
Proof.
  induction s as [|c s IH]; simpl; [reflexivity|].
  intros H. apply andb_true_iff in H as [Hc Hs].
  rewrite Hc, (IH Hs). reflexivity.
Qed.

Lemma actual_year_digits (i : PlanItem) :
  ACTUAL_SEM_RE (actual_semester i) = true ->
  removelast (actual_semester i) <> []
  /\ forallb re_digit (removelast (actual_semester i)) = true.
Proof.
  intros H.
  apply ACTUAL_SEM_RE_shape in H as (d & ds & c & E & Hd & _ & Hy).
  rewrite E, removelast_last. split; [discriminate|].
  simpl. simpl in Hy. apply andb_true_iff in Hy as [_ Hy].
  rewrite (re_1_9_digit _ Hd), Hy. reflexivity.
Qed.

Lemma py_int_year (i : PlanItem) :
  year_readable i ->
  py_int (removelast (actual_semester i)) = Ok (year_of i).
Proof.
  intros [H Hlen]. unfold year_of.
  destruct (actual_year_digits _ H) as [Hne Hd].
  unfold py_int. cbv zeta. rewrite (leading_digits_all _ Hd).
  assert (E : (4300 <? List.length (removelast (actual_semester i)))%nat
              = false) by (apply Nat.ltb_ge; exact Hlen).
  rewrite E.
  destruct (int_digits_Some _ Hd 0%Z) as [n Hn]. rewrite Hn.
  destruct (removelast (actual_semester i)); [contradiction|reflexivity].
Qed.

Lemma py_int_long_year (i : PlanItem) :
  ACTUAL_SEM_RE (actual_semester i) = true ->
  (4300 < List.length (removelast (actual_semester i)))%nat ->
  exists msg, py_int (removelast (actual_semester i)) = Raise (ValueError msg).
Proof.
  intros H Hlen. destruct (actual_year_digits _ H) as [_ Hd].
  unfold py_int. cbv zeta. rewrite (leading_digits_all _ Hd).
  assert (E : (4300 <? List.length (removelast (actual_semester i)))%nat
              = true) by (apply Nat.ltb_lt; exact Hlen).
  rewrite E. eexists; reflexivity.
Qed.

Lemma py_int_Ok (s : str) (n : Z) :
  py_int s = Ok n -> int_digits s 0%Z = Some n.
Proof.
  unfold py_int. cbv zeta.
  destruct (4300 <? leading_digits s)%nat; [discriminate|].
  destruct s as [|c s]; [discriminate|].
  destruct (int_digits (c :: s) 0%Z); [|discriminate].
  intros H; inversion H; reflexivity.
Qed.

Lemma py_int_Ok_length (s : str) (n : Z) :
  py_int s = Ok n -> forallb re_digit s = true ->
  (List.length s <= 4300)%nat.
Proof.
  unfold py_int. cbv zeta. intros H Hd.
  rewrite (leading_digits_all _ Hd) in H.
  destruct (4300 <? List.length s)%nat eqn:E; [discriminate|].
  apply Nat.ltb_ge in E. exact E.
Qed.

Lemma yearly_buckets_Ok (l : list PlanItem) :
  Forall year_readable l ->
  forall B,
    yearly_buckets l B =
    Ok (fold_left (fun b it => bucket_append (year_of it) it b) l B).
Proof.
  induction l as [|i l IH]; intros H B; simpl; [reflexivity|].
  inversion H as [|? ? Hi Hl]; subst.
  rewrite (py_int_year _ Hi). simpl. apply IH. exact Hl.
Qed.

Lemma yearly_buckets_inv (l : list PlanItem) :
  forall B B',
    yearly_buckets l B = Ok B' ->
    B' = fold_left (fun b it => bucket_append (year_of it) it b) l B
    /\ Forall (fun i => py_int (removelast (actual_semester i))
                        = Ok (year_of i)) l.
Proof.
  induction l as [|i l IH]; intros B B'; simpl.
  - intros H; inversion H. auto.
  - destruct (py_int (removelast (actual_semester i))) as [y|e] eqn:E;
      [|discriminate].
    unfold bind. intros H.
    assert (Ey : year_of i = y).
    { unfold year_of. rewrite (py_int_Ok _ _ E). reflexivity. }
    rewrite <- Ey in H. apply IH in H as [H1 H2].
    split; [exact H1|]. constructor; [rewrite Ey; exact E | exact H2].
Qed.

Lemma yearly_buckets_Raise (l : list PlanItem) :
  forall B e,
    yearly_buckets l B = Raise e ->
    exists i, In i l /\ py_int (removelast (actual_semester i)) = Raise e.
Proof.
  induction l as [|i l IH]; intros B e; simpl; [discriminate|].
  destruct (py_int (removelast (actual_semester i))) as [y|e0] eqn:E.
  - unfold bind. intros H. apply IH in H as (j & Hj & Ej).
    exists j. split; [right; exact Hj | exact Ej].
  - unfold bind. intros H; inversion H; subst e0.
    exists i. split; [left; reflexivity | exact E].
Qed.

Lemma zlookup_bucket_append (y k : Z) (v : PlanItem) (B : list (Z * list PlanItem)) :
  zlookup y (bucket_append k v B) =
  if (k =? y)%Z
  then Some (match zlookup k B with Some vs => vs ++ [v] | None => [v] end)
  else zlookup y B.
Proof.
  induction B as [|[k' vs] B IH]; simpl.
  - destruct (k =? y)%Z; reflexivity.
  - destruct (Z.eqb_spec k' k) as [->|Hk]; simpl.
    + destruct (k =? y)%Z; reflexivity.
    + rewrite IH. destruct (Z.eqb_spec k y) as [<-|Hy].
      * destruct (Z.eqb_spec k' k); [contradiction | reflexivity].
      * reflexivity.
Qed.

Lemma bucket_append_keys (k : Z) (v : PlanItem) (B : list (Z * list PlanItem)) :
  NoDup (map fst B) ->
  NoDup (map fst (bucket_append k v B))
  /\ forall y, In y (map fst (bucket_append k v B)) <-> y = k \/ In y (map fst B).
Proof.
  induction B as [|[k' vs] B IH]; simpl; intros H.
  - split; [repeat constructor; auto | intros y; intuition].
  - inversion H as [|? ? Hk' HB]; subst.
    destruct (Z.eqb_spec k' k) as [->|Hk]; simpl.
    + split; [exact H | intros y; intuition].
    + destruct (IH HB) as [IH1 IH2]. split.
      * constructor; [|exact IH1]. rewrite IH2. intuition.
      * intros y. rewrite IH2. intuition.
Qed.

Lemma zlookup_In (B : list (Z * list PlanItem)) (y : Z) (vs : list PlanItem) :
  NoDup (map fst B) -> (In (y, vs) B <-> zlookup y B = Some vs).
Proof.
  induction B as [|[k' v] B IH]; simpl; intros H.
  - split; [contradiction | discriminate].
  - inversion H as [|? ? Hk' HB]; subst.
    destruct (Z.eqb_spec k' y) as [->|Hk].
    + split.
      * intros [E | Hin]; [inversion E; reflexivity|].
        exfalso. apply Hk'. apply (in_map fst) in Hin. exact Hin.
      * intros E. inversion E. auto.
    + rewrite <- (IH HB). split; [|auto].
      intros [E | Hin]; [inversion E; contradiction | exact Hin].
Qed.

Lemma buckets_fold (l : list PlanItem) :
  forall (l0 : list PlanItem) (B : list (Z * list PlanItem)),
    NoDup (map fst B) ->
    (forall y, zlookup y B = nonempty (in_year y l0)) ->
    let B' := fold_left (fun b it => bucket_append (year_of it) it b) l B in
    NoDup (map fst B')
    /\ forall y, zlookup y B' = nonempty (in_year y (l0 ++ l)).
Proof.
  induction l as [|i l IH]; intros l0 B Hnd Hz; simpl.
  - rewrite app_nil_r. auto.
  - change (l0 ++ i :: l) with (l0 ++ [i] ++ l). rewrite app_assoc.
    apply IH.
    + apply bucket_append_keys. exact Hnd.
    + intros y. rewrite zlookup_bucket_append, !Hz.
      unfold in_year. rewrite filter_app. simpl.
      destruct (Z.eqb_spec (year_of i) y) as [<-|Hy].
      * destruct (filter _ l0); reflexivity.
      * rewrite app_nil_r. reflexivity.
Qed.

Lemma mapM_Ok {A B : Type} (f : A -> result B) (g : A -> B) (l : list A) :
  (forall x, In x l -> f x = Ok (g x)) -> mapM f l = Ok (map g l).
Proof.
  induction l as [|a l IH]; simpl; intros H; [reflexivity|].
  rewrite (H a (or_introl eq_refl)). simpl.
  rewrite IH by auto. reflexivity.
Qed.

Lemma in_year_nonempty (y : Z) (l vs : list PlanItem) :
  nonempty (in_year y l) = Some vs <-> in_year y l <> [] /\ vs = in_year y l.
Proof.
  destruct (in_year y l) as [|i t]; simpl.
  - split; [discriminate | intros [H _]; contradiction].
  - split; [intros H; inversion H; split; [discriminate | reflexivity]|].
    intros [_ ->]. reflexivity.
Qed.


(** *** Credit progress *)

Lemma lookup_None_keys {V : Type} (k : str) (d : list (str * V)) :
  lookup k d = None <-> ~ In k (map fst d).
Proof.
  induction d as [|[k' v] d IH]; simpl; [tauto|].
  destruct (eqb k' k) eqn:E.
  - apply str_eqb_eq in E. split; [discriminate | tauto].
  - apply str_eqb_neq in E. rewrite IH. tauto.
Qed.

Lemma lookup_Some_keys {V : Type} (k : str) (d : list (str * V)) :
  In k (map fst d) -> exists v, lookup k d = Some v.
Proof.
  intros H. destruct (lookup k d) as [v|] eqn:E; [eauto|].
  apply lookup_None_keys in E. contradiction.
Qed.

Lemma dict_has_keys {V : Type} (k : str) (d : list (str * V)) :
  dict_has k d = false <-> ~ In k (map fst d).
Proof.
  unfold dict_has. rewrite <- lookup_None_keys.
  destruct (lookup k d); split; congruence.
Qed.

Lemma dict_set_new {V : Type} (k : str) (v : V) (d : list (str * V)) :
  ~ In k (map fst d) -> dict_set k v d = d ++ [(k, v)].
Proof.
  induction d as [|[k' v'] d IH]; simpl; intros H; [reflexivity|].
  destruct (eqb k' k) eqn:E.
  - apply str_eqb_eq in E. tauto.
  - rewrite IH by tauto. reflexivity.
Qed.

Lemma dict_modify_keys {V : Type} (k : str) (f : V -> V) (d : list (str * V)) :
  map fst (dict_modify k f d) = map fst d.
Proof.
  induction d as [|[k' v'] d IH]; simpl; [reflexivity|].
  destruct (eqb k' k); simpl; [reflexivity | rewrite IH; reflexivity].
Qed.

Lemma declared_fold (reqs : list (str * float)) :
  NoDup (map fst reqs) ->
  forall acc,
    (forall k, In k (map fst reqs) -> ~ In k (map fst acc)) ->
    fold_left (fun progress cr =>
                 dict_set (fst cr)
                   {| required := snd cr; selected := 0; completed := 0 |}
                   progress) reqs acc
    = acc ++ map declared reqs.
Proof.
  induction reqs as [|[k x] reqs IH]; simpl; intros Hnd acc Hacc.
  - rewrite app_nil_r. reflexivity.
  - inversion Hnd as [|? ? Hk Hnd']; subst.
    rewrite dict_set_new by (apply Hacc; left; reflexivity).
    rewrite IH; [rewrite <- app_assoc; reflexivity | exact Hnd' |].
    intros k' Hk'. rewrite map_app, in_app_iff. simpl.
    intros [H | [H | []]].
    + apply (Hacc k'); [right; exact Hk' | exact H].
    + subst k'. contradiction.
Qed.

Lemma progress_items_loop_Ok (cat : Catalog) (l : list PlanItem) :
  Forall (listed cat) l ->
  forall P,
    NoDup (map fst P) ->
    exists P',
      progress_items_loop cat l P = Ok P'
      /\ NoDup (map fst P')
      /\ forall k, In k (map fst P') <->
                   In k (map fst P)
                   \/ exists i, In i l /\ item_category cat i = k.
Proof.
  induction l as [|i l IH]; intros Hl P Hnd; simpl.
  - exists P. split; [reflexivity|]. split; [exact Hnd|].
    intros k. split; [auto | intros [H | (i & [] & _)]; exact H].
  - inversion Hl as [|? ? [c Hc] Hl']; subst. rewrite Hc. simpl.
    set (k0 := progress_category c).
    set (P1 := if negb (dict_has k0 P)
               then dict_set k0 {| required := 0; selected := 0; completed := 0 |} P
               else P).
    assert (H1 : NoDup (map fst P1)
                 /\ forall k, In k (map fst P1) <-> In k (map fst P) \/ k = k0).
    { unfold P1. destruct (dict_has k0 P) eqn:Eh; simpl.
      - split; [exact Hnd|]. intros k. split; [auto|].
        intros [H | ->]; [exact H|].
        destruct (in_dec (list_eq_dec N.eq_dec) k0 (map fst P)) as [H|H];
          [exact H|].
        apply dict_has_keys in H. congruence.
      - apply dict_has_keys in Eh. rewrite (dict_set_new _ _ _ Eh), map_app.
        simpl. split.
        + apply NoDup_app; [exact Hnd | repeat constructor; auto |].
          intros x Hx [-> | []]. contradiction.
        + intros k. rewrite in_app_iff. simpl. intuition. }
    destruct H1 as [Hnd1 Hk1].
    set (P2 := dict_modify k0 (add_selected (credits c)) P1).
    set (P3 := match gpa i with
               | Some _ => dict_modify k0 (add_completed (credits c)) P2
               | None => P2
               end).
    assert (H3 : map fst P3 = map fst P1).
    { unfold P3, P2. destruct (gpa i); rewrite ?dict_modify_keys; reflexivity. }
    destruct (IH Hl' P3) as (P' & E & Hnd' & Hk').
    { rewrite H3. exact Hnd1. }
    exists P'. split; [exact E|]. split; [exact Hnd'|].
    intros k. rewrite Hk', H3, Hk1. unfold item_category at 2.
    split.
    + intros [[H | ->] | (j & Hj & Ej)]; eauto.
      right. exists i. rewrite Hc. auto.
    + intros [H | (j & [<- | Hj] & Ej)]; eauto.
      rewrite Hc in Ej. auto.
Qed.

Lemma lookup_dict_set_new {V : Type} (k k' : str) (v : V) (d : list (str * V)) :
  ~ In k (map fst d) ->
  lookup k' (dict_set k v d) =
  match lookup k' d with
  | Some q => Some q
  | None => if eqb k k' then Some v else None
  end.
Proof.
  intros H. rewrite (dict_set_new _ _ _ H), lookup_app. reflexivity.
Qed.

Lemma lookup_dict_modify {V : Type} (k k' : str) (f : V -> V) (d : list (str * V)) :
  lookup k' (dict_modify k f d) =
  if eqb k k' then option_map f (lookup k' d) else lookup k' d.
Proof.
  induction d as [|[k1 v1] d IH]; simpl.
  - destruct (eqb k k'); reflexivity.
  - destruct (eqb k1 k) eqn:E1; simpl.
    + apply str_eqb_eq in E1. subst k1.
      destruct (eqb k k'); reflexivity.
    + rewrite IH. destruct (eqb k1 k') eqn:E2; [|reflexivity].
      apply str_eqb_eq in E2. subst k1. rewrite str_eqb_sym, E1. reflexivity.
Qed.

Lemma progress_items_loop_lookup (cat : Catalog) (l : list PlanItem) :
  forall P P',
    progress_items_loop cat l P = Ok P' ->
    forall k,
      lookup k P' =
      match lookup k P with
      | Some q => Some (counted cat k l q)
      | None =>
          if existsb (in_category cat k) l
          then Some (counted cat k l
                       {| required := 0; selected := 0; completed := 0 |})
          else None
      end.
Proof.
  induction l as [|i l IH]; intros P P' H k; simpl in H.
  - inversion H; subst. destruct (lookup k P') as [[r s0 c0]|]; reflexivity.
  - destruct (Catalog_get cat (item_course_id i)) as [c|e] eqn:Hc;
      [|discriminate]. simpl in H.
    rewrite (IH _ _ H k). clear IH H.
    assert (Hcat : item_category cat i = progress_category c)
      by (unfold item_category; rewrite Hc; reflexivity).
    assert (Hcr : credits_of cat i = credits c)
      by (unfold credits_of; rewrite Hc; reflexivity).
    set (k0 := progress_category c) in *.
    set (z := {| required := 0; selected := 0; completed := 0 |}).
    assert (L1 : lookup k (if negb (dict_has k0 P) then dict_set k0 z P else P)
                 = match lookup k P with
                   | Some q => Some q
                   | None => if eqb k0 k then Some z else None
                   end).
    { destruct (dict_has k0 P) eqn:Eh; simpl.
      - destruct (lookup k P) eqn:El; [reflexivity|].
        destruct (eqb k0 k) eqn:Ek; [|reflexivity].
        apply str_eqb_eq in Ek. subst k0. rewrite <- Ek in El.
        unfold dict_has in Eh. rewrite El in Eh. discriminate.
      - apply lookup_dict_set_new, dict_has_keys, Eh. }
    assert (Hin : in_category cat k i = eqb k0 k)
      by (unfold in_category; rewrite Hcat; reflexivity).
    unfold counted. simpl filter. simpl existsb. rewrite !Hin.
    destruct (gpa i) as [g|] eqn:Eg.
    + assert (Hg : graded i = true) by (unfold graded; rewrite Eg; reflexivity).
      rewrite Hg, !lookup_dict_modify, L1.
      destruct (eqb k0 k); simpl;
        destruct (lookup k P) as [[r s0 c0]|]; simpl; rewrite ?Hcr; reflexivity.
    + assert (Hg : graded i = false) by (unfold graded; rewrite Eg; reflexivity).
      rewrite Hg, !lookup_dict_modify, L1.
      destruct (eqb k0 k); simpl;
        destruct (lookup k P) as [[r s0 c0]|]; simpl; rewrite ?Hcr; reflexivity.
Qed.

Lemma lookup_map_round (k : str) (P : list (str * Progress)) :
  lookup k (map (fun kv => (fst kv, round_progress (snd kv))) P)
  = option_map round_progress (lookup k P).
Proof.
  induction P as [|[k' v] P IH]; simpl; [reflexivity|].
  destruct (eqb k' k); [reflexivity | exact IH].
Qed.

Lemma lookup_declared (k : str) (reqs : list (str * float)) :
  lookup k (map declared reqs)
  = option_map (fun x => {| required := x; selected := 0; completed := 0 |})
               (lookup k reqs).
Proof.
  induction reqs as [|[k' x] reqs IH]; simpl; [reflexivity|].
  destruct (eqb k' k); [reflexivity | exact IH].
Qed.

Lemma credit_progress_by_category_Ok (p : EnrollmentPlan)
    (reqs : list (str * float)) :
  NoDup (map fst reqs) ->
  Forall (listed (catalog p)) (items p) ->
  exists prog,
    credit_progress_by_category p reqs = Ok prog
    /\ NoDup (map fst prog)
    /\ (forall k, In k (map fst prog) <->
                  In k (map fst reqs)
                  \/ exists i, In i (items p) /\ item_category (catalog p) i = k)
    /\ forall k q, lookup k prog = Some q ->
                   q = round_progress (raw_progress p reqs k).
Proof.
  intros Hnd Hl. unfold credit_progress_by_category.
  rewrite (declared_fold _ Hnd []) by (intros ? _ []). simpl app.
  assert (Hk0 : map fst (map declared reqs) = map fst reqs)
    by (rewrite map_map; reflexivity).
  destruct (progress_items_loop_Ok _ _ Hl (map declared reqs)) as (P' & E & Hnd' & Hk').
  { rewrite Hk0. exact Hnd. }
  rewrite E. simpl bind.
  exists (map (fun kv => (fst kv, round_progress (snd kv))) P').
  assert (Hm : map fst (map (fun kv : str * Progress =>
                               (fst kv, round_progress (snd kv))) P')
               = map fst P') by (rewrite map_map; reflexivity).
  split; [reflexivity|]. rewrite Hm. split; [exact Hnd'|]. split.
  - intros k. rewrite Hk', Hk0. reflexivity.
  - intros k q Hq. rewrite lookup_map_round in Hq.
    rewrite (progress_items_loop_lookup _ _ _ _ E k), lookup_declared in Hq.
    unfold raw_progress, py_sum.
    destruct (lookup k reqs) as [x|]; simpl in Hq.
    + inversion Hq. reflexivity.
    + destruct (existsb _ _); simpl in Hq; [|discriminate].
      inversion Hq. reflexivity.
Qed.

(** C8. With requirements given as a dict (no repeated category) and
    every item a course of the catalog, [credit_progress_rows] returns
    one row per category: first the categories of the requirements, in
    their declared order, then the categories found only in the
    enrollment, in ascending string order. Each row holds the required,
    selected and completed credits of its category (the requirement, the
    credits of its enrolled items and those of its graded items), rounded
    to 3 decimals, and as remaining the rounding to 3 decimals of
    max(required - completed, 0), a value that is never negative (and
    stays so once rounded, rounding turning no such value negative). *)
Theorem credit_progress_rows_order_and_remaining
    (p : EnrollmentPlan) (reqs : list (str * float)) :
  NoDup (map fst reqs) ->
  Forall (listed (catalog p)) (items p) ->
  exists prog rows extra,
    credit_progress_by_category p reqs = Ok prog
    /\ credit_progress_rows p reqs = Ok rows
    /\ map row_category rows = map fst reqs ++ extra
    /\ StronglySorted (fun a b => ltb a b = true) extra
    /\ (forall k, In k extra <->
                  (exists i, In i (items p) /\ item_category (catalog p) i = k)
                  /\ ~ In k (map fst reqs))
    /\ Forall (fun r =>
                 exists q,
                   lookup (row_category r) prog = Some q
                   /\ q = round_progress (raw_progress p reqs (row_category r))
                   /\ row_required r = py_round (required q) 3
                   /\ row_selected r = py_round (selected q) 3
                   /\ row_completed r = py_round (completed q) 3
                   /\ row_remaining r
                      = py_round (py_max (required q - completed q) 0) 3
                   /\ (py_max (required q - completed q) 0 <? 0) = false
                   /\ ((forall x, (x <? 0) = false -> (py_round x 3 <? 0) = false) ->
                       (row_remaining r <? 0) = false))
              rows.
Proof.
  intros Hnd Hl.
  destruct (credit_progress_by_category_Ok _ _ Hnd Hl) as (prog & E & Hndp & Hk & Hr).
  set (novel := filter (fun k => negb (dict_has k reqs)) (map fst prog)).
  set (extra := sorted_by_key ltb (fun k : str => k) novel).
  assert (Hex : forall k, In k extra <-> In k novel).
  { intros k. split; apply Permutation_in; [|symmetry];
      apply sorted_by_key_perm. }
  assert (Hnov : forall k, In k novel <->
                 (exists i, In i (items p) /\ item_category (catalog p) i = k)
                 /\ ~ In k (map fst reqs)).
  { intros k. unfold novel. rewrite filter_In, negb_true_iff, dict_has_keys, Hk.
    tauto. }
  exists prog, (map (row_of prog) (map fst reqs ++ extra)), extra.
  split; [exact E|]. split; [|split; [|split; [|split]]].
  - unfold credit_progress_rows. rewrite E. simpl bind. fold novel.
    change (map snd (py_sorted ltb (map (fun k => (k, k)) novel))) with extra.
    apply mapM_Ok. intros k Hin. unfold dict_get, row_of.
    destruct (lookup k prog) as [q|] eqn:Eq; [reflexivity|].
    exfalso. apply lookup_None_keys in Eq. apply Eq. apply Hk.
    apply in_app_iff in Hin as [Hin | Hin]; [left; exact Hin|].
    right. apply Hex, Hnov in Hin. tauto.
  - rewrite map_map. simpl. apply map_id.
  - apply (sorted_strictly ltb str_ltb_total (fun k : str => k)).
    + apply (sorted_by_key_sorted ltb str_ltb_asym str_ltb_trans str_ltb_total).
    + rewrite map_id.
      apply (Permutation_NoDup (l := novel));
        [symmetry; apply sorted_by_key_perm|].
      unfold novel. apply NoDup_filter. exact Hndp.
  - intros k. rewrite Hex. apply Hnov.
  - apply Forall_forall. intros r Hr'.
    apply in_map_iff in Hr' as (k & <- & Hin). simpl.
    assert (Hq : exists q, lookup k prog = Some q).
    { apply lookup_Some_keys, Hk.
      apply in_app_iff in Hin as [Hin | Hin]; [left; exact Hin|].
      right. apply Hex, Hnov in Hin. tauto. }
    destruct Hq as [q Hq]. pose proof (Hr _ _ Hq) as Hraw.
    exists q. unfold row_of. rewrite Hq. simpl.
    repeat (split; [first [assumption | reflexivity]|]).
    split; [apply py_max_not_negative|].
    intros Hround. apply Hround, py_max_not_negative.
Qed.

(** *** Semester tags *)

Lemma COURSE_SEM_RE_Some (s r : str) :
  COURSE_SEM_RE s = Some r ->
  exists y c,
    s = y ++ [c] /\ re_season c = true /\ (y = [] \/ re_year y = true)
    /\ r = [c].
Proof.
  unfold COURSE_SEM_RE.
  destruct (split_last s) as [[y c]|] eqn:E; [|discriminate].
  apply split_last_Some in E.
  destruct (re_season c) eqn:Hc; [|discriminate].
  destruct y as [|d ds].
  - intros H; inversion H. exists [], c. auto.
  - cbn [andb]. destruct (re_year (d :: ds)) eqn:Hy; [|discriminate].
    intros H; inversion H. exists (d :: ds), c. auto.
Qed.

Lemma extract_season_Ok (s r : str) :
  extract_season s = Ok r ->
  exists y c,
    strip s = y ++ [c] /\ re_season c = true /\ (y = [] \/ re_year y = true)
    /\ r = [c].
Proof.
  unfold extract_season.
  destruct (COURSE_SEM_RE (strip s)) as [season|] eqn:E; [|discriminate].
  destruct (negb (mem season SEASONS)); [discriminate|].
  intros H; inversion H; subst season.
  apply COURSE_SEM_RE_Some in E. exact E.
Qed.

Lemma strip_season (c : codepoint) : re_season c = true -> strip [c] = [c].
Proof.
  intros H. apply re_season_not_space in H.
  unfold strip, rstrip. simpl. rewrite H. simpl. rewrite H. reflexivity.
Qed.

Lemma extract_season_alone (c : codepoint) :
  re_season c = true -> extract_season [c] = Ok [c].
Proof.
  intros H. unfold extract_season. rewrite (strip_season _ H).
  unfold COURSE_SEM_RE. change (split_last [c]) with (Some (@nil codepoint, c)).
  cbv beta iota. rewrite H. cbn [andb]. cbv beta iota.
  rewrite (mem_season _ H). reflexivity.
Qed.

(** X1. Whatever tag [extract_season] accepts, its result is the last
    character of the tag once stripped and one of the three seasons, and
    that season alone is again a tag with the same season. *)
Theorem extract_season_is_last_char (s r : str) :
  extract_season s = Ok r ->
  r = last_char (strip s)
  /\ mem r SEASONS = true
  /\ extract_season r = Ok r
  /\ extract_season (strip s) = Ok r.
Proof.
  intros H. pose proof H as H0.
  apply extract_season_Ok in H as (y & c & Hs & Hc & Hy & ->).
  split; [|split; [|split]].
  - unfold last_char. rewrite Hs, split_last_app. reflexivity.
  - apply mem_season; exact Hc.
  - apply extract_season_alone; exact Hc.
  - revert H0. unfold extract_season. rewrite strip_idem.
    destruct (COURSE_SEM_RE (strip s)); [|discriminate].
    destruct (negb (mem s0 SEASONS)); [discriminate|]. auto.
Qed.

(** X2. Among the tags [extract_season] accepts, [ensure_actual_semester]
    accepts exactly those that carry a year, and then
    [season_of_actual_semester] gives the season [extract_season] gives. *)
Theorem actual_semester_is_tag_with_year (s r : str) :
  extract_season s = Ok r ->
  (strip s <> r ->
   ensure_actual_semester s = Ok (strip s)
   /\ season_of_actual_semester s = Ok r)
  /\ (strip s = r ->
      ensure_actual_semester s
      = Raise (ValueError [Lit "实际学期必须形如 1秋/2春/3夏，当前："; Fstr r]))
  /\ (forall s', ensure_actual_semester s = Ok s' -> s' <> r).
Proof.
  intros H.
  apply extract_season_Ok in H as (y & c & Hs & Hc & Hy & ->).
  assert (Hact : ACTUAL_SEM_RE (strip s) = re_year y).
  { unfold ACTUAL_SEM_RE. rewrite Hs, split_last_app, Hc. reflexivity. }
  assert (Hne : strip s <> [c] -> re_year y = true).
  { intros Hn. destruct Hy as [-> | Hy]; [|exact Hy].
    exfalso; apply Hn; exact Hs. }
  assert (Heq : strip s = [c] -> re_year y = false).
  { intros He. rewrite Hs in He. destruct y as [|d [|e ds]]; [reflexivity| |];
      simpl in He; discriminate He. }
  split; [|split].
  - intros Hn. specialize (Hne Hn).
    assert (E : ensure_actual_semester s = Ok (strip s)).
    { unfold ensure_actual_semester. rewrite Hact, Hne. reflexivity. }
    split; [exact E|].
    unfold season_of_actual_semester. rewrite E. unfold bind.
    unfold last_char. rewrite Hs, split_last_app. reflexivity.
  - intros He. unfold ensure_actual_semester.
    rewrite Hact, (Heq He), He. reflexivity.
  - intros s' E He. subst s'.
    apply ensure_actual_semester_Ok in E as [E1 E2].
    rewrite <- E1 in Heq. rewrite E1, Hact, (Heq eq_refl) in E2. discriminate.
Qed.

(** *** The catalog as a dictionary *)

Lemma Catalog_init_loop_complete (cs : list Course) :
  forall acc : list (str * Course),
    NoDup (map course_id cs) ->
    (forall c, In c cs -> exists s, extract_season (semester c) = Ok s) ->
    (forall c, In c cs -> lookup (course_id c) acc = None) ->
    Catalog_init_loop cs acc = Ok {| by_id := acc ++ entries cs |}.
Proof.
  induction cs as [|c cs IH]; intros acc Hnd Hs Hacc.
  - simpl. rewrite app_nil_r. reflexivity.
  - simpl. rewrite (Hacc c (or_introl eq_refl)).
    destruct (Hs c (or_introl eq_refl)) as [s Es]. rewrite Es.
    unfold bind. inversion Hnd as [|x l Hni Hnd']; subst.
    rewrite IH.
    + rewrite <- app_assoc. reflexivity.
    + exact Hnd'.
    + intros c' Hc'. apply Hs. right; exact Hc'.
    + intros c' Hc'. rewrite lookup_app.
      rewrite (Hacc c' (or_intror Hc')). simpl.
      destruct (eqb (course_id c) (course_id c')) eqn:E; [|reflexivity].
      apply str_eqb_eq in E. exfalso. apply Hni. rewrite E.
      apply in_map; exact Hc'.
Qed.

Lemma lookup_Some_In {V : Type} (k : str) (v : V) (d : list (str * V)) :
  lookup k d = Some v -> In (k, v) d.
Proof.
  induction d as [|[k' v'] d IH]; simpl; [discriminate|].
  destruct (eqb k' k) eqn:E.
  - apply str_eqb_eq in E. intros H; inversion H; subst. left; reflexivity.
  - intros H; right; apply IH; exact H.
Qed.

(** X3. A catalog that [Catalog] built gives back what was put in:
    [all] is the list it was built from, in its order; [get] finds each of
    these courses under its identifier, finds nothing else, and raises the
    KeyError for every other identifier. *)
Theorem Catalog_get_after_init (cs : list Course) (cat : Catalog) :
  Catalog_init cs = Ok cat ->
  Catalog_all cat = cs
  /\ (forall c, In c cs -> Catalog_get cat (course_id c) = Ok c)
  /\ (forall cid c, Catalog_get cat cid = Ok c -> In c cs /\ course_id c = cid)
  /\ (forall cid, ~ In cid (map course_id cs) ->
        Catalog_get cat cid
        = Raise (KeyError [Lit "未找到课程编号："; Fstr cid])).
Proof.
  intros H. apply Catalog_init_Ok in H as (Hby & _ & Hnd).
  split; [|split; [|split]].
  - unfold Catalog_all. rewrite Hby. apply map_snd_entries.
  - intros c Hc. unfold Catalog_get. rewrite Hby.
    rewrite (lookup_entries _ _ Hnd Hc). reflexivity.
  - intros cid c. unfold Catalog_get. rewrite Hby.
    destruct (lookup cid (entries cs)) as [c'|] eqn:E; [|discriminate].
    intros H; inversion H; subst c'.
    apply lookup_Some_In in E. unfold entries in E.
    apply in_map_iff in E as (x & Hx & Hin). inversion Hx; subst. auto.
  - intros cid Hn. unfold Catalog_get. rewrite Hby.
    assert (E : lookup cid (entries cs) = None).
    { apply lookup_None_keys. unfold entries. rewrite map_map. simpl.
      exact Hn. }
    rewrite E. reflexivity.
Qed.

(** X4. [Catalog] accepts a list of courses exactly when no two of them
    share an identifier and every semester tag is one [extract_season]
    accepts; what it raises otherwise is a ValueError. *)
Theorem Catalog_init_accepts_iff (cs : list Course) :
  ((exists cat, Catalog_init cs = Ok cat) <->
   NoDup (map course_id cs)
   /\ forall c, In c cs -> exists s, extract_season (semester c) = Ok s)
  /\ forall e, Catalog_init cs = Raise e -> exists msg, e = ValueError msg.
Proof.
  split.
  - split.
    + intros [cat H]. apply Catalog_init_Ok in H as (_ & Hs & Hnd). auto.
    + intros [Hnd Hs]. eexists. unfold Catalog_init.
      apply Catalog_init_loop_complete; auto.
  - unfold Catalog_init. generalize (@nil (str * Course)).
    induction cs as [|c cs IH]; intros acc e; simpl; [discriminate|].
    destruct (lookup (course_id c) acc).
    + intros H; inversion H. eexists; reflexivity.
    + unfold extract_season at 1.
      destruct (COURSE_SEM_RE (strip (semester c))) as [season|].
      * destruct (negb (mem season SEASONS)); simpl.
        -- intros H; inversion H. eexists; reflexivity.
        -- apply IH.
      * simpl. intros H; inversion H. eexists; reflexivity.
Qed.

(** *** Courses offered in a season *)

Lemma season_of_Ok (c : Course) (s : str) :
  extract_season (semester c) = Ok s -> season_of c = s.
Proof. intros H. unfold season_of. rewrite H. reflexivity. Qed.

Lemma offered_loop_Ok (season : str) (cs : list Course) :
  (forall c, In c cs -> exists s, extract_season (semester c) = Ok s) ->
  forall req ele,
    offered_loop season cs req ele =
    Ok (req ++ filter (fun c => eqb (season_of c) season
                                && eqb (course_type c) (u "必修")) cs,
        ele ++ filter (fun c => eqb (season_of c) season
                                && negb (eqb (course_type c) (u "必修"))) cs).
Proof.
  induction cs as [|c cs IH]; intros Hs req ele.
  - simpl. rewrite !app_nil_r. reflexivity.
  - cbn [offered_loop filter].
    destruct (Hs c (or_introl eq_refl)) as [s Es].
    rewrite Es, (season_of_Ok _ _ Es). unfold bind.
    assert (Hs' : forall c', In c' cs ->
                    exists s, extract_season (semester c') = Ok s).
    { intros c' H'. apply Hs. right; exact H'. }
    destruct (eqb s season); cbn [negb andb].
    + destruct (eqb (course_type c) (u "必修")); cbn [negb];
        rewrite (IH Hs'), <- app_assoc; reflexivity.
    + apply (IH Hs').
Qed.

Lemma NoDup_semester_id (l : list Course) :
  NoDup (map course_id l) ->
  NoDup (map (fun x => (semester x, course_id x)) l).
Proof.
  intros H. apply (NoDup_map_inv snd). rewrite map_map. exact H.
Qed.

(** X5. [offered_in_by_type] raises the ValueError for a season that,
    stripped, is not one of the three. On a catalog that [Catalog] built
    it returns, for a season, the courses offered in that season: the
    required ones under the first key and all the others under the
    second, each list strictly ascending in (semester tag, identifier). *)
Theorem offered_in_by_type_lists (cs : list Course) (cat : Catalog)
    (season : str) :
  Catalog_init cs = Ok cat ->
  (mem (strip season) SEASONS = false ->
   offered_in_by_type cat season
   = Raise (ValueError [Lit "season 必须是 ['秋', '春', '夏'] 之一，当前：";
                        Fstr (strip season)]))
  /\ (mem (strip season) SEASONS = true ->
      exists req ele,
        offered_in_by_type cat season = Ok (req, ele)
        /\ (forall c, In c req <->
                      In c cs /\ season_of c = strip season
                      /\ course_type c = u "必修")
        /\ (forall c, In c ele <->
                      In c cs /\ season_of c = strip season
                      /\ course_type c <> u "必修")
        /\ StronglySorted
             (fun a b => pair_ltb (semester a, course_id a)
                                  (semester b, course_id b) = true) req
        /\ StronglySorted
             (fun a b => pair_ltb (semester a, course_id a)
                                  (semester b, course_id b) = true) ele).
Proof.
  intros H. apply Catalog_init_Ok in H as (Hby & Hs & Hnd).
  split.
  - intros Hm. unfold offered_in_by_type. cbv zeta. rewrite Hm. reflexivity.
  - intros Hm. unfold offered_in_by_type. cbv zeta. rewrite Hm. cbn [negb].
    rewrite Hby, map_snd_entries, (offered_loop_Ok _ _ Hs). unfold bind.
    cbn [app].
    eexists; eexists. split; [reflexivity|].
    set (key := fun x : Course => (semester x, course_id x)).
    split; [|split; [|split]].
    + intros c. split.
      * intros Hc.
        apply (Permutation_in _ (sorted_by_key_perm pair_ltb key _)) in Hc.
        apply filter_In in Hc as [Hc Hf].
        apply andb_true_iff in Hf as [H1 H2].
        apply str_eqb_eq in H1. apply str_eqb_eq in H2. auto.
      * intros (Hc & H1 & H2).
        apply (Permutation_in _
                 (Permutation_sym (sorted_by_key_perm pair_ltb key _))).
        apply filter_In. split; [exact Hc|].
        apply andb_true_iff. split; apply str_eqb_eq; assumption.
    + intros c. split.
      * intros Hc.
        apply (Permutation_in _ (sorted_by_key_perm pair_ltb key _)) in Hc.
        apply filter_In in Hc as [Hc Hf].
        apply andb_true_iff in Hf as [H1 H2].
        apply str_eqb_eq in H1. apply negb_true_iff, str_eqb_neq in H2. auto.
      * intros (Hc & H1 & H2).
        apply (Permutation_in _
                 (Permutation_sym (sorted_by_key_perm pair_ltb key _))).
        apply filter_In. split; [exact Hc|].
        apply andb_true_iff. split; [apply str_eqb_eq; assumption|].
        apply negb_true_iff, str_eqb_neq; assumption.
    + apply (sorted_strictly pair_ltb pair_ltb_total key).
      * apply (sorted_by_key_sorted pair_ltb pair_ltb_asym pair_ltb_trans
                 pair_ltb_total key).
      * apply (Permutation_NoDup
                 (Permutation_map key
                    (Permutation_sym (sorted_by_key_perm pair_ltb key _)))).
        apply NoDup_semester_id, NoDup_map_filter, Hnd.
    + apply (sorted_strictly pair_ltb pair_ltb_total key).
      * apply (sorted_by_key_sorted pair_ltb pair_ltb_asym pair_ltb_trans
                 pair_ltb_total key).
      * apply (Permutation_NoDup
                 (Permutation_map key
                    (Permutation_sym (sorted_by_key_perm pair_ltb key _)))).
        apply NoDup_semester_id, NoDup_map_filter, Hnd.
Qed.

(** *** Credits and enrollment under the mutations *)

Lemma mapM_app {A B : Type} (f : A -> result B) (l l' : list A) :
  mapM f (l ++ l') =
  (bs <- mapM f l ;; bs' <- mapM f l' ;; Ok (bs ++ bs')).
Proof.
  induction l as [|a l IH]; simpl.
  - destruct (mapM f l'); reflexivity.
  - destruct (f a); simpl; [|reflexivity]. rewrite IH.
    destruct (mapM f l); simpl; [|reflexivity].
    destruct (mapM f l'); reflexivity.
Qed.

Lemma mapM_one {A B : Type} (f : A -> result B) (x : A) :
  mapM f [x] = (b <- f x ;; Ok [b]).
Proof. simpl. destruct (f x); reflexivity. Qed.

Lemma py_sum_app_one (l : list float) (x : float) :
  py_sum (l ++ [x]) = py_sum l + x.
Proof. unfold py_sum. rewrite fold_left_app. reflexivity. Qed.

Lemma semester_credits_stripped (p : EnrollmentPlan) (sem sem' : str) :
  ensure_actual_semester sem = Ok sem' ->
  semester_credits p sem = semester_credits p sem'.
Proof.
  intros H. unfold semester_credits.
  rewrite (ensure_actual_semester_idem _ _ H), H. reflexivity.
Qed.

Lemma semester_credits_valid (p : EnrollmentPlan) (sem' : str) :
  ensure_actual_semester sem' = Ok sem' ->
  semester_credits p sem' =
  (cs <- mapM (fun i => c <- Catalog_get (catalog p) (item_course_id i) ;;
                        Ok (credits c))
              (filter (fun i => eqb (actual_semester i) sem') (items p)) ;;
   Ok (py_sum cs)).
Proof. intros H. unfold semester_credits. rewrite H. reflexivity. Qed.

Lemma elective_terms_app (cat : Catalog) (l l' : list PlanItem) :
  elective_terms cat (l ++ l') =
  (xs <- elective_terms cat l ;; ys <- elective_terms cat l' ;; Ok (xs ++ ys)).
Proof.
  induction l as [|i l IH]; simpl.
  - destruct (elective_terms cat l'); reflexivity.
  - destruct (Catalog_get cat (item_course_id i)) as [c|e]; simpl;
      [|reflexivity].
    destruct (eqb (course_type c) (u "选修")); [|exact IH].
    rewrite IH. destruct (elective_terms cat l); simpl; [|reflexivity].
    destruct (elective_terms cat l'); reflexivity.
Qed.

Lemma add_course_credits
    (p p' : EnrollmentPlan) (cid sem : str) (a : unit) :
  add_course cid sem p = Returned a p' ->
  exists c current,
    Catalog_get (catalog p) cid = Ok c
    /\ semester_credits p sem = Ok current
    /\ semester_credits p' sem = Ok (current + credits c)
    /\ (term_credit_limit p' <? current + credits c) = false
    /\ (forall other other',
          ensure_actual_semester other = Ok other' -> other' <> strip sem ->
          semester_credits p' other = semester_credits p other)
    /\ (forall t, total_credits p = Ok t ->
                  total_credits p' = Ok (t + credits c))
    /\ (forall e, elective_credits p = Ok e ->
                  elective_credits p' =
                  Ok (if eqb (course_type c) (u "选修")
                      then e + credits c else e)).
Proof.
  intros H. pose proof (add_course_inv p cid sem) as Hinv.
  rewrite H in Hinv.
  destruct Hinv as (sem' & c & current & Hr & Hcap & ->).
  destruct Hr as (Hens & Hget & Hhas & Hsea & Hcur).
  pose proof (ensure_actual_semester_Ok _ _ Hens) as [Hstrip _].
  exists c, current.
  split; [exact Hget|].
  split; [rewrite (semester_credits_stripped _ _ _ Hens); exact Hcur|].
  split; [|split; [exact Hcap|split; [|split]]].
  - rewrite (semester_credits_stripped _ _ _ Hens).
    revert Hcur.
    rewrite !(semester_credits_valid _ _ (ensure_actual_semester_idem _ _ Hens)).
    cbn [items catalog with_items].
    rewrite filter_app. cbn [filter new_item actual_semester].
    rewrite str_eqb_refl, mapM_app.
    destruct (mapM _ (filter _ (items p))) as [cs|e]; [|discriminate].
    intros Hc; inversion Hc; subst current.
    rewrite mapM_one. unfold new_item at 1. cbn [item_course_id].
    rewrite Hget. unfold bind.
    rewrite py_sum_app_one. reflexivity.
  - intros other other' Ho Hne.
    rewrite !(semester_credits_stripped _ _ _ Ho).
    rewrite !(semester_credits_valid _ _ (ensure_actual_semester_idem _ _ Ho)).
    cbn [items catalog with_items].
    rewrite filter_app. cbn [filter new_item actual_semester].
    assert (E : eqb sem' other' = false).
    { apply str_eqb_neq. intros E. apply Hne. rewrite <- Hstrip. auto. }
    rewrite E, app_nil_r. reflexivity.
  - intros t. unfold total_credits. cbn [items catalog with_items].
    rewrite mapM_app.
    destruct (mapM _ (items p)) as [cs|e]; [|discriminate].
    intros Hc; inversion Hc; subst t.
    rewrite mapM_one. unfold new_item at 1. cbn [item_course_id].
    rewrite Hget. unfold bind.
    rewrite py_sum_app_one. reflexivity.
  - intros e. unfold elective_credits. cbn [items catalog with_items].
    rewrite elective_terms_app.
    destruct (elective_terms (catalog p) (items p)) as [cs|e0]; [|discriminate].
    intros Hc; inversion Hc; subst e.
    cbn [elective_terms new_item item_course_id]. rewrite Hget. unfold bind.
    destruct (eqb (course_type c) (u "选修")).
    + rewrite py_sum_app_one. reflexivity.
    + rewrite app_nil_r. reflexivity.
Qed.

(** X6. A successful [add_course] adds the credits of the course to the
    total of its term, which stays within the term limit, to the total of
    the plan, and to the elective credits when the course is an elective;
    the totals of the other terms stay as they were. *)
Theorem add_course_adds_credits
    (p p' : EnrollmentPlan) (cid sem : str) (a : unit) :
  add_course cid sem p = Returned a p' ->
  exists c current,
    Catalog_get (catalog p) cid = Ok c
    /\ semester_credits p sem = Ok current
    /\ semester_credits p' sem = Ok (current + credits c)
    /\ (term_credit_limit p' <? current + credits c) = false
    /\ (forall other other',
          ensure_actual_semester other = Ok other' -> other' <> strip sem ->
          semester_credits p' other = semester_credits p other)
    /\ (forall t, total_credits p = Ok t ->
                  total_credits p' = Ok (t + credits c))
    /\ (forall e, elective_credits p = Ok e ->
                  elective_credits p' =
                  Ok (if eqb (course_type c) (u "选修")
                      then e + credits c else e)).
Proof. apply add_course_credits. Qed.

(** X7. Once a course is enrolled by [add_course], a second [add_course]
    for it is rejected as a duplicate in whatever valid semester it asks
    for, and leaves the plan as it was. *)
Theorem add_course_twice_is_rejected
    (p p1 : EnrollmentPlan) (cid sem : str) (a : unit) :
  add_course cid sem p = Returned a p1 ->
  exists c,
    Catalog_get (catalog p1) cid = Ok c
    /\ forall sem2 sem2',
         ensure_actual_semester sem2 = Ok sem2' ->
         add_course cid sem2 p1
         = Raised (ValueError [Lit "重复选课："; Fstr (course_id c);
                               Lit " "; Fstr (name c)]) p1.
Proof.
  intros H. pose proof (add_course_inv p cid sem) as Hinv.
  rewrite H in Hinv.
  destruct Hinv as (sem' & c & current & Hr & _ & ->).
  destruct Hr as (_ & Hget & _).
  exists c. split; [exact Hget|].
  intros sem2 sem2' H2.
  unfold add_course. rewrite !bindM_apply. unfold lift at 1. rewrite H2.
  rewrite bindM_apply. unfold get_self at 1. rewrite bindM_apply.
  unfold lift at 1. cbn [catalog with_items]. rewrite Hget.
  rewrite has_course_app_new, str_eqb_refl, orb_true_r. reflexivity.
Qed.

(** X8. Where the semester is valid, the course is in the catalog and not
    yet enrolled, [add_course] raises the season mismatch as soon as the
    season of the course differs from that of the semester, whatever the
    years; so a course it enrolls is always placed in a semester of the
    season it is offered in. *)
Theorem add_course_season_rule
    (p : EnrollmentPlan) (cid sem sem' s : str) (c : Course) :
  ensure_actual_semester sem = Ok sem' ->
  Catalog_get (catalog p) cid = Ok c ->
  has_course p cid = false ->
  extract_season (semester c) = Ok s ->
  (s <> last_char sem' ->
   add_course cid sem p
   = Raised (ValueError
               [Lit "季节不匹配：目标 "; Fstr sem'; Lit "（";
                Fstr (last_char sem'); Lit "）不能选 ";
                Fstr (course_id c); Lit " "; Fstr (name c);
                Lit "（课程季节="; Fstr s;
                Lit "；方案学期="; Fstr (semester c); Lit "）"]) p)
  /\ (forall a p', add_course cid sem p = Returned a p' ->
        s = last_char sem'
        /\ season_of_actual_semester sem = Ok s
        /\ In (new_item cid sem') (items p')).
Proof.
  intros Hens Hget Hhas Hs.
  assert (Hsoa : season_of_actual_semester sem' = Ok (last_char sem')).
  { unfold season_of_actual_semester.
    rewrite (ensure_actual_semester_idem _ _ Hens). reflexivity. }
  split.
  - intros Hne. unfold add_course. rewrite !bindM_apply.
    unfold lift at 1. rewrite Hens.
    rewrite bindM_apply. unfold get_self at 1. rewrite bindM_apply.
    unfold lift at 1. rewrite Hget, Hhas.
    rewrite bindM_apply. unfold lift at 1. rewrite Hs.
    rewrite bindM_apply. unfold lift at 1. rewrite Hsoa.
    apply str_eqb_neq in Hne. rewrite Hne. reflexivity.
  - intros a p' H. pose proof (add_course_inv p cid sem) as Hinv.
    rewrite H in Hinv.
    destruct Hinv as (sem0 & c0 & current & Hr & _ & ->).
    destruct Hr as (Hens0 & Hget0 & _ & Hsea & _).
    rewrite Hens in Hens0. inversion Hens0; subst sem0.
    rewrite Hget in Hget0. inversion Hget0; subst c0.
    rewrite Hs in Hsea. inversion Hsea as [E].
    split; [reflexivity|]. split.
    + unfold season_of_actual_semester. rewrite Hens. unfold bind.
      rewrite <- E. reflexivity.
    + cbn [items with_items]. apply in_or_app. right. left. reflexivity.
Qed.

Lemma set_first_ids (cid : str) (v : option float) (l : list PlanItem) :
  map item_course_id (set_first cid v l) = map item_course_id l
  /\ map actual_semester (set_first cid v l) = map actual_semester l.
Proof.
  induction l as [|i l [IH1 IH2]]; simpl; [auto|].
  destruct (eqb (item_course_id i) cid); simpl; [auto|].
  rewrite IH1, IH2. auto.
Qed.

Lemma mapM_filter_set_first {B : Type} (f : PlanItem -> result B)
    (g : PlanItem -> bool) (cid : str) (v : option float) (l : list PlanItem) :
  (forall i, f (with_gpa v i) = f i) ->
  (forall i, g (with_gpa v i) = g i) ->
  mapM f (filter g (set_first cid v l)) = mapM f (filter g l).
Proof.
  intros Hf Hg. induction l as [|i l IH]; simpl; [reflexivity|].
  destruct (eqb (item_course_id i) cid); simpl.
  - rewrite Hg. destruct (g i); simpl; [rewrite Hf|]; reflexivity.
  - destruct (g i); simpl; rewrite IH; reflexivity.
Qed.

Lemma mapM_set_first {B : Type} (f : PlanItem -> result B)
    (cid : str) (v : option float) (l : list PlanItem) :
  (forall i, f (with_gpa v i) = f i) ->
  mapM f (set_first cid v l) = mapM f l.
Proof.
  intros Hf. induction l as [|i l IH]; simpl; [reflexivity|].
  destruct (eqb (item_course_id i) cid); simpl.
  - rewrite Hf. reflexivity.
  - rewrite IH. reflexivity.
Qed.

Lemma existsb_set_first (cid c : str) (v : option float) (l : list PlanItem) :
  existsb (fun i => eqb (item_course_id i) c) (set_first cid v l)
  = existsb (fun i => eqb (item_course_id i) c) l.
Proof.
  induction l as [|i l IH]; simpl; [reflexivity|].
  destruct (eqb (item_course_id i) cid); simpl; [reflexivity|].
  rewrite IH. reflexivity.
Qed.

Lemma elective_terms_set_first (cat : Catalog) (cid : str) (v : option float)
    (l : list PlanItem) :
  elective_terms cat (set_first cid v l) = elective_terms cat l.
Proof.
  induction l as [|i l IH]; simpl; [reflexivity|].
  destruct (eqb (item_course_id i) cid); simpl; [reflexivity|].
  rewrite IH. reflexivity.
Qed.

Lemma set_gpa_enrollment (p : EnrollmentPlan) (cid : str) (g : gpa_arg) :
  let p' := outcome_plan (set_gpa cid g p) in
  map item_course_id (items p') = map item_course_id (items p)
  /\ map actual_semester (items p') = map actual_semester (items p)
  /\ (forall c, has_course p' c = has_course p c)
  /\ total_credits p' = total_credits p
  /\ (forall sem, semester_credits p' sem = semester_credits p sem)
  /\ elective_credits p' = elective_credits p
  /\ required_missing p' = required_missing p.
Proof.
  rewrite set_gpa_unfold.
  destruct (validate_gpa g) as [v|e]; cbn [outcome_plan];
    [|repeat split; reflexivity].
  destruct (has_course p cid); cbn [outcome_plan];
    [|repeat split; reflexivity].
  cbv zeta. destruct (set_first_ids cid v (items p)) as [E1 E2].
  refine (conj E1 (conj E2 (conj _ (conj _ (conj _ (conj _ _)))))).
  - intros c. unfold has_course. cbn [items with_items].
    apply existsb_set_first.
  - unfold total_credits. cbn [items catalog with_items].
    rewrite mapM_set_first; auto.
  - intros sem. unfold semester_credits.
    destruct (ensure_actual_semester sem) as [sem'|e]; [|reflexivity].
    unfold bind at 1 3. cbn [items catalog with_items].
    rewrite mapM_filter_set_first; auto.
  - unfold elective_credits. cbn [items catalog with_items].
    rewrite elective_terms_set_first. reflexivity.
  - unfold required_missing. cbn [items catalog with_items].
    rewrite E1. reflexivity.
Qed.

(** X9. [set_gpa] changes no enrollment, whether it succeeds or raises:
    the identifiers and semesters of the items, in their order, the
    credit totals of the plan and of every term, the elective credits
    and the missing required courses are what they were. *)
Theorem set_gpa_keeps_enrollment (p : EnrollmentPlan) (cid : str) (g : gpa_arg) :
  let p' := outcome_plan (set_gpa cid g p) in
  map item_course_id (items p') = map item_course_id (items p)
  /\ map actual_semester (items p') = map actual_semester (items p)
  /\ (forall c, has_course p' c = has_course p c)
  /\ total_credits p' = total_credits p
  /\ (forall sem, semester_credits p' sem = semester_credits p sem)
  /\ elective_credits p' = elective_credits p
  /\ required_missing p' = required_missing p.
Proof. apply set_gpa_enrollment. Qed.

(** *** What the mutations keep *)

Lemma has_course_In (p : EnrollmentPlan) (cid : str) :
  has_course p cid = true <-> In cid (map item_course_id (items p)).
Proof.
  unfold has_course. rewrite existsb_exists. split.
  - intros (i & Hi & E). apply str_eqb_eq in E. subst cid.
    apply in_map; exact Hi.
  - intros H. apply in_map_iff in H as (i & E & Hi).
    exists i. split; [exact Hi|]. apply str_eqb_eq; exact E.
Qed.

Lemma add_course_consistent (p : EnrollmentPlan) (cid sem : str) :
  consistent p -> consistent (outcome_plan (add_course cid sem p)).
Proof.
  intros [Hok Hnd]. pose proof (add_course_inv p cid sem) as H.
  destruct (add_course cid sem p) as [a p'|e p']; cbn [outcome_plan].
  - destruct H as (sem' & c & cur & Hr & _ & ->).
    destruct Hr as (Hens & Hget & Hhas & _).
    apply ensure_actual_semester_Ok in Hens as [_ Hact].
    split; cbn [items catalog with_items].
    + apply Forall_app. split; [exact Hok|].
      constructor; [|constructor].
      split; [exists c; exact Hget|].
      split; [exact Hact|]. exists GpaNone. reflexivity.
    + rewrite map_app. cbn [map new_item item_course_id].
      apply (Permutation_NoDup (Permutation_cons_append _ cid)).
      constructor; [|exact Hnd].
      intros Hin. apply has_course_In in Hin. congruence.
  - destruct H as [-> _]. split; assumption.
Qed.

Lemma remove_course_consistent (p : EnrollmentPlan) (cid : str) :
  consistent p -> consistent (outcome_plan (remove_course cid p)).
Proof.
  intros [Hok Hnd]. rewrite remove_course_unfold.
  assert (H : consistent (with_items p (without cid (items p)))).
  { split; cbn [items catalog with_items]; unfold without.
    - apply Forall_filter_keep; exact Hok.
    - apply NoDup_map_filter; exact Hnd. }
  destruct (_ =? _)%nat; exact H.
Qed.

Lemma set_gpa_consistent (p : EnrollmentPlan) (cid : str) (g : gpa_arg) :
  consistent p -> consistent (outcome_plan (set_gpa cid g p)).
Proof.
  intros [Hok Hnd]. rewrite set_gpa_unfold.
  destruct (validate_gpa g) as [v|e] eqn:Hv; cbn [outcome_plan];
    [|split; assumption].
  destruct (has_course p cid); cbn [outcome_plan]; [|split; assumption].
  split; cbn [items catalog with_items].
  - clear Hnd. induction Hok as [|i l Hi Hl IH]; simpl; [constructor|].
    destruct (eqb (item_course_id i) cid).
    + constructor; [|exact Hl].
      destruct Hi as (H1 & H2 & _).
      split; [exact H1|]. split; [exact H2|]. exists g. exact Hv.
    + constructor; assumption.
  - rewrite (proj1 (set_first_ids cid v (items p))). exact Hnd.
Qed.

Lemma for_each_keeps {A : Type} (Inv : EnrollmentPlan -> Prop)
    (body : A -> M unit) (l : list A) :
  (forall x p, Inv p -> Inv (outcome_plan (body x p))) ->
  forall p, Inv p -> Inv (outcome_plan (for_each l body p)).
Proof.
  intros Hb. induction l as [|x l IH]; intros p Hp; simpl; [exact Hp|].
  unfold bindM. specialize (Hb x p Hp).
  destruct (body x p) as [a p1|e p1]; simpl in *; [|exact Hb].
  apply IH; exact Hb.
Qed.

Lemma auto_add_all_required_keeps (Inv : EnrollmentPlan -> Prop) :
  (forall p cid sem, Inv p -> Inv (outcome_plan (add_course cid sem p))) ->
  forall p, Inv p -> Inv (outcome_plan (auto_add_all_required p)).
Proof.
  intros Hadd p Hp.
  unfold auto_add_all_required.
  unfold bindM at 1. unfold get_self at 1. unfold bindM at 1.
  unfold lift at 1.
  destruct (mapM _ _) as [keyed|e]; [|exact Hp].
  apply for_each_keeps; [|exact Hp]. intros c q Hq.
  unfold bindM at 1. unfold get_self at 1.
  destruct (has_course q (course_id c)); [exact Hq|].
  unfold bindM at 1.
  destruct (ACTUAL_SEM_RE (semester c)).
  - unfold ret at 1. apply Hadd; exact Hq.
  - unfold bindM at 1. unfold lift at 1.
    destruct (extract_season (semester c)); [|exact Hq].
    unfold ret at 1. apply Hadd; exact Hq.
Qed.

(** X10. The mutations keep a plan consistent, whether they return or
    raise: after [add_course], [remove_course], [set_gpa] or
    [auto_add_all_required] on a plan in which every item has its course
    in the catalog, an actual semester and a validated GPA, and in which no
    course is enrolled twice, the plan is again such a plan. *)
Theorem mutations_keep_plan_consistent (p : EnrollmentPlan) :
  consistent p ->
  (forall o, consistent (outcome_plan (run_op o p)))
  /\ consistent (outcome_plan (auto_add_all_required p)).
Proof.
  intros Hp. split.
  - intros [cid sem|cid|cid g]; cbn [run_op].
    + apply add_course_consistent; exact Hp.
    + apply remove_course_consistent; exact Hp.
    + apply set_gpa_consistent; exact Hp.
  - apply (auto_add_all_required_keeps consistent); [|exact Hp].
    intros q cid sem Hq. apply add_course_consistent; exact Hq.
Qed.

(** *** Reading and writing the configuration *)



(** *** Queries on a well-formed plan *)

Lemma item_ok_listed (cat : Catalog) (l : list PlanItem) :
  Forall (item_ok cat) l -> Forall (listed cat) l.
Proof. apply Forall_impl. intros i H. apply H. Qed.

Lemma item_ok_actual (cat : Catalog) (l : list PlanItem) :
  Forall (item_ok cat) l ->
  Forall (fun i => ACTUAL_SEM_RE (actual_semester i) = true) l.
Proof. apply Forall_impl. intros i H. apply H. Qed.

Lemma mapM_succeeds {A B : Type} (f : A -> result B) (l : list A) :
  Forall (fun x => succeeds (f x)) l -> succeeds (mapM f l).
Proof.
  induction 1 as [|x l [b Hx] _ [bs IH]]; simpl.
  - eexists; reflexivity.
  - rewrite Hx, IH. eexists; reflexivity.
Qed.

Lemma credits_succeed (cat : Catalog) (l : list PlanItem) :
  Forall (listed cat) l ->
  succeeds (mapM (fun i => c <- Catalog_get cat (item_course_id i) ;;
                           Ok (credits c)) l).
Proof.
  intros H. apply mapM_succeeds. revert H. apply Forall_impl.
  intros i [c Hc]. rewrite Hc. eexists; reflexivity.
Qed.

Lemma elective_terms_succeed (cat : Catalog) (l : list PlanItem) :
  Forall (listed cat) l -> succeeds (elective_terms cat l).
Proof.
  induction 1 as [|i l [c Hc] _ [xs IH]]; simpl.
  - eexists; reflexivity.
  - rewrite Hc. unfold bind at 1.
    destruct (eqb (course_type c) (u "选修")).
    + rewrite IH. eexists; reflexivity.
    + rewrite IH. eexists; reflexivity.
Qed.

Lemma aggregate_succeeds (cat : Catalog) (l : list PlanItem) :
  Forall (listed cat) l ->
  succeeds
    match l with
    | [] => Ok (None, O)
    | _ =>
        let missing := count_missing l in
        if (0 <? missing)%nat then Ok (None, missing)
        else
          t <- weighted_totals cat l 0 0 ;;
          let (total_w, total_c) := t in
          if total_c <=? 0 then Ok (None, O)
          else Ok (Some (py_round (total_w / total_c) 3), O)
    end.
Proof.
  intros Hl. destruct l as [|i l]; [eexists; reflexivity|].
  cbv zeta. destruct (0 <? count_missing (i :: l))%nat eqn:E;
    [eexists; reflexivity|].
  apply Nat.ltb_ge in E.
  assert (E0 : count_missing (i :: l) = O) by lia.
  rewrite (weighted_totals_Ok _ _ Hl (count_missing_zero _ E0)).
  unfold bind. destruct (_ <=? _); eexists; reflexivity.
Qed.

Lemma bucket_append_Forall (P : PlanItem -> Prop) (k : Z) (v : PlanItem)
    (B : list (Z * list PlanItem)) :
  P v -> Forall (fun kv => Forall P (snd kv)) B ->
  Forall (fun kv => Forall P (snd kv)) (bucket_append k v B).
Proof.
  intros Hv. induction 1 as [|[k' vs] B Hk HB IH]; simpl.
  - repeat constructor; exact Hv.
  - destruct (k' =? k)%Z.
    + constructor; [|exact HB]. simpl. apply Forall_app. split; [exact Hk|].
      constructor; [exact Hv|constructor].
    + constructor; assumption.
Qed.

Lemma buckets_Forall (P : PlanItem -> Prop) (l : list PlanItem) :
  Forall P l ->
  forall B,
    Forall (fun kv => Forall P (snd kv)) B ->
    Forall (fun kv => Forall P (snd kv))
           (fold_left (fun b it => bucket_append (year_of it) it b) l B).
Proof.
  induction 1 as [|i l Hi _ IH]; intros B HB; simpl; [exact HB|].
  apply IH. apply bucket_append_Forall; assumption.
Qed.

Lemma grouped_loop_succeeds (cat : Catalog) (l : list PlanItem) :
  Forall (listed cat) l ->
  forall out, succeeds (grouped_loop cat l out).
Proof.
  induction 1 as [|i l [c Hc] _ IH]; intros out; simpl.
  - eexists; reflexivity.
  - rewrite Hc. unfold bind. apply IH.
Qed.

(** X12. On a plan whose items are well formed, as [load_from_config] and
    the mutations leave them, the credit totals, the elective credits,
    [validate], the overall and major GPA and [grouped] return a value,
    and so do the queries of one semester for every semester
    [ensure_actual_semester] accepts; for another semester they raise
    what [ensure_actual_semester] raises. [yearly_gpa] returns a value
    exactly when no item has a year of more than 4300 digits, and raises
    a ValueError otherwise. *)
Theorem queries_on_well_formed_plan (p : EnrollmentPlan) :
  Forall (item_ok (catalog p)) (items p) ->
  succeeds (total_credits p)
  /\ succeeds (elective_credits p)
  /\ succeeds (validate p)
  /\ succeeds (overall_gpa p)
  /\ (forall mc, succeeds (major_gpa p mc))
  /\ ((succeeds (yearly_gpa p) <->
       Forall (fun i => (List.length (removelast (actual_semester i))
                         <= 4300)%nat) (items p))
      /\ forall e, yearly_gpa p = Raise e -> exists msg, e = ValueError msg)
  /\ succeeds (grouped p)
  /\ (forall sem sem',
        ensure_actual_semester sem = Ok sem' ->
        succeeds (semester_credits p sem)
        /\ succeeds (semester_gpa p sem)
        /\ succeeds (courses_in_semester p sem))
  /\ (forall sem e,
        ensure_actual_semester sem = Raise e ->
        semester_credits p sem = Raise e
        /\ semester_gpa p sem = Raise e
        /\ courses_in_semester p sem = Raise e).
Proof.
  intros Hok.
  pose proof (item_ok_listed _ _ Hok) as Hl.
  pose proof (item_ok_actual _ _ Hok) as Ha.
  assert (Hel : succeeds (elective_credits p)).
  { unfold elective_credits.
    destruct (elective_terms_succeed _ _ Hl) as [xs E]. rewrite E.
    eexists; reflexivity. }
  refine (conj _ (conj Hel (conj _ (conj _ (conj _ (conj _ (conj _
            (conj _ _)))))))).
  - unfold total_credits. destruct (credits_succeed _ _ Hl) as [cs E].
    rewrite E. eexists; reflexivity.
  - destruct Hel as [e E]. unfold validate. rewrite E. unfold bind.
    destruct (e <? _); eexists; reflexivity.
  - unfold overall_gpa. apply (aggregate_succeeds _ _ Hl).
  - intros mc. unfold major_gpa. cbv zeta.
    rewrite (major_items_loop_Ok _ _ _ Hl). unfold bind. cbn [app].
    apply aggregate_succeeds. apply Forall_filter_keep; exact Hl.
  - assert (Hm : forall B, yearly_buckets (items p) [] = Ok B ->
                            succeeds (yearly_gpa p)).
    { intros B0 HB0. unfold yearly_gpa. rewrite HB0. unfold bind.
      apply yearly_buckets_inv in HB0 as [-> _].
      apply mapM_succeeds.
      assert (HB : Forall (fun kv : Z * list PlanItem =>
                             Forall (listed (catalog p)) (snd kv))
                     (py_sorted Z.ltb
                        (fold_left
                           (fun b it => bucket_append (year_of it) it b)
                           (items p) []))).
      { apply Forall_forall. intros kv Hkv.
        apply (Permutation_in _ (py_sorted_perm Z.ltb _)) in Hkv.
        pose proof (buckets_Forall _ _ Hl [] (Forall_nil _)) as HF.
        rewrite Forall_forall in HF. apply HF; exact Hkv. }
      revert HB. apply Forall_impl. intros [y vs] Hvs. cbn [snd] in Hvs.
      destruct (aggregate_succeeds _ _ Hvs) as [r E].
      destruct vs as [|i vs]; [eexists; reflexivity|].
      cbv zeta in E |- *.
      destruct (0 <? count_missing (i :: vs))%nat; [eexists; reflexivity|].
      destruct (weighted_totals (catalog p) (i :: vs) 0 0) as [[w c]|e];
        [|discriminate].
      unfold bind. destruct (c <=? 0); eexists; reflexivity. }
    rewrite Forall_forall in Ha.
    split; [split|].
    + intros [ys Hys].
      destruct (yearly_buckets (items p) []) as [B|e] eqn:HB;
        [|unfold yearly_gpa in Hys; rewrite HB in Hys; discriminate Hys].
      apply yearly_buckets_inv in HB as [_ Hy].
      rewrite Forall_forall in Hy. apply Forall_forall. intros i Hi.
      apply (py_int_Ok_length _ _ (Hy i Hi)).
      apply (actual_year_digits _ (Ha i Hi)).
    + intros Hlen. rewrite Forall_forall in Hlen.
      apply (Hm _ (yearly_buckets_Ok (items p)
                     (proj2 (Forall_forall _ _)
                        (fun i Hi => conj (Ha i Hi) (Hlen i Hi))) [])).
    + intros e He.
      destruct (yearly_buckets (items p) []) as [B|e'] eqn:HB.
      * destruct (Hm _ eq_refl) as [ys Hys]. rewrite Hys in He.
        discriminate He.
      * unfold yearly_gpa in He. rewrite HB in He. simpl in He.
        inversion He; subst e'.
        apply yearly_buckets_Raise in HB as (i & Hi & Ei).
        destruct (Nat.le_gt_cases
                    (List.length (removelast (actual_semester i))) 4300)
          as [Hle|Hgt].
        -- rewrite (py_int_year i (conj (Ha i Hi) Hle)) in Ei.
           discriminate Ei.
        -- destruct (py_int_long_year i (Ha i Hi) Hgt) as [msg Em].
           rewrite Em in Ei. inversion Ei. exists msg; reflexivity.
  - unfold grouped. cbv zeta.
    destruct (grouped_loop_succeeds _ _ Hl
                (map (fun s => (s, [])) PLAN_SEMESTERS)) as [out E].
    rewrite E. eexists; reflexivity.
  - intros sem sem' Hs.
    assert (Hf : Forall (listed (catalog p))
                   (filter (fun i => eqb (actual_semester i) sem') (items p)))
      by (apply Forall_filter_keep; exact Hl).
    split; [|split].
    + unfold semester_credits. rewrite Hs. unfold bind at 1.
      destruct (credits_succeed _ _ Hf) as [cs E]. rewrite E.
      eexists; reflexivity.
    + unfold semester_gpa. rewrite Hs. unfold bind at 1. cbv zeta.
      apply (aggregate_succeeds _ _ Hf).
    + unfold courses_in_semester. rewrite Hs. unfold bind at 1.
      assert (Hm : succeeds
                     (mapM (fun i => Catalog_get (catalog p) (item_course_id i))
                        (filter (fun i => eqb (actual_semester i) sem')
                           (items p)))).
      { apply mapM_succeeds. revert Hf. apply Forall_impl.
        intros i Hi. exact Hi. }
      destruct Hm as [cs E]. rewrite E. eexists; reflexivity.
  - intros sem e Hs. unfold semester_credits, semester_gpa, courses_in_semester.
    rewrite Hs. auto.
Qed.

Lemma Catalog_init_all (cs : list Course) (cat : Catalog) :
  Catalog_init cs = Ok cat ->
  Catalog_all cat = cs /\ Catalog_init (Catalog_all cat) = Ok cat.
Proof.
  intros H. pose proof (Catalog_init_Ok _ _ H) as (Hby & _ & _).
  assert (E : Catalog_all cat = cs).
  { unfold Catalog_all. rewrite Hby. apply map_snd_entries. }
  rewrite E. auto.
Qed.

Lemma load_items_saved (cat : Catalog) (l : list PlanItem) :
  Forall (reloadable cat) l ->
  forall acc, load_items cat (map raw_of_item l) acc = Ok (acc ++ l).
Proof.
  induction 1 as [|i l (Hc & Hs & Hg) _ IH]; intros acc; simpl.
  - rewrite app_nil_r. reflexivity.
  - destruct Hc as [c Hc]. cbn [raw_of_item raw_course_id raw_actual_semester].
    rewrite Hs. unfold bind at 1.
    change (match gpa i with
            | Some g => GpaValue g
            | None => GpaNone
            end) with (raw_gpa (raw_of_item i)).
    rewrite Hg. unfold bind at 1. rewrite Hc. unfold bind at 1.
    rewrite IH, <- app_assoc. destruct i; reflexivity.
Qed.

(** X13. Saving and loading again gives back the catalog and the plan:
    for a plan over a catalog that [Catalog] built, with items that
    [load_from_config] accepts unchanged, [load_from_config] of the
    document [save_to_config] writes returns this catalog and this plan,
    with the order of courses and items, the semesters, the GPAs and the
    two scalars as they were. *)
Theorem save_then_load_round_trip (cs : list Course) (p : EnrollmentPlan) :
  Catalog_init cs = Ok (catalog p) ->
  Forall (reloadable (catalog p)) (items p) ->
  load_from_config (save_to_config (catalog p) p) = Ok (catalog p, p).
Proof.
  intros Hc Hl.
  destruct (Catalog_init_all _ _ Hc) as [Hall Hinit].
  unfold load_from_config, save_to_config.
  cbn [doc_courses doc_term_credit_limit doc_elective_credit_requirement
       doc_items].
  rewrite Hinit. unfold bind at 1.
  cbn [items EnrollmentPlan_init].
  rewrite (load_items_saved _ _ Hl). unfold bind. cbn [app].
  destruct p; reflexivity.
Qed.

(** *** Missing required courses and [validate] *)

Lemma mem_planned (cid : str) (l : list PlanItem) :
  mem cid (map item_course_id l)
  = existsb (fun i => eqb (item_course_id i) cid) l.
Proof.
  unfold mem. induction l as [|i l IH]; simpl; [reflexivity|].
  rewrite IH, (str_eqb_sym cid). reflexivity.
Qed.

Lemma required_missing_filter (p : EnrollmentPlan) :
  required_missing p =
  sorted_by_key ltb course_id
    (filter (fun c => negb (has_course p (course_id c)))
            (required_courses (catalog p))).
Proof.
  unfold required_missing. cbv zeta. f_equal.
  apply filter_ext. intros c. rewrite mem_planned. reflexivity.
Qed.

Lemma Permutation_filter' {A : Type} (f : A -> bool) (l l' : list A) :
  Permutation l l' -> Permutation (filter f l) (filter f l').
Proof.
  induction 1 as [|x l l' _ IH|x y l|l l' l'' _ IH1 _ IH2]; simpl.
  - constructor.
  - destruct (f x); [constructor|]; exact IH.
  - destruct (f x), (f y); try apply Permutation_refl.
    constructor.
  - eapply Permutation_trans; eassumption.
Qed.

Lemma filter_nil {A : Type} (f : A -> bool) (l : list A) :
  (forall x, In x l -> f x = false) <-> filter f l = [].
Proof.
  induction l as [|a l IH]; simpl.
  - split; auto. intros _ x [].
  - split.
    + intros H. rewrite (H a (or_introl eq_refl)). apply IH.
      intros x Hx. apply H. right; exact Hx.
    + destruct (f a) eqn:E; [discriminate|].
      intros H x [<-|Hx]; [exact E|]. apply IH; assumption.
Qed.

Lemma sorted_by_key_nil {K A : Type} (lt : K -> K -> bool) (key : A -> K)
    (l : list A) :
  sorted_by_key lt key l = [] <-> l = [].
Proof.
  split.
  - intros H. pose proof (sorted_by_key_perm lt key l) as P.
    rewrite H in P. apply Permutation_nil in P. exact P.
  - intros ->. reflexivity.
Qed.

(** X14. On a plan over a catalog that [Catalog] built, [required_missing]
    lists exactly the required courses of the catalog that are not
    enrolled, in strictly ascending order of identifier; these are the
    courses [auto_add_all_required] goes through, and once it has
    returned no required course is missing. *)
Theorem required_missing_and_the_batch (cs : list Course) (p : EnrollmentPlan) :
  Catalog_init cs = Ok (catalog p) ->
  (forall c, In c (required_missing p) <->
             In c cs /\ course_type c = u "必修"
             /\ has_course p (course_id c) = false)
  /\ StronglySorted (fun a b => ltb (course_id a) (course_id b) = true)
                    (required_missing p)
  /\ Permutation (required_missing p) (pending p)
  /\ (forall a p', auto_add_all_required p = Returned a p' ->
        required_missing p' = []).
Proof.
  intros Hc. pose proof (required_NoDup _ _ Hc) as [Hreq Hnd].
  set (f := fun c : Course => negb (has_course p (course_id c))).
  assert (HP : Permutation (required_missing p)
                 (filter f (required_courses (catalog p)))).
  { rewrite required_missing_filter.
    apply (sorted_by_key_perm ltb course_id). }
  split; [|split; [|split]].
  - intros c. split.
    + intros H. apply (Permutation_in _ HP) in H.
      apply filter_In in H as [H1 H2]. rewrite Hreq in H1.
      apply filter_In in H1 as [H1 H3]. apply str_eqb_eq in H3.
      apply negb_true_iff in H2. auto.
    + intros (H1 & H2 & H3).
      apply (Permutation_in _ (Permutation_sym HP)).
      apply filter_In. split.
      * rewrite Hreq. apply filter_In. split; [exact H1|].
        apply str_eqb_eq; exact H2.
      * unfold f. rewrite H3. reflexivity.
  - apply (sorted_strictly ltb str_ltb_total course_id).
    + rewrite required_missing_filter.
      apply (sorted_by_key_sorted ltb str_ltb_asym str_ltb_trans
               str_ltb_total course_id).
    + apply (Permutation_NoDup
               (Permutation_map course_id (Permutation_sym HP))).
      apply NoDup_map_filter; exact Hnd.
  - eapply Permutation_trans; [exact HP|].
    unfold pending. apply Permutation_filter'.
    apply Permutation_sym, by_season_then_id_perm.
  - intros a p' H.
    rewrite (auto_add_all_required_unfold _ _ Hc) in H.
    pose proof (enroll_each_outcome (pending p) p) as Ho.
    rewrite H in Ho. subst p'.
    rewrite required_missing_filter. apply sorted_by_key_nil.
    cbn [catalog with_items]. apply filter_nil.
    intros c Hin. apply negb_false_iff. apply has_course_In.
    cbn [items with_items]. rewrite map_app. apply in_or_app.
    destruct (has_course p (course_id c)) eqn:Hh.
    + left. apply has_course_In; exact Hh.
    + right. rewrite map_map. cbn [item_of new_item item_course_id].
      apply in_map. unfold pending. apply filter_In. split.
      * apply (Permutation_in _
                 (Permutation_sym (by_season_then_id_perm _))); exact Hin.
      * rewrite Hh. reflexivity.
Qed.

(** X15. Where the elective credits can be computed, [validate] returns
    one message for each missing required course and one more when the
    elective credits are below the requirement; it reports nothing
    exactly when every required course of the catalog is enrolled and the
    elective credits are not below the requirement. *)
Theorem validate_reports (p : EnrollmentPlan) (e : float) :
  elective_credits p = Ok e ->
  exists msgs,
    validate p = Ok msgs
    /\ List.length msgs
       = (List.length (required_missing p)
          + if (e <? elective_credit_requirement p)%float then 1 else 0)%nat
    /\ (msgs = [] <->
        (forall c, In c (required_courses (catalog p)) ->
                   has_course p (course_id c) = true)
        /\ (e <? elective_credit_requirement p) = false).
Proof.
  intros He. unfold validate. cbv zeta. rewrite He. unfold bind.
  assert (Hm : required_missing p = [] <->
               forall c, In c (required_courses (catalog p)) ->
                         has_course p (course_id c) = true).
  { rewrite required_missing_filter, sorted_by_key_nil, <- filter_nil.
    split; intros H c Hc; specialize (H c Hc).
    - apply negb_false_iff in H; exact H.
    - apply negb_false_iff; exact H. }
  destruct (e <? elective_credit_requirement p); eexists;
    (split; [reflexivity|]).
  - split.
    + rewrite length_app, length_map. reflexivity.
    + split.
      * intros H. apply (f_equal (@List.length _)) in H.
        rewrite length_app in H. simpl in H. lia.
      * intros [_ H]; discriminate H.
  - split.
    + rewrite length_map. lia.
    + rewrite <- Hm. split.
      * intros H. split; [|reflexivity].
        destruct (required_missing p); [reflexivity|discriminate H].
      * intros [-> _]. reflexivity.
Qed.

(** *** Courses by semester *)

Lemma lookup_group_append (y k : str) (v : Course)
    (B : list (str * list Course)) :
  lookup y (group_append k v B) =
  if eqb k y
  then Some (match lookup k B with Some vs => vs ++ [v] | None => [v] end)
  else lookup y B.
Proof.
  induction B as [|[k' vs] B IH]; simpl.
  - destruct (eqb k y); reflexivity.
  - destruct (eqb k' k) eqn:Ek; simpl.
    + apply str_eqb_eq in Ek. subst k'. destruct (eqb k y); reflexivity.
    + rewrite IH. destruct (eqb k y) eqn:Ey; [|reflexivity].
      apply str_eqb_eq in Ey. subst y. rewrite Ek. reflexivity.
Qed.

Lemma group_append_keys (k : str) (v : Course) (B : list (str * list Course)) :
  map fst (group_append k v B)
  = map fst B ++ (if mem k (map fst B) then [] else [k]).
Proof.
  unfold mem. induction B as [|[k' vs] B IH]; simpl; [reflexivity|].
  rewrite (str_eqb_sym k k').
  destruct (eqb k' k); simpl.
  - rewrite app_nil_r. reflexivity.
  - rewrite IH. reflexivity.
Qed.

Lemma mem_In (x : str) (l : list str) : mem x l = true <-> In x l.
Proof.
  unfold mem. rewrite existsb_exists. split.
  - intros (y & Hy & E). apply str_eqb_eq in E. subst y. exact Hy.
  - intros H. exists x. split; [exact H | apply str_eqb_refl].
Qed.

Lemma lookup_In {V : Type} (B : list (str * V)) (y : str) (v : V) :
  NoDup (map fst B) -> (In (y, v) B <-> lookup y B = Some v).
Proof.
  induction B as [|[k' v'] B IH]; simpl; intros H.
  - split; [contradiction | discriminate].
  - inversion H as [|? ? Hk' HB]; subst.
    destruct (eqb k' y) eqn:E.
    + apply str_eqb_eq in E. subst k'. split.
      * intros [E | Hin]; [inversion E; reflexivity|].
        exfalso. apply Hk'. apply (in_map fst) in Hin. exact Hin.
      * intros E. inversion E. auto.
    + apply str_eqb_neq in E. rewrite <- (IH HB). split; [|auto].
      intros [E' | Hin]; [inversion E'; contradiction | exact Hin].
Qed.

Lemma lookup_empty_slots (sem : str) (L : list str) :
  lookup sem (map (fun s => (s, @nil Course)) L)
  = if mem sem L then Some [] else None.
Proof.
  unfold mem. induction L as [|s L IH]; simpl; [reflexivity|].
  rewrite (str_eqb_sym sem s). destruct (eqb s sem); [reflexivity|exact IH].
Qed.

Lemma mapM_In {A B : Type} (f : A -> result B) (l : list A) (bs : list B) :
  mapM f l = Ok bs ->
  forall x, In x l -> exists b, f x = Ok b /\ In b bs.
Proof.
  revert bs. induction l as [|a l IH]; intros bs; simpl.
  - intros _ x [].
  - destruct (f a) as [b|e] eqn:Ea; [|discriminate]. unfold bind at 1.
    destruct (mapM f l) as [bs'|e]; [|discriminate].
    intros H; inversion H; subst bs. intros x [<-|Hx].
    + exists b. split; [exact Ea | left; reflexivity].
    + destruct (IH _ eq_refl x Hx) as (b' & H1 & H2).
      exists b'. split; [exact H1 | right; exact H2].
Qed.

Lemma grouped_loop_Ok (cat : Catalog) (l : list PlanItem) :
  forall out out',
    grouped_loop cat l out = Ok out' ->
    NoDup (map fst out) ->
    NoDup (map fst out')
    /\ (exists extra,
          map fst out' = map fst out ++ extra
          /\ forall s, In s extra <->
                       In s (map actual_semester l) /\ ~ In s (map fst out))
    /\ forall sem,
         exists cs,
           mapM (fun i => Catalog_get cat (item_course_id i))
                (filter (fun i => eqb (actual_semester i) sem) l) = Ok cs
           /\ lookup sem out' =
              match lookup sem out with
              | Some vs => Some (vs ++ cs)
              | None => match cs with [] => None | _ => Some cs end
              end.
Proof.
  induction l as [|it l IH]; intros out out'.
  - simpl. intros H Hnd; inversion H; subst out'.
    split; [exact Hnd|]. split.
    + exists []. rewrite app_nil_r. split; [reflexivity|].
      intros s; simpl; tauto.
    + intros sem. exists []. split; [reflexivity|].
      destruct (lookup sem out); [rewrite app_nil_r|]; reflexivity.
  - cbn [grouped_loop].
    destruct (Catalog_get cat (item_course_id it)) as [c|e] eqn:Hc;
      [|discriminate].
    unfold bind. intros H Hnd.
    set (k := actual_semester it) in *.
    assert (Hk : map fst (group_append k c out)
                 = map fst out ++ (if mem k (map fst out) then [] else [k]))
      by apply group_append_keys.
    assert (Hnd1 : NoDup (map fst (group_append k c out))).
    { rewrite Hk. destruct (mem k (map fst out)) eqn:Em.
      - rewrite app_nil_r; exact Hnd.
      - apply (Permutation_NoDup (Permutation_cons_append _ k)).
        constructor; [|exact Hnd]. intros Hin.
        apply mem_In in Hin. congruence. }
    destruct (IH _ _ H Hnd1) as (Hn' & (extra & Hex & Hin) & Hlk).
    split; [exact Hn'|]. split.
    + exists ((if mem k (map fst out) then [] else [k]) ++ extra).
      split; [rewrite Hex, Hk, <- app_assoc; reflexivity|].
      intros s. rewrite in_app_iff, Hin, Hk, in_app_iff. cbn [map].
      destruct (mem k (map fst out)) eqn:Em.
      * apply mem_In in Em. simpl. split.
        -- intros [[]|[H1 H2]]. split; [right; exact H1|tauto].
        -- intros [[H1|H1] H2]; [subst s; contradiction|].
           right. split; [exact H1|tauto].
      * assert (Hnk : ~ In k (map fst out)).
        { intros Hi. apply mem_In in Hi. congruence. }
        simpl. split.
        -- intros [[<-|[]]|[H1 H2]]; [tauto|]. split; [right; exact H1|tauto].
        -- intros [[H1|H1] H2]; [left; left; exact H1|].
           destruct (eqb k s) eqn:Es.
           ++ apply str_eqb_eq in Es. left; left; exact Es.
           ++ apply str_eqb_neq in Es. right. split; [exact H1|].
              intros [H3|[H3|[]]]; [contradiction | contradiction].
    + intros sem. destruct (Hlk sem) as (cs & Hm & Hl).
      rewrite lookup_group_append in Hl. cbn [filter]. fold k.
      destruct (eqb k sem) eqn:Es.
      * apply str_eqb_eq in Es. subst sem.
        exists (c :: cs). split.
        -- cbn [mapM]. rewrite Hc, Hm. reflexivity.
        -- rewrite Hl. destruct (lookup k out).
           ++ rewrite <- app_assoc. reflexivity.
           ++ reflexivity.
      * exists cs. split; [exact Hm | exact Hl].
Qed.

(** X16. What [grouped] returns has the twelve planning semesters first,
    in their order, then the other semesters of the items, each once.
    Under a semester that [ensure_actual_semester] accepts unchanged it
    holds the list [courses_in_semester] returns for it, and the course of
    every item is in the list of the semester of the item. *)
Theorem grouped_agrees_with_courses_in_semester
    (p : EnrollmentPlan) (out : list (str * list Course)) :
  grouped p = Ok out ->
  NoDup (map fst out)
  /\ (exists extra,
        map fst out = PLAN_SEMESTERS ++ extra
        /\ forall s, In s extra <->
                     In s (map actual_semester (items p))
                     /\ ~ In s PLAN_SEMESTERS)
  /\ (forall sem l,
        In (sem, l) out ->
        ensure_actual_semester sem = Ok sem ->
        courses_in_semester p sem = Ok l)
  /\ (forall i, In i (items p) ->
        exists l c,
          In (actual_semester i, l) out
          /\ Catalog_get (catalog p) (item_course_id i) = Ok c
          /\ In c l).
Proof.
  unfold grouped. cbv zeta.
  destruct (grouped_loop _ _ _) as [out'|e] eqn:Hg; [|discriminate].
  unfold bind. intros H; inversion H; subst out. clear H.
  assert (Hk0 : map fst (map (fun s => (s, @nil Course)) PLAN_SEMESTERS)
                = PLAN_SEMESTERS).
  { rewrite map_map. simpl. reflexivity. }
  assert (Hnd0 : NoDup (map fst (map (fun s => (s, @nil Course))
                                     PLAN_SEMESTERS))).
  { rewrite Hk0. unfold PLAN_SEMESTERS.
    repeat (constructor;
            [simpl; intros Hin;
             repeat (destruct Hin as [Hin|Hin]; [discriminate Hin|]);
             exact Hin|]).
    constructor. }
  destruct (grouped_loop_Ok _ _ _ _ Hg Hnd0) as (Hnd & (extra & Hex & Hin) & Hlk).
  assert (Hkeys : map fst (map (fun kv : str * list Course =>
                                  (fst kv, sorted_by_key ltb course_id (snd kv)))
                               out')
                  = map fst out').
  { rewrite map_map. reflexivity. }
  rewrite Hk0 in Hex, Hin.
  assert (Hbucket : forall sem vs,
            In (sem, vs) out' ->
            mapM (fun i => Catalog_get (catalog p) (item_course_id i))
                 (filter (fun i => eqb (actual_semester i) sem) (items p))
            = Ok vs).
  { intros sem vs Hvs. apply (lookup_In _ _ _ Hnd) in Hvs.
    destruct (Hlk sem) as (cs & Hm & Hl). rewrite Hvs in Hl.
    rewrite lookup_empty_slots in Hl.
    destruct (mem sem PLAN_SEMESTERS).
    - inversion Hl; subst vs. exact Hm.
    - destruct cs; [discriminate Hl|]. inversion Hl; subst vs. exact Hm. }
  rewrite Hkeys. split; [exact Hnd|]. split; [|split].
  - exists extra. split; [exact Hex | exact Hin].
  - intros sem l Hl Hs. apply in_map_iff in Hl as ([k vs] & E & Hvs).
    cbn [fst snd] in E. inversion E; subst k l.
    unfold courses_in_semester. rewrite Hs. unfold bind at 1.
    rewrite (Hbucket _ _ Hvs). reflexivity.
  - intros i Hi. destruct (Hlk (actual_semester i)) as (cs & Hm & Hl).
    assert (Hif : In i (filter (fun j => eqb (actual_semester j)
                                             (actual_semester i)) (items p))).
    { apply filter_In. split; [exact Hi | apply str_eqb_refl]. }
    destruct (mapM_In _ _ _ Hm i Hif) as (c & Hc & Hcs).
    assert (Hvs : In (actual_semester i, cs) out').
    { apply (lookup_In _ _ _ Hnd). rewrite Hl, lookup_empty_slots.
      destruct (mem (actual_semester i) PLAN_SEMESTERS); [reflexivity|].
      destruct cs; [contradiction|reflexivity]. }
    exists (sorted_by_key ltb course_id cs), c.
    split; [|split; [exact Hc|]].
    + apply in_map_iff. exists (actual_semester i, cs). split; [reflexivity|].
      exact Hvs.
    + apply (Permutation_in _
               (Permutation_sym (sorted_by_key_perm ltb course_id cs))).
      exact Hcs.
Qed.

(** *** The semester chart *)

Lemma mapM_Ok_inv {A B : Type} (f : A -> result B) (l : list A) (bs : list B) :
  mapM f l = Ok bs -> Forall (fun x => succeeds (f x)) l.
Proof.
  intros H. apply Forall_forall. intros x Hx.
  destruct (mapM_In _ _ _ H x Hx) as (b & Hb & _). exists b; exact Hb.
Qed.

Lemma semester_credits_then_gpa (p : EnrollmentPlan) (sem : str) (c : float) :
  semester_credits p sem = Ok c -> succeeds (semester_gpa p sem).
Proof.
  unfold semester_credits, semester_gpa.
  destruct (ensure_actual_semester sem) as [sem'|e]; [|discriminate].
  unfold bind at 1 3. cbv zeta.
  destruct (mapM _ _) as [cs|e] eqn:Hm; [|discriminate]. intros _.
  apply aggregate_succeeds. apply mapM_Ok_inv in Hm.
  revert Hm. apply Forall_impl. intros i [x Hx].
  destruct (Catalog_get (catalog p) (item_course_id i)) as [c0|e] eqn:E;
    [|discriminate Hx].
  exists c0; exact E.
Qed.

Lemma collect_loop_Ok (p : EnrollmentPlan) (sems : list str) :
  forall labels values notes,
    collect_loop p sems labels values notes =
    Ok (labels ++ filter (shown p) sems,
        values ++ map (bar_value p) (filter (shown p) sems),
        notes ++ map (bar_note p) (filter (shown p) sems)).
Proof.
  induction sems as [|sem sems IH]; intros labels values notes.
  - simpl. rewrite !app_nil_r. reflexivity.
  - cbn [collect_loop filter].
    assert (Hsh : shown p sem = match semester_credits p sem with
                                | Ok c => negb (c <=? 0)
                                | Raise _ => false
                                end) by reflexivity.
    rewrite Hsh. clear Hsh.
    destruct (semester_credits p sem) as [c|e] eqn:Hc; [|apply IH].
    destruct (c <=? 0); cbn [negb]; [apply IH|].
    destruct (semester_credits_then_gpa _ _ _ Hc) as [[avg missing] Hg].
    rewrite Hg. unfold bind. cbn [map].
    assert (Hv : bar_value p sem = match avg with Some a => a | None => 0 end).
    { unfold bar_value. rewrite Hg. reflexivity. }
    assert (Hn : bar_note p sem =
                 match avg with
                 | Some _ => []
                 | None => if (0 <? missing)%nat
                           then [PLit "缺"; PInt (Z.of_nat missing); PLit "门"]
                           else [PLit "暂无"]
                 end).
    { unfold bar_note. rewrite Hg. destruct avg; reflexivity. }
    rewrite Hv, Hn.
    destruct avg as [a|]; rewrite IH, <- !app_assoc; reflexivity.
Qed.

(** X17. [_collect_semester_gpa] raises for no plan. The semesters it goes
    through are the twelve planning semesters; it returns one bar for each
    of them whose credits can be computed and are above 0, in their
    order: the height is the GPA of the semester, or 0.0 when it has
    none, and the note is empty exactly when it has one. *)
Theorem collect_semester_gpa_bars (plan : EnrollmentPlan) :
  viz_semesters = PLAN_SEMESTERS
  /\ _collect_semester_gpa plan
     = Ok (filter (shown plan) PLAN_SEMESTERS,
           map (bar_value plan) (filter (shown plan) PLAN_SEMESTERS),
           map (bar_note plan) (filter (shown plan) PLAN_SEMESTERS))
  /\ (forall sem, shown plan sem = true ->
        exists avg missing,
          semester_gpa plan sem = Ok (avg, missing)
          /\ (bar_note plan sem = [] <-> avg <> None)
          /\ (avg = None -> bar_value plan sem = 0)).
Proof.
  split; [reflexivity|]. split.
  - unfold _collect_semester_gpa.
    change viz_semesters with PLAN_SEMESTERS.
    rewrite collect_loop_Ok. reflexivity.
  - intros sem Hs. unfold shown in Hs.
    destruct (semester_credits plan sem) as [c|e] eqn:Hc; [|discriminate].
    destruct (semester_credits_then_gpa _ _ _ Hc) as [[avg missing] Hg].
    exists avg, missing. split; [exact Hg|].
    unfold bar_note, bar_value. rewrite Hg. split.
    + destruct avg as [a|].
      * split; [discriminate | reflexivity].
      * split; [|intros H; contradiction].
        destruct (0 <? missing)%nat; discriminate.
    + intros ->. reflexivity.
Qed.

(** *** The term limit *)

Lemma add_course_within_limit (p : EnrollmentPlan) (cid sem : str) :
  within_limit p -> within_limit (outcome_plan (add_course cid sem p)).
Proof.
  intros Hp.
  destruct (add_course cid sem p) as [a p'|e p'] eqn:H; cbn [outcome_plan].
  - destruct (add_course_credits _ _ _ _ _ H)
      as (c & current & _ & Hcur & Hcur' & Hcap & Hother & _).
    pose proof (add_course_grows p cid sem) as Hg. rewrite H in Hg.
    destruct Hg as (_ & Hlim & _). cbn [outcome_plan] in Hlim.
    assert (Hens : ensure_actual_semester sem = Ok (strip sem)).
    { revert Hcur. unfold semester_credits.
      destruct (ensure_actual_semester sem) as [s|e0] eqn:E; [|discriminate].
      apply ensure_actual_semester_Ok in E as [-> _]. reflexivity. }
    intros sem2 c2 H2.
    destruct (ensure_actual_semester sem2) as [s2|e2] eqn:E2.
    + destruct (eqb s2 (strip sem)) eqn:Es.
      * apply str_eqb_eq in Es. subst s2.
        rewrite (semester_credits_stripped _ _ _ E2) in H2.
        rewrite (semester_credits_stripped _ _ _ Hens) in Hcur'.
        rewrite Hcur' in H2. inversion H2; subst c2. exact Hcap.
      * apply str_eqb_neq in Es.
        rewrite (Hother _ _ E2 Es) in H2. rewrite Hlim.
        apply (Hp _ _ H2).
    + unfold semester_credits in H2. rewrite E2 in H2. discriminate H2.
  - rewrite (add_course_raised_unchanged _ _ _ _ _ H). exact Hp.
Qed.

(** X18. The term limit is an invariant of enrolling and grading: when no
    term of a plan is above the limit, none is after [add_course],
    [set_gpa] or [auto_add_all_required], whether the call returns or
    raises. *)
Theorem term_limit_is_kept (p : EnrollmentPlan) :
  within_limit p ->
  (forall cid sem, within_limit (outcome_plan (add_course cid sem p)))
  /\ (forall cid g, within_limit (outcome_plan (set_gpa cid g p)))
  /\ within_limit (outcome_plan (auto_add_all_required p)).
Proof.
  intros Hp. split; [|split].
  - intros cid sem. apply add_course_within_limit; exact Hp.
  - intros cid g sem c.
    destruct (set_gpa_enrollment p cid g) as (_ & _ & _ & _ & Hs & _).
    cbv zeta in Hs. rewrite Hs.
    assert (Hl : term_credit_limit (outcome_plan (set_gpa cid g p))
                 = term_credit_limit p).
    { rewrite set_gpa_unfold. destruct (validate_gpa g); [|reflexivity].
      destruct (has_course p cid); reflexivity. }
    rewrite Hl. apply Hp.
  - apply (auto_add_all_required_keeps within_limit); [|exact Hp].
    intros q cid sem Hq. apply add_course_within_limit; exact Hq.
Qed.

(** *** Repeating an operation *)

Lemma batch_enrolls_all_required (cs : list Course) (p p' : EnrollmentPlan)
    (a : unit) :
  Catalog_init cs = Ok (catalog p) ->
  auto_add_all_required p = Returned a p' ->
  catalog p' = catalog p
  /\ forall c, In c (required_courses (catalog p)) ->
               has_course p' (course_id c) = true.
Proof.
  intros Hc H.
  rewrite (auto_add_all_required_unfold _ _ Hc) in H.
  pose proof (enroll_each_outcome (pending p) p) as Ho.
  rewrite H in Ho. subst p'. split; [reflexivity|].
  intros c Hin. apply has_course_In.
  cbn [items with_items]. rewrite map_app. apply in_or_app.
  destruct (has_course p (course_id c)) eqn:Hh.
  - left. apply has_course_In; exact Hh.
  - right. rewrite map_map. cbn [item_of new_item item_course_id].
    apply in_map. unfold pending. apply filter_In. split.
    + apply (Permutation_in _
               (Permutation_sym (by_season_then_id_perm _))); exact Hin.
    + rewrite Hh. reflexivity.
Qed.

(** X19. [auto_add_all_required] is idempotent once it has returned: a
    second call on the resulting plan returns as well and changes
    nothing, every required course of the catalog being enrolled. *)
Theorem auto_add_all_required_twice
    (cs : list Course) (p p' : EnrollmentPlan) (a : unit) :
  Catalog_init cs = Ok (catalog p) ->
  auto_add_all_required p = Returned a p' ->
  auto_add_all_required p' = Returned tt p'
  /\ forall c, In c cs -> course_type c = u "必修" ->
               has_course p' (course_id c) = true.
Proof.
  intros Hc H.
  destruct (batch_enrolls_all_required _ _ _ _ Hc H) as [Hcat Hall].
  split.
  - assert (Hc' : Catalog_init cs = Ok (catalog p')) by (rewrite Hcat; exact Hc).
    rewrite (auto_add_all_required_unfold _ _ Hc').
    assert (E : pending p' = []).
    { unfold pending. apply filter_nil. intros c Hin.
      apply negb_false_iff. apply Hall. rewrite <- Hcat.
      apply (Permutation_in _ (by_season_then_id_perm _)); exact Hin. }
    rewrite E. reflexivity.
  - intros c Hin Ht. apply Hall.
    rewrite (proj1 (required_NoDup _ _ Hc)). apply filter_In.
    split; [exact Hin | apply str_eqb_eq; exact Ht].
Qed.

Lemma set_first_twice (cid : str) (v1 v2 : option float) (l : list PlanItem) :
  set_first cid v2 (set_first cid v1 l) = set_first cid v2 l.
Proof.
  induction l as [|i l IH]; simpl; [reflexivity|].
  destruct (eqb (item_course_id i) cid) eqn:E; simpl; rewrite E.
  - reflexivity.
  - rewrite IH. reflexivity.
Qed.

(** X20. The last grade wins: after a [set_gpa] that returned, a second
    [set_gpa] for the same course with an argument [validate_gpa] accepts
    leaves the plan that this second call alone would have left, and
    repeating the first call changes nothing. *)
Theorem set_gpa_last_write_wins
    (p p1 : EnrollmentPlan) (cid : str) (g1 g2 : gpa_arg) (a : unit) :
  set_gpa cid g1 p = Returned a p1 ->
  set_gpa cid g1 p1 = Returned tt p1
  /\ (forall v2, validate_gpa g2 = Ok v2 ->
        set_gpa cid g2 p1 = set_gpa cid g2 p).
Proof.
  rewrite set_gpa_unfold.
  destruct (validate_gpa g1) as [v1|e] eqn:Hv1; [|discriminate].
  destruct (has_course p cid) eqn:Hh; [|discriminate].
  intros H; inversion H; subst p1. clear H.
  assert (Hh1 : has_course (with_items p (set_first cid v1 (items p))) cid
                = true).
  { unfold has_course. cbn [items with_items].
    rewrite existsb_set_first. exact Hh. }
  split.
  - rewrite set_gpa_unfold, Hv1, Hh1. cbn [items with_items].
    rewrite set_first_twice, with_items_twice. reflexivity.
  - intros v2 Hv2. rewrite !set_gpa_unfold, Hv2, Hh1, Hh.
    cbn [items with_items].
    rewrite set_first_twice, with_items_twice. reflexivity.
Qed.

(** *** The grades [validate_gpa] accepts *)

Lemma SFcompare_None (x y : spec_float) :
  SFcompare x y = None -> x = S754_nan \/ y = S754_nan.
Proof.
  destruct x as [sx|sx| |sx mx ex], y as [sy|sy| |sy my ey]; simpl;
    try discriminate; auto.
Qed.

Lemma SFcompare_refl (x : spec_float) :
  x <> S754_nan -> SFcompare x x = Some Eq.
Proof.
  destruct x as [s|s| |s m e]; simpl; intros H.
  - reflexivity.
  - destruct s; reflexivity.
  - contradiction.
  - rewrite Z.compare_refl, Pos.compare_cont_refl.
    destruct s; reflexivity.
Qed.

Lemma is_nan_spec (v : float) : is_nan v = true <-> Prim2SF v = S754_nan.
Proof.
  unfold is_nan. rewrite FloatAxioms.eqb_spec. unfold SFeqb. split.
  - intros H. destruct (Prim2SF v) as [s|s| |s m e] eqn:E; [| |reflexivity|];
      rewrite SFcompare_refl in H; discriminate.
  - intros ->. reflexivity.
Qed.

Lemma ltb_false_leb (x y : float) :
  (x <? y) = false ->
  Prim2SF x <> S754_nan -> Prim2SF y <> S754_nan ->
  (y <=? x) = true.
Proof.
  rewrite leb_spec, ltb_spec. unfold SFleb, SFltb. intros H Hx Hy.
  rewrite (SFcompare_antisym (Prim2SF x) (Prim2SF y)).
  destruct (SFcompare (Prim2SF x) (Prim2SF y)) as [[| |]|] eqn:E; simpl;
    try reflexivity; try discriminate H.
  apply SFcompare_None in E. tauto.
Qed.

Lemma nan_ltb (x y : float) :
  Prim2SF x = S754_nan \/ Prim2SF y = S754_nan -> (x <? y) = false.
Proof.
  rewrite ltb_spec. unfold SFltb. intros [H|H]; rewrite H.
  - reflexivity.
  - destruct (Prim2SF x); reflexivity.
Qed.

(** X21. [validate_gpa] accepts a number exactly when it is between 0 and
    4, bounds included, or is not a number at all: a NaN is neither below
    0 nor above 4, so it passes the range check and is stored as a grade. *)
Theorem validate_gpa_accepts_iff (v : float) :
  ((exists r, validate_gpa (GpaValue v) = Ok r) <->
   (0 <=? v) && (v <=? 4) = true \/ is_nan v = true)
  /\ (is_nan v = true ->
      validate_gpa (GpaValue v) = Ok (Some (py_round v 2))).
Proof.
  assert (H0 : Prim2SF 0 <> S754_nan) by (vm_compute; discriminate).
  assert (H4 : Prim2SF 4 <> S754_nan) by (vm_compute; discriminate).
  assert (Hn : is_nan v = true ->
               validate_gpa (GpaValue v) = Ok (Some (py_round v 2))).
  { intros H. apply is_nan_spec in H. unfold validate_gpa.
    rewrite (nan_ltb v 0 (or_introl H)), (nan_ltb 4 v (or_intror H)).
    reflexivity. }
  split; [|exact Hn]. split.
  - intros [r H]. unfold validate_gpa in H.
    destruct (v <? 0) eqn:E1; [discriminate|].
    destruct (4 <? v) eqn:E2; [discriminate|].
    destruct (is_nan v) eqn:En; [right; reflexivity|left].
    assert (Hv : Prim2SF v <> S754_nan).
    { intros Hv. apply is_nan_spec in Hv. congruence. }
    rewrite (ltb_false_leb _ _ E1 Hv H0), (ltb_false_leb _ _ E2 H4 Hv).
    reflexivity.
  - intros [H|H].
    + apply andb_true_iff in H as [H1 H2]. unfold validate_gpa.
      rewrite (leb_true_ltb_false _ _ H1), (leb_true_ltb_false _ _ H2).
      eexists; reflexivity.
    + eexists. apply Hn; exact H.
Qed.

(** *** The years of [yearly_gpa] *)

Lemma mapM_keeps_keys {A B : Type} (f : Z * A -> result (Z * B))
    (l : list (Z * A)) (r : list (Z * B)) :
  (forall x y, f x = Ok y -> fst y = fst x) ->
  mapM f l = Ok r -> map fst r = map fst l.
Proof.
  intros Hf. revert r. induction l as [|x l IH]; intros r; simpl.
  - intros H; inversion H; reflexivity.
  - destruct (f x) as [y|e] eqn:E; [|discriminate]. unfold bind at 1.
    destruct (mapM f l) as [r'|e]; [|discriminate].
    intros H; inversion H; subst r. simpl.
    rewrite (Hf _ _ E), (IH _ eq_refl). reflexivity.
Qed.

Lemma Z_ltb_total (a b : Z) :
  (a <? b)%Z = false -> (b <? a)%Z = false -> a = b.
Proof. intros H1 H2. apply Z.ltb_ge in H1, H2. lia. Qed.

Lemma StronglySorted_map_fst {A : Type} (l : list (Z * A)) :
  StronglySorted (fun a b => (fst a <? fst b)%Z = true) l ->
  StronglySorted Z.lt (map fst l).
Proof.
  induction 1 as [|a l _ IH Hf]; simpl; constructor; [exact IH|].
  apply Forall_forall. intros y Hy. apply in_map_iff in Hy as (b & <- & Hb).
  rewrite Forall_forall in Hf. apply Z.ltb_lt. apply Hf; exact Hb.
Qed.

(** X22. The years [yearly_gpa] returns are strictly ascending, and they
    are exactly the years of the semesters of the items: a year is
    listed when, and only when, some item is scheduled in it. *)
Theorem yearly_gpa_years_ascending
    (p : EnrollmentPlan) (ys : list (Z * (option float * nat))) :
  yearly_gpa p = Ok ys ->
  StronglySorted Z.lt (map fst ys)
  /\ forall y, In y (map fst ys) <->
               exists i, In i (items p)
                         /\ py_int (removelast (actual_semester i)) = Ok y.
Proof.
  unfold yearly_gpa.
  destruct (yearly_buckets (items p) []) as [B|e] eqn:HB; [|discriminate].
  unfold bind. intros H.
  apply yearly_buckets_inv in HB as [-> Hyears].
  destruct (buckets_fold (items p) [] [] (NoDup_nil _) (fun y => eq_refl))
    as [Hnd Hlk].
  cbv zeta in Hnd, Hlk. cbn [app] in Hlk.
  set (B := fold_left (fun b it => bucket_append (year_of it) it b)
                      (items p) []) in *.
  assert (Hkeys : map fst ys = map fst (py_sorted Z.ltb B)).
  { apply (mapM_keeps_keys _ _ _) in H; [exact H|].
    intros [y vs] r. destruct vs as [|i vs].
    - intros E; inversion E; reflexivity.
    - cbv zeta. destruct (0 <? count_missing (i :: vs))%nat.
      + intros E; inversion E; reflexivity.
      + destruct (weighted_totals (catalog p) (i :: vs) 0 0) as [[w c]|e];
          [|discriminate].
        unfold bind. destruct (c <=? 0); intros E; inversion E; reflexivity. }
  rewrite Hkeys. split.
  - apply StronglySorted_map_fst.
    apply (sorted_strictly Z.ltb Z_ltb_total fst).
    + apply (py_sorted_sorted Z.ltb); [| |exact Z_ltb_total].
      * intros a b Hab. apply Z.ltb_lt in Hab. apply Z.ltb_ge. lia.
      * intros a b c Hab Hbc. apply Z.ltb_lt in Hab, Hbc. apply Z.ltb_lt. lia.
    + apply (Permutation_NoDup
               (Permutation_map fst
                  (Permutation_sym (py_sorted_perm Z.ltb B)))).
      exact Hnd.
  - intros y.
    assert (Hin : In y (map fst (py_sorted Z.ltb B)) <-> In y (map fst B)).
    { split; apply Permutation_in; [|apply Permutation_sym];
        apply Permutation_map, py_sorted_perm. }
    rewrite Hin. rewrite Forall_forall in Hyears. split.
    + intros Hy. apply in_map_iff in Hy as ([y' vs] & <- & Hvs).
      cbn [fst]. apply (zlookup_In _ _ _ Hnd) in Hvs.
      rewrite Hlk in Hvs. apply in_year_nonempty in Hvs as [Hne _].
      destruct (in_year y' (items p)) as [|i l] eqn:E; [contradiction|].
      assert (Hi : In i (in_year y' (items p))) by (rewrite E; left; reflexivity).
      apply filter_In in Hi as [Hi Hy]. apply Z.eqb_eq in Hy.
      exists i. split; [exact Hi|]. rewrite (Hyears _ Hi), Hy. reflexivity.
    + intros (i & Hi & Hy). rewrite (Hyears _ Hi) in Hy.
      inversion Hy as [Ey].
      assert (Hne : in_year y (items p) <> []).
      { intros E.
        assert (Hii : In i (in_year y (items p))).
        { apply filter_In. split; [exact Hi | apply Z.eqb_eq; exact Ey]. }
        rewrite E in Hii. contradiction. }
      assert (Hz : zlookup y B = Some (in_year y (items p))).
      { rewrite Hlk. apply in_year_nonempty. auto. }
      apply (zlookup_In _ _ _ Hnd) in Hz.
      apply (in_map fst) in Hz. rewrite Ey. exact Hz.
Qed.

End Core.

(** ** The claims on the example data *)

Open Scope float_scope.

(** C1. [load_from_config] validates the semester, the GPA and the catalog
    membership of each plan item and appends it without the duplicate
    check of [add_course]: the document that enrolls A1 twice loads into a
    plan with two items for A1, whereas adding A1 to a plan that has it
    raises the duplicate-enrollment error. *)
Theorem load_from_config_keeps_duplicate_items :
  load_from_config round_half_even ascii_digits_only dup_document
  = Ok (catalog_of [course_A1; course_B1],
        with_items
          (EnrollmentPlan_init (catalog_of [course_A1; course_B1]) 30 15)
          [{| item_course_id := u "A1"; actual_semester := u "1秋";
              gpa := None |};
           {| item_course_id := u "A1"; actual_semester := u "2秋";
              gpa := Some 3.5 |}])
  /\ add_course ascii_digits_only (u "A1") (u "2秋") cap_plan_A1
     = Raised (ValueError [Lit "重复选课："; Fstr (u "A1"); Lit " ";
                           Fstr (u "A1")])
              cap_plan_A1.
Proof. split; vm_compute; reflexivity. Qed.

(** A graded course goes back to ungraded when an absent GPA is set. *)
Lemma set_gpa_absent_clears_grade :
  state_of gpa_plan (u "G1") = Graded
  /\ set_gpa round_half_even (u "G1") GpaNone gpa_plan
     = Returned tt
         (with_items gpa_plan
            [{| item_course_id := u "G1"; actual_semester := u "1秋";
                gpa := None |};
             {| item_course_id := u "G2"; actual_semester := u "1秋";
                gpa := Some 4 |}])
  /\ state_of
       (outcome_plan (set_gpa round_half_even (u "G1") GpaNone gpa_plan))
       (u "G1")
     = Ungraded.
Proof. repeat split; vm_compute; reflexivity. Qed.

Lemma course_state_transitions_witness :
  state_of (outcome_plan (set_gpa round_half_even (u "G1") GpaNone gpa_plan))
           (u "G1")
  = Ungraded.
Proof.
  destruct (course_state_transitions round_half_even ascii_digits_only
              (SetGpa (u "G1") GpaNone) gpa_plan (u "G1"))
    as [H | [(sem & H & _) | [(v & H & _) | [(_ & _ & H) | (H & _)]]]];
    try discriminate H.
  exact H.
Defined.



(** The scenario of the specification: with term limit 3.0, A1 (3 credits)
    enters the empty term 1秋, reaching the ceiling exactly, and B1
    (2 credits) is then refused there, the message carrying 3, 2 and 3. *)
Lemma add_course_credit_cap_witness :
  add_course ascii_digits_only (u "A1") (u "1秋") cap_plan
  = Returned tt cap_plan_A1
  /\ add_course ascii_digits_only (u "B1") (u "1秋") cap_plan_A1
     = Raised (ValueError (credit_cap_message (u "1秋") 3 2 3)) cap_plan_A1.
Proof.
  split.
  - destruct (add_course_credit_cap ascii_digits_only cap_plan (u "A1") (u "1秋"))
      as (_ & _ & H).
    apply (H (u "1秋") course_A1 0); [|vm_compute; reflexivity].
    repeat split; vm_compute; reflexivity.
  - destruct (add_course_credit_cap ascii_digits_only cap_plan_A1 (u "B1") (u "1秋"))
      as (H & _ & _).
    apply H. exists (u "1秋"), course_B1, 3.
    repeat split; vm_compute; reflexivity.
Defined.

Lemma add_then_remove_round_trip_witness :
  add_course ascii_digits_only (u "A1") (u "1秋") cap_plan
  = Returned tt cap_plan_A1
  /\ remove_course (u "A1") cap_plan_A1 = Returned tt cap_plan
  /\ total_credits cap_plan = Ok 0
  /\ has_course cap_plan (u "A1") = false.
Proof.
  assert (H : add_course ascii_digits_only (u "A1") (u "1秋") cap_plan
              = Returned tt cap_plan_A1) by (vm_compute; reflexivity).
  destruct (add_then_remove_round_trip ascii_digits_only cap_plan cap_plan_A1
              (u "A1") (u "1秋") tt H) as (Hh & p2 & Hr & _ & _ & ->).
  split; [exact H|]. split; [exact Hr|]. split; [|exact Hh].
  vm_compute. reflexivity.
Defined.

(** A course tagged 5秋 has an explicit year and season; the batch enrolls
    it in 4秋, while [add_course] accepts 5秋 for it. *)
Lemma auto_add_all_required_fifth_year :
  ACTUAL_SEM_RE ascii_digits_only (semester course_D5) = true
  /\ auto_add_all_required ascii_digits_only far_plan
     = Returned tt (with_items far_plan [new_item (u "D5") (u "4秋")])
  /\ add_course ascii_digits_only (u "D5") (semester course_D5) far_plan
     = Returned tt (with_items far_plan [new_item (u "D5") (u "5秋")])
  /\ u "4秋" <> semester course_D5.
Proof.
  repeat split; try (vm_compute; reflexivity).
  vm_compute. discriminate.
Qed.

Lemma auto_add_all_required_batch_witness :
  Catalog_init ascii_digits_only [course_A1; course_B1] = Ok (catalog cap_plan)
  /\ auto_add_all_required ascii_digits_only cap_plan
     = enroll_each ascii_digits_only (pending ascii_digits_only cap_plan) cap_plan.
Proof.
  assert (H : Catalog_init ascii_digits_only [course_A1; course_B1]
              = Ok (catalog cap_plan)) by (vm_compute; reflexivity).
  split; [exact H|].
  apply (auto_add_all_required_batch ascii_digits_only
           [course_A1; course_B1] cap_plan H).
Defined.

(** An out-of-range GPA for a course that is not enrolled raises the GPA
    error, not the not-found error. *)
Lemma set_gpa_invalid_before_not_found :
  has_course cap_plan (u "ZZ") = false
  /\ set_gpa round_half_even (u "ZZ") (GpaValue 5) cap_plan
     = Raised (ValueError [Lit "绩点必须在 0~4.0 之间。"]) cap_plan.
Proof. split; vm_compute; reflexivity. Qed.

Lemma set_gpa_value_then_enrollment_witness :
  exists p',
    set_gpa round_half_even (u "G1") (GpaValue 3.25) gpa_plan = Returned tt p'
    /\ get_gpa p' (u "G1") = Ok (Some (round_half_even 3.25 2)).
Proof.
  destruct (set_gpa_value_then_enrollment round_half_even gpa_plan (u "G1"))
    as (_ & _ & _ & H & _).
  destruct (H 3.25) as (p' & H1 & H2 & _); try (vm_compute; reflexivity).
  exists p'. split; assumption.
Defined.

Lemma remove_course_deletes_every_item_witness :
  remove_course (u "A1") dup_plan
  = Returned tt
      (with_items dup_plan
         [{| item_course_id := u "B1"; actual_semester := u "1秋";
             gpa := Some 4 |}])
  /\ has_course
       (with_items dup_plan
          [{| item_course_id := u "B1"; actual_semester := u "1秋";
              gpa := Some 4 |}])
       (u "A1") = false.
Proof.
  assert (H : remove_course (u "A1") dup_plan
              = Returned tt
                  (with_items dup_plan
                     [{| item_course_id := u "B1"; actual_semester := u "1秋";
                         gpa := Some 4 |}])) by (vm_compute; reflexivity).
  split; [exact H|].
  apply (remove_course_deletes_every_item dup_plan _ (u "A1") tt H).
Defined.

Lemma gpa_plan_listed : Forall (listed (catalog gpa_plan)) (items gpa_plan).
Proof.
  repeat constructor; eexists; vm_compute; reflexivity.
Qed.





Lemma credit_progress_rows_order_and_remaining_witness :
  exists rows,
    credit_progress_rows round_half_even gpa_plan example_requirements = Ok rows
    /\ map row_category rows = [u "思政"; u "体育"; u "专业必修"; u "人文"].
Proof.
  assert (Hnd : NoDup (map fst example_requirements)).
  { vm_compute. repeat constructor; simpl; intuition discriminate. }
  destruct (credit_progress_rows_order_and_remaining round_half_even gpa_plan
              example_requirements Hnd gpa_plan_listed)
    as (prog & rows & extra & _ & H & _).
  exists rows. split; [exact H|].
  vm_compute in H. inversion H. vm_compute. reflexivity.
Defined.

(** ** Further properties on the example data *)

Lemma extract_season_is_last_char_witness :
  extract_season ascii_digits_only (u " 2春 ") = Ok (u "春")
  /\ u "春" = last_char (strip (u " 2春 "))
  /\ mem (u "春") SEASONS = true.
Proof.
  assert (H : extract_season ascii_digits_only (u " 2春 ") = Ok (u "春"))
    by (vm_compute; reflexivity).
  split; [exact H|].
  destruct (extract_season_is_last_char ascii_digits_only _ _ H)
    as (H1 & H2 & _).
  split; assumption.
Defined.

(** 2春 is an actual semester, 春 alone is a course tag only. *)
Lemma actual_semester_is_tag_with_year_witness :
  ensure_actual_semester ascii_digits_only (u "2春") = Ok (strip (u "2春"))
  /\ ensure_actual_semester ascii_digits_only (u "春")
     = Raise (ValueError [Lit "实际学期必须形如 1秋/2春/3夏，当前：";
                          Fstr (u "春")]).
Proof.
  split.
  - apply (actual_semester_is_tag_with_year ascii_digits_only
             (u "2春") (u "春")).
    + vm_compute; reflexivity.
    + vm_compute; discriminate.
  - apply (actual_semester_is_tag_with_year ascii_digits_only
             (u "春") (u "春")); vm_compute; reflexivity.
Defined.

Lemma Catalog_get_after_init_witness :
  Catalog_get (catalog cap_plan) (course_id course_B1) = Ok course_B1
  /\ Catalog_get (catalog cap_plan) (u "ZZ")
     = Raise (KeyError [Lit "未找到课程编号："; Fstr (u "ZZ")]).
Proof.
  assert (H : Catalog_init ascii_digits_only [course_A1; course_B1]
              = Ok (catalog cap_plan)) by (vm_compute; reflexivity).
  destruct (Catalog_get_after_init ascii_digits_only _ _ H)
    as (_ & H1 & _ & H2).
  split.
  - apply H1. right; left; reflexivity.
  - apply H2. vm_compute. intros [E|[E|[]]]; discriminate E.
Defined.

(** G1 is required and G2 is not, both offered in fall. *)
Lemma offered_in_by_type_lists_witness :
  exists req ele,
    offered_in_by_type ascii_digits_only (catalog gpa_plan) (u " 秋 ")
    = Ok (req, ele)
    /\ In course_G1 req /\ In course_G2 ele.
Proof.
  assert (H : Catalog_init ascii_digits_only [course_G1; course_G2]
              = Ok (catalog gpa_plan)) by (vm_compute; reflexivity).
  destruct (offered_in_by_type_lists ascii_digits_only _ _ (u " 秋 ") H)
    as [_ H2].
  destruct H2 as (req & ele & E & Hr & He & _); [vm_compute; reflexivity|].
  exists req, ele. split; [exact E|]. split.
  - apply Hr. split; [left; reflexivity|]. split; vm_compute; reflexivity.
  - apply He. split; [right; left; reflexivity|].
    split; [vm_compute; reflexivity | vm_compute; discriminate].
Defined.

(** A1 (3 credits) enters the empty term 1秋. *)
Lemma add_course_adds_credits_witness :
  exists c current,
    Catalog_get (catalog cap_plan) (u "A1") = Ok c
    /\ semester_credits ascii_digits_only cap_plan (u "1秋") = Ok current
    /\ semester_credits ascii_digits_only cap_plan_A1 (u "1秋")
       = Ok (current + credits c).
Proof.
  assert (H : add_course ascii_digits_only (u "A1") (u "1秋") cap_plan
              = Returned tt cap_plan_A1) by (vm_compute; reflexivity).
  destruct (add_course_adds_credits ascii_digits_only _ _ _ _ _ H)
    as (c & current & H1 & H2 & H3 & _).
  exists c, current. auto.
Defined.

Lemma add_course_twice_is_rejected_witness :
  exists c,
    Catalog_get (catalog cap_plan_A1) (u "A1") = Ok c
    /\ add_course ascii_digits_only (u "A1") (u "2秋") cap_plan_A1
       = Raised (ValueError [Lit "重复选课："; Fstr (course_id c);
                             Lit " "; Fstr (name c)]) cap_plan_A1.
Proof.
  assert (H : add_course ascii_digits_only (u "A1") (u "1秋") cap_plan
              = Returned tt cap_plan_A1) by (vm_compute; reflexivity).
  destruct (add_course_twice_is_rejected ascii_digits_only _ _ _ _ _ H)
    as (c & H1 & H2).
  exists c. split; [exact H1|].
  apply (H2 (u "2秋") (u "2秋")). vm_compute; reflexivity.
Defined.

(** A1 is offered in fall and is refused in 1春. *)
Lemma add_course_season_rule_witness :
  exists msg,
    add_course ascii_digits_only (u "A1") (u "1春") cap_plan
    = Raised (ValueError msg) cap_plan.
Proof.
  eexists.
  apply (add_course_season_rule ascii_digits_only cap_plan (u "A1") (u "1春")
           (u "1春") (u "秋") course_A1);
    try (vm_compute; reflexivity).
  vm_compute; discriminate.
Defined.

Lemma cap_plan_consistent : consistent round_half_even ascii_digits_only cap_plan.
Proof. split; constructor. Qed.

Lemma mutations_keep_plan_consistent_witness :
  consistent round_half_even ascii_digits_only
    (outcome_plan
       (run_op round_half_even ascii_digits_only
          (AddCourse (u "A1") (u "1秋")) cap_plan)).
Proof.
  apply (mutations_keep_plan_consistent round_half_even ascii_digits_only
           cap_plan cap_plan_consistent).
Defined.


Lemma gpa_plan_item_ok :
  Forall (item_ok round_half_even ascii_digits_only (catalog gpa_plan))
         (items gpa_plan).
Proof.
  apply Forall_cons; [|apply Forall_cons; [|apply Forall_nil]].
  - split; [exists course_G1; vm_compute; reflexivity|].
    split; [vm_compute; reflexivity|].
    exists (GpaValue 3.5). vm_compute; reflexivity.
  - split; [exists course_G2; vm_compute; reflexivity|].
    split; [vm_compute; reflexivity|].
    exists (GpaValue 4). vm_compute; reflexivity.
Qed.

Lemma long_semester_actual :
  ACTUAL_SEM_RE ascii_digits_only long_semester = true.
Proof.
  unfold long_semester, ACTUAL_SEM_RE. rewrite split_last_app.
  vm_compute. reflexivity.
Qed.

Lemma long_year_plan_item_ok :
  Forall (item_ok round_half_even ascii_digits_only (catalog long_year_plan))
         (items long_year_plan).
Proof.
  change (items long_year_plan) with [new_item (u "A1") long_semester].
  apply Forall_cons; [|apply Forall_nil].
  split; [exists course_A1; reflexivity|].
  split; [exact long_semester_actual | exists GpaNone; reflexivity].
Qed.

(** A1 enrolled in a semester whose year has 4301 digits, a semester
    [ensure_actual_semester] accepts: the plan is well formed,
    [overall_gpa] returns and [yearly_gpa] raises. *)
Lemma queries_on_well_formed_plan_witness :
  succeeds (total_credits gpa_plan)
  /\ succeeds (yearly_gpa round_half_even ascii_digits_only gpa_plan)
  /\ ensure_actual_semester ascii_digits_only long_semester = Ok long_semester
  /\ succeeds (overall_gpa round_half_even long_year_plan)
  /\ ~ succeeds (yearly_gpa round_half_even ascii_digits_only long_year_plan).
Proof.
  destruct (queries_on_well_formed_plan round_half_even ascii_digits_only
              gpa_plan gpa_plan_item_ok)
    as (H1 & _ & _ & _ & _ & [H2 _] & _).
  destruct (queries_on_well_formed_plan round_half_even ascii_digits_only
              long_year_plan long_year_plan_item_ok)
    as (_ & _ & _ & H4 & _ & [H5 _] & _).
  split; [exact H1|]. split; [|split; [|split; [exact H4|]]].
  - apply H2.
    apply Forall_cons; [|apply Forall_cons; [|apply Forall_nil]];
      apply Nat.leb_le; vm_compute; reflexivity.
  - unfold ensure_actual_semester.
    rewrite (ACTUAL_SEM_RE_strip _ _ long_semester_actual),
      long_semester_actual.
    reflexivity.
  - intros H. apply H5 in H. apply Forall_inv in H.
    change (actual_semester (new_item (u "A1") long_semester))
      with long_semester in H.
    unfold long_semester in H. rewrite removelast_last, repeat_length in H.
    apply Nat.leb_le in H. vm_compute in H. discriminate H.
Defined.

Lemma gpa_plan_reloadable :
  Forall (reloadable round_half_even ascii_digits_only (catalog gpa_plan))
         (items gpa_plan).
Proof.
  repeat constructor;
    try (eexists; vm_compute; reflexivity);
    try (vm_compute; reflexivity).
Qed.

Lemma save_then_load_round_trip_witness :
  load_from_config round_half_even ascii_digits_only
    (save_to_config (catalog gpa_plan) gpa_plan)
  = Ok (catalog gpa_plan, gpa_plan).
Proof.
  apply (save_then_load_round_trip round_half_even ascii_digits_only
           [course_G1; course_G2] gpa_plan).
  - vm_compute; reflexivity.
  - exact gpa_plan_reloadable.
Defined.

Lemma required_missing_and_the_batch_witness :
  Permutation (required_missing cap_plan) (pending ascii_digits_only cap_plan)
  /\ In course_A1 (required_missing cap_plan).
Proof.
  assert (H : Catalog_init ascii_digits_only [course_A1; course_B1]
              = Ok (catalog cap_plan)) by (vm_compute; reflexivity).
  destruct (required_missing_and_the_batch ascii_digits_only _ _ H)
    as (H1 & _ & H3 & _).
  split; [exact H3|].
  apply H1. split; [left; reflexivity|]. split; vm_compute; reflexivity.
Defined.

(** G1 is enrolled and the elective credits, 1, are below the 15
    required: [validate] reports the electives only. *)
Lemma validate_reports_witness :
  exists msgs, validate gpa_plan = Ok msgs /\ List.length msgs = 1%nat.
Proof.
  assert (H : elective_credits gpa_plan = Ok 1) by (vm_compute; reflexivity).
  destruct (validate_reports gpa_plan 1 H) as (msgs & H1 & H2 & _).
  exists msgs. split; [exact H1|].
  rewrite H2. vm_compute. reflexivity.
Defined.

Lemma grouped_agrees_with_courses_in_semester_witness :
  exists out,
    grouped gpa_plan = Ok out
    /\ NoDup (map fst out)
    /\ exists l, In (u "1秋", l) out /\ In course_G1 l.
Proof.
  destruct (grouped gpa_plan) as [out|e] eqn:H;
    [|vm_compute in H; discriminate H].
  exists out. split; [reflexivity|].
  destruct (grouped_agrees_with_courses_in_semester ascii_digits_only
              gpa_plan out H) as (H1 & _ & _ & H4).
  split; [exact H1|].
  destruct (H4 {| item_course_id := u "G1"; actual_semester := u "1秋";
                  gpa := Some 3.5 |}) as (l & c & Hl & Hc & Hin).
  - left; reflexivity.
  - exists l. split; [exact Hl|].
    vm_compute in Hc. inversion Hc; subst c. exact Hin.
Defined.

Lemma cap_plan_within_limit : within_limit ascii_digits_only cap_plan.
Proof.
  intros sem c. unfold semester_credits.
  destruct (ensure_actual_semester ascii_digits_only sem); [|discriminate].
  simpl. intros H; inversion H. reflexivity.
Qed.

Lemma term_limit_is_kept_witness :
  within_limit ascii_digits_only
    (outcome_plan (add_course ascii_digits_only (u "A1") (u "1秋") cap_plan))
  /\ within_limit ascii_digits_only
       (outcome_plan (auto_add_all_required ascii_digits_only cap_plan)).
Proof.
  destruct (term_limit_is_kept round_half_even ascii_digits_only cap_plan
              cap_plan_within_limit) as (H1 & _ & H3).
  split; [apply H1 | exact H3].
Defined.

(** D5 is the only required course; a second batch finds nothing to add. *)
Lemma auto_add_all_required_twice_witness :
  auto_add_all_required ascii_digits_only
    (with_items far_plan [new_item (u "D5") (u "4秋")])
  = Returned tt (with_items far_plan [new_item (u "D5") (u "4秋")]).
Proof.
  apply (auto_add_all_required_twice ascii_digits_only [course_D5] far_plan
           (with_items far_plan [new_item (u "D5") (u "4秋")]) tt);
    vm_compute; reflexivity.
Defined.

Lemma set_gpa_last_write_wins_witness :
  exists p1,
    set_gpa round_half_even (u "G1") (GpaValue 3.25) gpa_plan = Returned tt p1
    /\ set_gpa round_half_even (u "G1") (GpaValue 3.25) p1 = Returned tt p1
    /\ set_gpa round_half_even (u "G1") GpaNone p1
       = set_gpa round_half_even (u "G1") GpaNone gpa_plan.
Proof.
  destruct (set_gpa round_half_even (u "G1") (GpaValue 3.25) gpa_plan)
    as [[] p1|e p1] eqn:H; [|vm_compute in H; discriminate H].
  exists p1. split; [reflexivity|].
  destruct (set_gpa_last_write_wins round_half_even gpa_plan p1 (u "G1")
              (GpaValue 3.25) GpaNone tt H) as [H1 H2].
  split; [exact H1|]. apply (H2 None). reflexivity.
Defined.

(** Both items of the example are scheduled in year 1. *)
Lemma yearly_gpa_years_ascending_witness :
  exists ys,
    yearly_gpa round_half_even ascii_digits_only gpa_plan = Ok ys
    /\ StronglySorted Z.lt (map fst ys)
    /\ In 1%Z (map fst ys).
Proof.
  destruct (yearly_gpa round_half_even ascii_digits_only gpa_plan)
    as [ys|e] eqn:H; [|vm_compute in H; discriminate H].
  exists ys. split; [reflexivity|].
  destruct (yearly_gpa_years_ascending round_half_even ascii_digits_only
              gpa_plan ys H) as [H1 H2].
  split; [exact H1|]. apply H2.
  exists {| item_course_id := u "G1"; actual_semester := u "1秋";
            gpa := Some 3.5 |}.
  split; [left; reflexivity | vm_compute; reflexivity].
Defined.
